(** * GraphFlix backend: query routing and graph-view shaping

    A shallow embedding of the request layer of the movie recommender
    API: the intent router and the handlers of [chat_agent.py], the
    visualisation shaper of [graph_analytics.py], the two similarity
    paths of [recommendation_engine.py] and the endpoints of [app.py].

    Text is modelled as ASCII [string]s.  Numbers that the store or
    Python would hold as floats are exact rationals ([Q]); every
    division in the modelled code has a small integer denominator, so
    comparisons against thresholds agree with the floating ones.

    The graph store and the language model are collaborators: where
    the code only passes a query on and reads rows back, they are
    oracles that may answer or raise; where the score or the order is
    computed inside the query text, the query is given its meaning
    over an explicit store. *)

From Stdlib Require Import String Ascii List Bool Arith ZArith QArith Lia.
From Stdlib Require Import Permutation Sorted DecimalString.
Import ListNotations.

Local Open Scope string_scope.
Local Open Scope list_scope.

(* ================================================================= *)
(** ** Python string primitives *)

Module Py.

(** One character of [str.lower()] on ASCII text. *)
Definition lower_ascii (c : ascii) : ascii :=
  let n := nat_of_ascii c in
  if (65 <=? n)%nat && (n <=? 90)%nat then ascii_of_nat (n + 32) else c.

Definition upper_ascii (c : ascii) : ascii :=
  let n := nat_of_ascii c in
  if (97 <=? n)%nat && (n <=? 122)%nat then ascii_of_nat (n - 32) else c.

(** [s.lower()] *)
Fixpoint lower (s : string) : string :=
  match s with
  | EmptyString => EmptyString
  | String c s' => String (lower_ascii c) (lower s')
  end.

Definition is_digit (c : ascii) : bool :=
  let n := nat_of_ascii c in (48 <=? n)%nat && (n <=? 57)%nat.

Definition is_alpha (c : ascii) : bool :=
  let n := nat_of_ascii c in
  ((65 <=? n)%nat && (n <=? 90)%nat) || ((97 <=? n)%nat && (n <=? 122)%nat).

(** [s.startswith(p)] *)
Fixpoint startswith (s p : string) : bool :=
  match p, s with
  | EmptyString, _ => true
  | String _ _, EmptyString => false
  | String a p', String b s' => Ascii.eqb a b && startswith s' p'
  end.

(** [needle in hay] on two strings: substring test. *)
Fixpoint str_in (needle hay : string) : bool :=
  startswith hay needle ||
  match hay with
  | EmptyString => false
  | String _ hay' => str_in needle hay'
  end.

(** [any(w in text for w in words)] *)
Definition any_in (words : list string) (text : string) : bool :=
  existsb (fun w => str_in w text) words.

(** [s[:n]] *)
Fixpoint take (n : nat) (s : string) : string :=
  match n, s with
  | S n', String c s' => String c (take n' s')
  | _, _ => EmptyString
  end.

(** [s.replace(old, "")] for a non-empty [old]: every occurrence, found
    left to right without overlap, is removed.  [skip] counts the
    characters of the occurrence still to be dropped. *)
Fixpoint remove_all_from (skip : nat) (old s : string) : string :=
  match s with
  | EmptyString => EmptyString
  | String c s' =>
      match skip with
      | S k => remove_all_from k old s'
      | O =>
          if startswith s old
          then remove_all_from (String.length old - 1) old s'
          else String c (remove_all_from 0 old s')
      end
  end.

Definition remove_all (old s : string) : string := remove_all_from 0 old s.

(** [str.isspace] on ASCII. *)
Definition is_space (c : ascii) : bool :=
  let n := nat_of_ascii c in
  ((9 <=? n)%nat && (n <=? 13)%nat) || ((28 <=? n)%nat && (n <=? 32)%nat).

Fixpoint lstrip (s : string) : string :=
  match s with
  | String c s' => if is_space c then lstrip s' else s
  | EmptyString => EmptyString
  end.

Fixpoint rstrip (s : string) : string :=
  match s with
  | EmptyString => EmptyString
  | String c s' =>
      match rstrip s' with
      | EmptyString => if is_space c then EmptyString else String c EmptyString
      | r => String c r
      end
  end.

(** [s.strip()] *)
Definition strip (s : string) : string := rstrip (lstrip s).

(** The digits of an integer literal, most significant first: single
    underscores may sit between digits; [after_digit] says that the
    previous character was a digit. *)
Fixpoint digits_value (acc : Z) (after_digit : bool) (s : string) : option Z :=
  match s with
  | EmptyString => if after_digit then Some acc else None
  | String c s' =>
      if is_digit c
      then digits_value (10 * acc + Z.of_nat (nat_of_ascii c - 48)) true s'
      else if Ascii.eqb c "_" && after_digit
      then digits_value acc false s'
      else None
  end.

(** [int(s)] on text, base ten: blanks around, an optional sign, the
    digits.  [None] stands for [ValueError]. *)
Definition int (s : string) : option Z :=
  match strip s with
  | EmptyString => None
  | String c rest =>
      if Ascii.eqb c "-" then option_map Z.opp (digits_value 0 false rest)
      else if Ascii.eqb c "+" then digits_value 0 false rest
      else digits_value 0 false (String c rest)
  end.

Fixpoint rev_string (acc s : string) : string :=
  match s with
  | EmptyString => acc
  | String c s' => rev_string (String c acc) s'
  end.

(** [s.split(sep)] for a non-empty [sep].  [cur] is the piece being
    read, reversed; [skip] counts the characters of the separator
    still to be passed over. *)
Fixpoint split_from (sep : string) (skip : nat) (cur s : string) : list string :=
  match s with
  | EmptyString => [rev_string EmptyString cur]
  | String c s' =>
      match skip with
      | S k => split_from sep k cur s'
      | O =>
          if startswith s sep
          then rev_string EmptyString cur
               :: split_from sep (String.length sep - 1) EmptyString s'
          else split_from sep 0 (String c cur) s'
      end
  end.

Definition split (sep s : string) : list string := split_from sep 0 EmptyString s.

(** [s.title()]: a letter that follows a letter is lowered, any other
    letter is raised. *)
Fixpoint title_from (after_letter : bool) (s : string) : string :=
  match s with
  | EmptyString => EmptyString
  | String c s' =>
      if is_alpha c
      then String (if after_letter then lower_ascii c else upper_ascii c)
                  (title_from true s')
      else String c (title_from false s')
  end.

Definition title (s : string) : string := title_from false s.

(** [sep.join(parts)] *)
Fixpoint join (sep : string) (parts : list string) : string :=
  match parts with
  | [] => EmptyString
  | [x] => x
  | x :: rest => x ++ sep ++ join sep rest
  end.

(** [str(n)] on integers. *)
Definition string_of_Z (z : Z) : string :=
  DecimalString.NilZero.string_of_int (Z.to_int z).

Definition string_of_nat (n : nat) : string :=
  DecimalString.NilZero.string_of_uint (Nat.to_uint n).

(** The line feed. *)
Definition nl : string := String (ascii_of_nat 10) EmptyString.

End Py.

(* ================================================================= *)
(** ** chat_agent.py: entity extraction and the intent router *)

Module ChatRouter.
Import Py.

(** The alias table of [extract_movie_titles], in insertion order (the
    order in which a Python dict is iterated). *)
Definition common_titles : list (string * list string) :=
  [ ("toy story", ["toy story"; "toy stories"; "toystory"; "toy storey"]);
    ("star wars", ["star wars"; "starwars"; "star war"]);
    ("the matrix", ["matrix"; "the matrix"]);
    ("jurassic park", ["jurassic park"; "jurassic"]);
    ("pulp fiction", ["pulp fiction"; "pulpfiction"]);
    ("the godfather", ["godfather"; "the godfather"]);
    ("titanic", ["titanic"]);
    ("inception", ["inception"]);
    ("avatar", ["avatar"]);
    ("the dark knight", ["dark knight"; "the dark knight"; "batman dark knight"]) ].

Definition extract_movie_titles (query : string) : list string :=
  let query_lower := lower query in
  map fst (filter (fun entry => any_in (snd entry) query_lower) common_titles).

Definition similarity_words : list string := ["similar"; "like"; "related"].
Definition routed_genres : list string :=
  ["comedy"; "action"; "drama"; "horror"; "sci-fi"].
Definition known_genres : list string :=
  ["comedy"; "action"; "drama"; "horror"; "sci-fi"; "thriller"; "romance"; "animation"].
Definition period_words : list string := ["90s"; "80s"; "2000s"; "1990"].

(** *** The year pattern [\b(19\d0s|20\d0s|\d{4})\b] *)

(** [\w] *)
Definition is_word (c : ascii) : bool :=
  is_digit c || is_alpha c || Ascii.eqb c "_".

Definition word_before (prev : option ascii) : bool :=
  match prev with Some c => is_word c | None => false end.

Definition word_next (s : string) : bool :=
  match s with String c _ => is_word c | EmptyString => false end.

(** [\b] between the character before the position and the rest. *)
Definition word_boundary (prev : option ascii) (rest : string) : bool :=
  xorb (word_before prev) (word_next rest).

(** One alternative [19\d0s] or [20\d0s], followed by [\b]. *)
Definition match_decade (c1 c2 : ascii) (s : string) : option string :=
  match s with
  | String a (String b (String d (String z (String e rest)))) =>
      if Ascii.eqb a c1 && Ascii.eqb b c2 && is_digit d
         && Ascii.eqb z "0" && Ascii.eqb e "s"
         && word_boundary (Some e) rest
      then Some (take 5 s) else None
  | _ => None
  end.

(** The alternative [\d{4}], followed by [\b]. *)
Definition match_four_digits (s : string) : option string :=
  match s with
  | String a (String b (String c (String d rest))) =>
      if is_digit a && is_digit b && is_digit c && is_digit d
         && word_boundary (Some d) rest
      then Some (take 4 s) else None
  | _ => None
  end.

(** The whole pattern tried at one position: the leading [\b], then
    the alternatives in the order written, each with its trailing
    [\b]. *)
Definition match_year_here (prev : option ascii) (s : string) : option string :=
  if word_boundary prev s then
    match match_decade "1" "9" s with
    | Some tok => Some tok
    | None =>
        match match_decade "2" "0" s with
        | Some tok => Some tok
        | None => match_four_digits s
        end
    end
  else None.

(** [re.findall(pattern, query)]: leftmost matches, scanning resumes
    after each match.  [skip] counts the characters of the last match
    still to be passed over. *)
Fixpoint findall_years_from (prev : option ascii) (skip : nat) (s : string)
  : list string :=
  match s with
  | EmptyString => []
  | String c s' =>
      match skip with
      | S k => findall_years_from (Some c) k s'
      | O =>
          match match_year_here prev s with
          | Some tok => tok :: findall_years_from (Some c) (String.length tok - 1) s'
          | None => findall_years_from (Some c) 0 s'
          end
      end
  end.

Definition findall_years (query : string) : list string :=
  findall_years_from None 0 query.

(** *** Dispatch *)

(** The handler call that [text_to_aql_to_text] returns through, with
    the arguments it passes. *)
Inductive dispatch : Type :=
| SimilarMoviesQuery (primary_movie : string)
| GenreQuery (genre : string) (is_top_rated : bool)
| YearQuery (year_str : string)
| StandardQuery (query : string).

(** The conditions of [text_to_aql_to_text], in the order written. *)
Definition select_handler (query : string) : dispatch :=
  let movie_titles := extract_movie_titles query in
  let q := lower query in
  match any_in similarity_words q, movie_titles with
  | true, primary_movie :: _ => SimilarMoviesQuery primary_movie
  | _, _ =>
      if any_in routed_genres q then
        match filter (fun genre => str_in genre q) known_genres with
        | genre :: _ => GenreQuery genre (str_in "top" q || str_in "best" q)
        | [] => StandardQuery query
        end
      else if any_in period_words q then
        match findall_years query with
        | year_str :: _ => YearQuery year_str
        | [] => StandardQuery query
        end
      else StandardQuery query
  end.

(** *** Year bounds of [handle_year_query] *)

(** [(start_year, end_year)]; [None] when [int] raises. *)
Definition year_bounds (year_str : string) : option (Z * Z) :=
  if (String.length year_str =? 4)%nat then
    match int year_str with
    | Some year => Some (year, year)
    | None => None
    end
  else
    match int (take 4 year_str) with
    | Some start_year => Some (start_year, (start_year + 9)%Z)
    | None => None
    end.

(** [period_name] of [handle_year_query]; [start_year] is the parsed
    bound. *)
Definition period_name (year_str : string) (start_year : Z) : string :=
  if (String.length year_str =? 4)%nat then string_of_Z start_year
  else take 4 year_str ++ "s".

(** *** Shapes of a year token *)

(** The two shapes a match of the year pattern can have. *)
Definition decade_shape (tok : string) : Prop :=
  exists c1 c2 d : ascii,
    tok = String c1 (String c2 (String d "0s"))
    /\ ((c1 = "1" /\ c2 = "9") \/ (c1 = "2" /\ c2 = "0"))%char
    /\ is_digit d = true.

Definition four_digit_shape (tok : string) : Prop :=
  exists a b c d : ascii,
    tok = String a (String b (String c (String d "")))
    /\ is_digit a = true /\ is_digit b = true
    /\ is_digit c = true /\ is_digit d = true.

(** The value of a digit character. *)
Definition digit (c : ascii) : Z := Z.of_nat (nat_of_ascii c - 48).

End ChatRouter.

(* ================================================================= *)
(** ** Python results and exceptions *)

(** An [Exception] instance.  [HTTPException] is FastAPI's subclass of
    [Exception]; every other exception is kept by class name and
    message. *)
Inductive exn : Type :=
| PyError (cls : string) (msg : string)
| HTTPException (status_code : Z) (detail : string).

Inductive result (A : Type) : Type :=
| Ok (value : A)
| Raise (e : exn).
Arguments Ok {A} value.
Arguments Raise {A} e.

(** [str(e)] *)
Definition exn_str (e : exn) : string :=
  match e with
  | PyError _ msg => msg
  | HTTPException status_code detail => Py.string_of_Z status_code ++ ": " ++ detail
  end.

(* ================================================================= *)
(** ** The graph schema *)

(** A document of [MovieLens_node].  A field the document may lack is
    an [option]; a field that is present holds a value of its schema
    type. *)
Record Node : Type := mkNode {
  n_id : string;                 (* _id *)
  n_original_id : option string; (* original_id *)
  n_type : option string;        (* type *)
  n_title : option string;       (* title *)
  n_name : option string;        (* name *)
  n_year : option Z;             (* year *)
  n_popularity : option Q        (* popularity *)
}.

(** A document of [MovieLens_node_to_MovieLens_node]. *)
Record Edge : Type := mkEdge {
  e_from : string;               (* _from *)
  e_to : string;                 (* _to *)
  e_type : option string;        (* type *)
  e_similarity : option Q;       (* similarity *)
  e_rating : option Q            (* rating *)
}.

Record Store : Type := mkStore {
  MovieLens_node : list Node;
  MovieLens_node_to_MovieLens_node : list Edge
}.

Definition opt_str_eqb (o : option string) (s : string) : bool :=
  match o with Some x => String.eqb x s | None => false end.

(** [dict.get(key, default)] on an optional field. *)
Definition get_or {A : Type} (field : option A) (default : A) : A :=
  match field with Some v => v | None => default end.

(** [f"movie_{movie_id}"] unless the prefix is already there. *)
Definition normalize_movie_id (movie_id : string) : string :=
  if Py.startswith movie_id "movie_" then movie_id else "movie_" ++ movie_id.

(** The lookup shared by [get_graph_data] and [find_similar_movies]:
    [FILTER movie._id == id OR movie.original_id == legacy LIMIT 1].
    This is what the lookup means when the id stands between its
    double quotes as itself, that is when it holds no double quote
    and no backslash.  The code splices the id into the text and
    escapes nothing: [QueryText.query] below has the text, and what
    an id with such a character does to it. *)
Definition movie_query (s : Store) (movie_id : string) : list Node :=
  let legacy := Py.remove_all "movie_" movie_id in
  firstn 1 (filter (fun movie =>
                      String.eqb (n_id movie) movie_id
                      || opt_str_eqb (n_original_id movie) legacy)
                   (MovieLens_node s)).

(* ================================================================= *)
(** ** graph_analytics.py: the visualisation shaper *)

Module GraphAnalytics.

(** One record of the [nodes] sub-query: a traversed vertex and
    [LENGTH(p.edges)], the number of edges walked from the centre. *)
Record traversed : Type := mkTraversed {
  node : Node;
  t_distance : Z
}.

(** The row of [subgraph_query]. *)
Record subgraph : Type := mkSubgraph {
  central : Node;
  nodes : list traversed;
  links : list Edge
}.

(** The connection: the collections, and the engine's answer to the
    traversal [FOR v, e, p IN 1..depth ANY central ...] for a centre
    id and a depth. *)
Record G_adb : Type := mkG {
  store : Store;
  subgraph_query : string -> Z -> result (list subgraph)
}.

Record ViewNode : Type := mkViewNode {
  id : string;
  label : string;
  type : string;
  year : option Z;
  group : string;
  distance : option Z   (* [None]: the entry has no such key *)
}.

Record ViewLink : Type := mkViewLink {
  source : string;
  target : string;
  link_type : string;   (* type *)
  weight : Q
}.

Record GraphView : Type := mkView {
  view_nodes : list ViewNode;
  view_links : list ViewLink
}.

Definition central_view (c : Node) : ViewNode :=
  {| id := n_id c;
     label := get_or (n_title c) (n_id c);
     type := get_or (n_type c) "unknown";
     year := n_year c;
     group := "central";
     distance := None |}.

Definition node_label (n : Node) (node_type : string) : string :=
  if String.eqb node_type "movie" then get_or (n_title n) (n_id n)
  else if String.eqb node_type "genre" then get_or (n_name n) (n_id n)
  else if String.eqb node_type "tag" then get_or (n_name n) (n_id n)
  else n_id n.

Definition node_view (node_data : traversed) : ViewNode :=
  let n := node node_data in
  let node_type := get_or (n_type n) "unknown" in
  {| id := n_id n;
     label := node_label n node_type;
     type := node_type;
     year := if String.eqb node_type "movie" then n_year n else None;
     group := node_type;
     distance := Some (t_distance node_data) |}.

Definition link_weight (link : Edge) : Q :=
  let link_type := get_or (e_type link) "unknown" in
  if String.eqb link_type "similar_to" then get_or (e_similarity link) (1 # 2)
  else if String.eqb link_type "rated" then get_or (e_rating link) 3 / 5
  else 1.

Definition link_view (link : Edge) : ViewLink :=
  {| source := e_from link;
     target := e_to link;
     link_type := get_or (e_type link) "unknown";
     weight := link_weight link |}.

Definition empty_view : GraphView := {| view_nodes := []; view_links := [] |}.

(** The formatting half of [get_graph_data]: the centre first, then
    one entry per traversed record, and one link per edge. *)
Definition shape (graph_data : subgraph) : GraphView :=
  {| view_nodes :=
       central_view (central graph_data) :: map node_view (nodes graph_data);
     view_links := map link_view (links graph_data) |}.

Definition get_graph_data (G : G_adb) (movie_id : string) (depth : Z)
  : result GraphView :=
  let movie_id := normalize_movie_id movie_id in
  match movie_query (store G) movie_id with
  | [] => Ok empty_view
  | central_movie :: _ =>
      let central_id := n_id central_movie in
      match subgraph_query G central_id depth with
      | Raise e => Raise e
      | Ok [] => Ok empty_view
      | Ok (graph_data :: _) => Ok (shape graph_data)
      end
  end.

End GraphAnalytics.

(* ================================================================= *)
(** ** recommendation_engine.py: the two similarity paths

    Both paths compute their score and their order inside the query
    text, so the queries are given their AQL meaning over the store:
    [FOR ... IN coll] walks the collection in order, [FILTER] keeps,
    [SORT] orders, [LIMIT n] keeps the first [n]. *)

Module RecommendationEngine.

(** AQL orders [null] before every number. *)
Definition aql_lt (a b : option Q) : bool :=
  match a, b with
  | None, None => false
  | None, Some _ => true
  | Some _, None => false
  | Some x, Some y => negb (Qle_bool y x)
  end.

Definition aql_eq (a b : option Q) : bool :=
  match a, b with
  | None, None => true
  | Some x, Some y => Qeq_bool x y
  | _, _ => false
  end.

(** [SORT] as a stable insertion sort: [before x y] says that [x] has
    to come strictly before [y]; rows the keys do not separate keep
    the order in which the enclosing [FOR] produced them (the query
    language itself leaves that order open). *)
Fixpoint sort_insert {A : Type} (before : A -> A -> bool) (x : A) (l : list A)
  : list A :=
  match l with
  | [] => [x]
  | y :: l' => if before y x then y :: sort_insert before x l' else x :: y :: l'
  end.

Definition aql_sort {A : Type} (before : A -> A -> bool) (l : list A) : list A :=
  fold_right (sort_insert before) [] l.

(** [DOCUMENT(id)]: the vertex an edge points to, [None] (AQL [null])
    for a dangling edge. *)
Definition document (s : Store) (doc_id : string) : option Node :=
  find (fun n => String.eqb (n_id n) doc_id) (MovieLens_node s).

(** [FOR v, e IN 1..1 OUTBOUND movie MovieLens_node_to_MovieLens_node] *)
Definition outbound (s : Store) (movie : Node) : list (option Node * Edge) :=
  map (fun e => (document s (e_to e), e))
      (filter (fun e => String.eqb (e_from e) (n_id movie))
              (MovieLens_node_to_MovieLens_node s)).

(** The sub-query
    [FILTER e.type == 'belongs_to' AND v.type == 'genre' RETURN v._id]. *)
Definition genres_of (s : Store) (movie : Node) : list string :=
  flat_map (fun ve =>
              match fst ve with
              | Some v =>
                  if opt_str_eqb (e_type (snd ve)) "belongs_to"
                     && opt_str_eqb (n_type v) "genre"
                  then [n_id v] else []
              | None => []
              end)
           (outbound s movie).

Record Recommendation : Type := mkRec {
  id : string;
  original_id : option string;
  title : string;
  year : option Z;
  similarity : Q;
  common_genre_count : option nat;   (* [None]: the entry has no such key *)
  reason : string
}.

(** *** The genre-overlap path *)

(** One row of [similar_query] in [get_recommendations_by_genre]. *)
Record genre_row : Type := mkGenreRow {
  g_movie : Node;
  g_similarity : Q;
  g_common_genre_count : nat
}.

(** [LENGTH(FOR genre IN movie_genres FILTER genre IN source RETURN genre)] *)
Definition count_common (movie_genres source_genres : list string) : nat :=
  List.length
    (filter (fun genre => existsb (String.eqb genre) source_genres) movie_genres).

(** [UNION(a, b)] of AQL appends its arguments and keeps duplicates
    ([UNION_DISTINCT] is the one that removes them). *)
Definition aql_union (a b : list string) : list string := a ++ b.

(** [common_genres / LENGTH(UNION(movie_genres, source_genres))] *)
Definition genre_similarity (movie_genres source_genres : list string) : Q :=
  Qred (inject_Z (Z.of_nat (count_common movie_genres source_genres))
        / inject_Z (Z.of_nat (List.length (aql_union movie_genres source_genres)))).

(** [SORT similarity DESC, movie.popularity DESC] *)
Definition genre_row_before (x y : genre_row) : bool :=
  let sx := Some (g_similarity x) in
  let sy := Some (g_similarity y) in
  aql_lt sy sx
  || (aql_eq sx sy
      && aql_lt (n_popularity (g_movie y)) (n_popularity (g_movie x))).

Definition genre_similar_query (s : Store) (movie_id : string)
           (source_genres : list string) (limit : nat) : list genre_row :=
  let candidates :=
    filter (fun movie => opt_str_eqb (n_type movie) "movie"
                         && negb (String.eqb (n_id movie) movie_id))
           (MovieLens_node s) in
  let scored :=
    flat_map (fun movie =>
                let movie_genres := genres_of s movie in
                let common_genres := count_common movie_genres source_genres in
                if (0 <? common_genres)%nat then
                  let similarity := genre_similarity movie_genres source_genres in
                  if Qle_bool (3 # 10) similarity
                  then [ {| g_movie := movie;
                            g_similarity := similarity;
                            g_common_genre_count := common_genres |} ]
                  else []
                else [])
             candidates in
  firstn limit (aql_sort genre_row_before scored).

Definition get_recommendations_by_genre (s : Store) (movie_id : string)
           (limit : nat) : list Recommendation :=
  let genre_result :=
    map (fun movie => (movie, genres_of s movie))
        (filter (fun movie => String.eqb (n_id movie) movie_id)
                (MovieLens_node s)) in
  match genre_result with
  | [] => []
  | (_, []) :: _ => []
  | (_, source_genres) :: _ =>
      map (fun item =>
             let movie := g_movie item in
             {| id := n_id movie;
                original_id := n_original_id movie;
                title := get_or (n_title movie) "Unknown";
                year := n_year movie;
                similarity := g_similarity item;
                common_genre_count := Some (g_common_genre_count item);
                reason := "Shares "
                          ++ Py.string_of_nat (g_common_genre_count item)
                          ++ " genres" |})
          (genre_similar_query s movie_id source_genres limit)
  end.

(** *** The direct-similarity path *)

(** One entry of the [similar] sub-query: the vertex reached and
    [e.similarity]. *)
Definition similar_row : Type := (option Node * Q)%type.

(** [SORT e.similarity DESC]: the only key. *)
Definition similar_row_before (x y : similar_row) : bool :=
  aql_lt (Some (snd y)) (Some (snd x)).

(** [FILTER e.type == 'similar_to' AND e.similarity >= threshold
     SORT e.similarity DESC LIMIT limit] *)
Definition similar_movies_of (s : Store) (movie : Node) (threshold : Q)
           (limit : nat) : list similar_row :=
  let kept :=
    flat_map (fun ve =>
                match e_similarity (snd ve) with
                | Some sim =>
                    if opt_str_eqb (e_type (snd ve)) "similar_to"
                       && Qle_bool threshold sim
                    then [(fst ve, sim)] else []
                | None => []
                end)
             (outbound s movie) in
  firstn limit (aql_sort similar_row_before kept).

(** The formatting loop; [movie["_id"]] on a [null] vertex raises. *)
Fixpoint format_similar (rows : list similar_row) : result (list Recommendation) :=
  match rows with
  | [] => Ok []
  | (None, _) :: _ =>
      Raise (PyError "TypeError" "'NoneType' object is not subscriptable")
  | (Some movie, sim) :: rest =>
      match format_similar rest with
      | Ok recs =>
          Ok ({| id := n_id movie;
                 original_id := n_original_id movie;
                 title := get_or (n_title movie) "Unknown";
                 year := n_year movie;
                 similarity := sim;
                 common_genre_count := None;
                 reason := "Direct similarity" |} :: recs)
      | Raise e => Raise e
      end
  end.

Definition find_similar_movies (s : Store) (movie_id : string)
           (threshold : Q) (limit : nat) : result (list Recommendation) :=
  let movie_id := normalize_movie_id movie_id in
  match movie_query s movie_id with
  | [] => Ok []
  | source_movie :: _ =>
      let source_id := n_id source_movie in
      let similar_result :=
        map (fun movie => (movie, similar_movies_of s movie threshold limit))
            (filter (fun movie => String.eqb (n_id movie) source_id)
                    (MovieLens_node s)) in
      match similar_result with
      | (_, (_ :: _) as similar_movies) :: _ => format_similar similar_movies
      | _ => Ok (get_recommendations_by_genre s source_id limit)
      end
  end.

(** *** What the specification asks of the genre score *)

Fixpoint dedup (l : list string) : list string :=
  match l with
  | [] => []
  | x :: l' => if existsb (String.eqb x) l' then dedup l' else x :: dedup l'
  end.

(** Shared genres over the genres of either movie, both taken as
    sets. *)
Definition jaccard (a b : list string) : Q :=
  let a := dedup a in
  let b := dedup b in
  Qred (inject_Z (Z.of_nat (List.length (filter (fun x => existsb (String.eqb x) b) a)))
        / inject_Z (Z.of_nat (List.length (dedup (a ++ b))))).

(** [x] may stand before [y] in a list ordered by [before]: [y] does
    not have to come strictly first. *)
Definition in_order {A : Type} (before : A -> A -> bool) (x y : A) : Prop :=
  before y x = false.

End RecommendationEngine.

(* ================================================================= *)
(** ** JSON values as Python sees them *)

#[local] Unset Elimination Schemes.
Inductive json : Type :=
| JNull
| JBool (b : bool)
| JNum (q : Q)
| JStr (s : string)
| JArr (items : list json)
| JObj (fields : list (string * json)).
#[local] Set Elimination Schemes.

(** Truth value of a Python object in a condition. *)
Definition truthy (j : json) : bool :=
  match j with
  | JNull => false
  | JBool b => b
  | JNum q => negb (Qeq_bool q 0)
  | JStr s => negb (String.eqb s "")
  | JArr items => match items with [] => false | _ => true end
  | JObj fields => match fields with [] => false | _ => true end
  end.

Fixpoint assoc (key : string) (fields : list (string * json)) : option json :=
  match fields with
  | [] => None
  | (k, v) :: rest => if String.eqb k key then Some v else assoc key rest
  end.

(** [obj.get(key, default)]; only a dict has the method. *)
Definition py_get (obj : json) (key : string) (default : json) : result json :=
  match obj with
  | JObj fields => Ok (get_or (assoc key fields) default)
  | _ => Raise (PyError "AttributeError" "object has no attribute 'get'")
  end.

(** [obj[key]] with a string key. *)
Definition py_item (obj : json) (key : string) : result json :=
  match obj with
  | JObj fields =>
      match assoc key fields with
      | Some v => Ok v
      | None => Raise (PyError "KeyError" ("'" ++ key ++ "'"))
      end
  | _ => Raise (PyError "TypeError" "object is not subscriptable by a string key")
  end.

(** Sequencing of calls that may raise. *)
Definition bind {A B : Type} (m : result A) (k : A -> result B) : result B :=
  match m with
  | Ok a => k a
  | Raise e => Raise e
  end.

Notation "x <- m ;; k" := (bind m (fun x => k))
  (at level 61, m at next level, right associativity).

(* ================================================================= *)
(** ** app.py: the endpoints *)

Module App.
Import GraphAnalytics.

(** What the client receives: the JSON body of a 200, or the status
    and detail of an error response. *)
Inductive response (A : Type) : Type :=
| Http200 (body : A)
| HttpError (status_code : Z) (detail : string).
Arguments Http200 {A} body.
Arguments HttpError {A} status_code detail.

(** The framework turns an [HTTPException] that leaves the endpoint
    into the response with its status; an endpoint whose parameter
    fails its declared bounds is never entered and the client gets
    422. *)
Definition validation_error {A : Type} : response A :=
  HttpError 422 "Unprocessable Entity".

(** [GET /graph/{movie_id}] with [depth: int = Query(2, ge=1, le=3)];
    [None] is a request without the parameter. *)
Definition get_movie_graph (G : G_adb) (movie_id : string) (depth : option Z)
  : response GraphView :=
  let depth := get_or depth 2%Z in
  if ((1 <=? depth) && (depth <=? 3))%Z then
    match get_graph_data G movie_id depth with
    | Ok graph_data => Http200 graph_data
    | Raise e => HttpError 500 ("Error fetching graph data: " ++ exn_str e)
    end
  else validation_error.

Record AnalyticsRequest : Type := mkAnalyticsRequest {
  query : string;
  context : option (list (string * json))
}.

(** The analytics functions and the chat agent behind [/analytics]. *)
Record Analytics : Type := mkAnalytics {
  calculate_pagerank : json -> result json;
  detect_communities : json -> result json;
  find_shortest_path : json -> json -> result json;
  calculate_centrality : json -> result json;
  query_movie_graph : string -> result json
}.

(** [request.context.get(key, default)]; the context may be [None]. *)
Definition context_get (request : AnalyticsRequest) (key : string) (default : json)
  : result json :=
  match context request with
  | Some fields => Ok (get_or (assoc key fields) default)
  | None => Raise (PyError "AttributeError"
                           "'NoneType' object has no attribute 'get'")
  end.

(** The body of the [try] block: the tagged payload, or whatever was
    raised inside it. *)
Definition run_analytics_try (A : Analytics) (request : AnalyticsRequest)
  : result (string * json) :=
  let q := Py.lower (query request) in
  if Py.str_in "pagerank" q then
    limit <- context_get request "limit" (JNum 10) ;;
    result <- calculate_pagerank A limit ;;
    Ok ("pagerank", result)
  else if Py.str_in "communit" q then
    algorithm <- context_get request "algorithm" (JStr "louvain") ;;
    result <- detect_communities A algorithm ;;
    Ok ("communities", result)
  else if Py.str_in "path" q || Py.str_in "route" q then
    source <- context_get request "source" JNull ;;
    target <- context_get request "target" JNull ;;
    if negb (truthy source) || negb (truthy target) then
      Raise (HTTPException 400
               "Source and target nodes are required for path analysis")
    else
      result <- find_shortest_path A source target ;;
      Ok ("path", result)
  else if Py.str_in "central" q then
    limit <- context_get request "limit" (JNum 10) ;;
    result <- calculate_centrality A limit ;;
    Ok ("centrality", result)
  else
    response <- query_movie_graph A (query request) ;;
    Ok ("general", response).

(** [POST /analytics]: the [try] block under its
    [except Exception as e: raise HTTPException(status_code=500, ...)].
    [HTTPException] is an [Exception], so the handler takes it too. *)
Definition run_analytics (A : Analytics) (request : AnalyticsRequest)
  : response (string * json) :=
  match run_analytics_try A request with
  | Ok body => Http200 body
  | Raise e => HttpError 500 ("Error running analytics: " ++ exn_str e)
  end.

(** What the specification says of the depth: it is brought into the
    interval from 1 to 3.  The endpoint has no such step. *)
Definition clamp_depth (depth : Z) : Z := Z.max 1 (Z.min 3 depth).

End App.

(* ================================================================= *)
(** ** chat_agent.py: the handlers and the fallback chain *)

Module ChatAgent.
Import Py ChatRouter.
Local Open Scope string_scope.

(** The queries the handlers send, by template and interpolated
    values.  The first and the third template of
    [handle_empty_results] are the same text. *)
Inductive aql : Type :=
| FindMovieByTitle (movie_title : string)
| FindMovieByFirstWord (movie_title : string)
| SimilarMovies (movie_id : json)
| MovieGenres (movie_id : json)
| GenreOverlap (movie_id : json) (genres : json)
| GenreMovies (genre : string) (is_top_rated : bool)
| YearMovies (start_year end_year : Z)
| YearMoviesRelaxed (start_year end_year : Z)
| Generated (aql_query : string)
| PopularMovies
| PopularMoviesWithGenres.

(** The message lists sent to the model. *)
Inductive prompt : Type :=
| AqlPrompt (query : string)
| FormatPrompt (query : string) (result_data : list json)
| ConversationalPrompt (query : string) (response : string).

(** The collaborators of one request.  [execute n q] is the list of
    rows of the [n]-th call [db_client.aql.execute(q)], [invoke n p]
    the [content] of the [n]-th call [llm.invoke(p)]; either may
    raise.  [render] and [fixed] print numbers and containers the way
    [str] and a [.nf] format do. *)
Record Runtime : Type := mkRuntime {
  execute : nat -> aql -> result (list json);
  invoke : nat -> prompt -> result string;
  render : json -> string;
  fixed : nat -> Q -> string
}.

(** The calls made so far, oldest first. *)
Record trace : Type := mkTrace {
  db_log : list aql;
  llm_log : list prompt
}.

Definition no_calls : trace := {| db_log := []; llm_log := [] |}.

(** A computation that calls the collaborators and may raise. *)
Definition M (A : Type) : Type := trace -> result A * trace.

Definition ret {A : Type} (a : A) : M A := fun t => (Ok a, t).

Definition raise {A : Type} (e : exn) : M A := fun t => (Raise e, t).

Definition bindM {A B : Type} (m : M A) (k : A -> M B) : M B :=
  fun t =>
    match m t with
    | (Ok a, t') => k a t'
    | (Raise e, t') => (Raise e, t')
    end.

Notation "'let*' x ':=' m 'in' k" := (bindM m (fun x => k))
  (at level 10, x name, m at level 100, k at level 200).

(** A step that touches no collaborator. *)
Definition lift {A : Type} (r : result A) : M A := fun t => (r, t).

(** [try: body except Exception as e: handler] *)
Definition try_except {A : Type} (body : M A) (handler : exn -> M A) : M A :=
  fun t =>
    match body t with
    | (Ok a, t') => (Ok a, t')
    | (Raise e, t') => handler e t'
    end.

Definition db_execute (R : Runtime) (q : aql) : M (list json) :=
  fun t =>
    (execute R (List.length (db_log t)) q,
     {| db_log := (db_log t ++ [q])%list; llm_log := llm_log t |}).

Definition llm_invoke (R : Runtime) (p : prompt) : M string :=
  fun t =>
    (invoke R (List.length (llm_log t)) p,
     {| db_log := db_log t; llm_log := (llm_log t ++ [p])%list |}).

(** *** Python on rows *)

(** [f"{x}"] *)
Definition py_str (R : Runtime) (j : json) : string :=
  match j with
  | JStr s => s
  | JNull => "None"
  | JBool true => "True"
  | JBool false => "False"
  | _ => render R j
  end.

(** [f"{x:.nf}"]: numbers only. *)
Definition py_fixed (R : Runtime) (n : nat) (j : json) : result string :=
  match j with
  | JNum q => Ok (fixed R n q)
  | JBool b => Ok (fixed R n (if b then 1 else 0))
  | JStr _ => Raise (PyError "ValueError" "Unknown format code 'f' for object of type 'str'")
  | _ => Raise (PyError "TypeError" "unsupported format string")
  end.

Fixpoint chars (s : string) : list json :=
  match s with
  | EmptyString => []
  | String c s' => JStr (String c EmptyString) :: chars s'
  end.

(** [for x in obj] *)
Definition py_iter (obj : json) : result (list json) :=
  match obj with
  | JArr items => Ok items
  | JStr s => Ok (chars s)
  | JObj fields => Ok (map (fun kv => JStr (fst kv)) fields)
  | _ => Raise (PyError "TypeError" "object is not iterable")
  end.

(** [obj[:3]] *)
Definition py_first3 (obj : json) : result json :=
  match obj with
  | JArr items => Ok (JArr (firstn 3 items))
  | JStr s => Ok (JStr (take 3 s))
  | _ => Raise (PyError "TypeError" "object cannot be sliced")
  end.

Fixpoint all_strings (items : list json) : result (list string) :=
  match items with
  | [] => Ok []
  | JStr s :: rest => parts <- all_strings rest ;; Ok (s :: parts)
  | _ :: _ => Raise (PyError "TypeError" "sequence item: expected str instance")
  end.

(** [', '.join(obj)] *)
Definition py_join (obj : json) : result string :=
  items <- py_iter obj ;;
  parts <- all_strings items ;;
  Ok (join ", " parts).

(** [key in obj] where [obj] is a dict. *)
Definition py_has_key (obj : json) (key : string) : result bool :=
  match obj with
  | JObj fields => Ok (match assoc key fields with Some _ => true | None => false end)
  | _ => Raise (PyError "TypeError" "argument is not a dict")
  end.

(** The body of a [for] loop that appends one piece of text per row. *)
Fixpoint each_line (line : json -> result string) (rows : list json)
  : result string :=
  match rows with
  | [] => Ok ""
  | row :: rest =>
      text <- line row ;;
      more <- each_line line rest ;;
      Ok (text ++ more)
  end.

(** [rows and rows[0].get(key)] as a condition. *)
Definition first_has (rows : list json) (key : string) : result bool :=
  match rows with
  | [] => Ok false
  | row :: _ => v <- py_get row key JNull ;; Ok (truthy v)
  end.

(** [f" ({year})" if year else ""] *)
Definition year_suffix (R : Runtime) (year : json) : string :=
  if truthy year then " (" ++ py_str R year ++ ")" else "".

(** [f" - Genres: {', '.join(genres[:3])}" if genres else ""] *)
Definition genres_suffix (genres : json) : result string :=
  if truthy genres then
    first <- py_first3 genres ;;
    joined <- py_join first ;;
    Ok (" - Genres: " ++ joined)
  else Ok "".

(** *** handle_similar_movies_by_genre *)

Definition genre_overlap_line (R : Runtime) (movie : json) : result string :=
  title <- py_get movie "title" (JStr "Unnamed movie") ;;
  year <- py_get movie "year" (JStr "") ;;
  common_count <- py_get movie "common_genre_count" (JNum 0) ;;
  movie_genres <- py_get movie "movie_genres" (JArr []) ;;
  first <- py_first3 movie_genres ;;
  joined <- py_join first ;;
  Ok ("- " ++ py_str R title ++ year_suffix R year ++ " - Shares "
      ++ py_str R common_count ++ " genres: " ++ joined ++ nl).

Definition handle_similar_movies_by_genre (R : Runtime) (source_movie : json)
  : M string :=
  try_except
    (let* movie_id := lift (py_item source_movie "_id") in
     let* movie_title := lift (py_get source_movie "title" (JStr "this movie")) in
     let not_found : string :=
       "I couldn't find movies similar to " ++ py_str R movie_title
       ++ " based on available data." in
     let* genre_result := db_execute R (MovieGenres movie_id) in
     let* has_genres := lift (first_has genre_result "genres") in
     if has_genres then
       let* genres := lift (py_item (hd JNull genre_result) "genres") in
       let* similar_result := db_execute R (GenreOverlap movie_id genres) in
       match similar_result with
       | [] => ret not_found
       | _ =>
           lift (joined <- py_join genres ;;
                 lines <- each_line (genre_overlap_line R) similar_result ;;
                 Ok ("Based on genres similar to " ++ py_str R movie_title
                     ++ " (" ++ joined ++ "), you might enjoy:" ++ nl ++ nl
                     ++ lines))
       end
     else ret not_found)
    (fun _ =>
       let* movie_title := lift (py_get source_movie "title" (JStr "this movie")) in
       ret ("I had trouble finding movies similar to " ++ py_str R movie_title
            ++ " by genre matching.")).

(** *** handle_similar_movies_query *)

Definition similar_line (R : Runtime) (movie : json) : result string :=
  vertex <- py_item movie "movie" ;;
  title <- py_get vertex "title" (JStr "Unnamed movie") ;;
  similarity <- py_item movie "similarity" ;;
  shown <- py_fixed R 2 similarity ;;
  Ok ("- " ++ py_str R title ++ " (similarity: " ++ shown ++ ")" ++ nl).

Definition format_similar_movies (R : Runtime) (row : json) : result string :=
  source_title <- py_item row "source_movie" ;;
  similar_movies <- py_item row "similar_movies" ;;
  items <- py_iter similar_movies ;;
  lines <- each_line (similar_line R) items ;;
  Ok ("Here are movies similar to " ++ py_str R source_title ++ ":" ++ nl ++ nl
      ++ lines).

Definition handle_similar_movies_query (R : Runtime) (movie_title : string)
  : M string :=
  try_except
    (let* movie_result := db_execute R (FindMovieByTitle movie_title) in
     let* movie_result :=
       match movie_result with
       | [] => db_execute R (FindMovieByFirstWord movie_title)
       | _ => ret movie_result
       end in
     match movie_result with
     | source_movie :: _ =>
         let* movie_id := lift (py_item source_movie "_id") in
         let* similar_result := db_execute R (SimilarMovies movie_id) in
         let* has_similar := lift (first_has similar_result "similar_movies") in
         if has_similar
         then lift (format_similar_movies R (hd JNull similar_result))
         else handle_similar_movies_by_genre R source_movie
     | [] =>
         ret ("I couldn't find information about '" ++ movie_title
              ++ "'. Could you check the spelling or try another movie title?")
     end)
    (fun _ =>
       ret ("I had trouble finding movies similar to '" ++ movie_title
            ++ "'. The database might not have information about this movie or its relationships.")).

(** *** handle_genre_query *)

Definition genre_line (R : Runtime) (is_top_rated : bool) (movie : json)
  : result string :=
  title <- py_get movie "title" (JStr "Unnamed movie") ;;
  year <- py_get movie "year" (JStr "") ;;
  if is_top_rated then
    avg_rating <- py_get movie "average_rating" (JNum 0) ;;
    num_ratings <- py_get movie "number_of_ratings" (JNum 0) ;;
    shown <- py_fixed R 1 avg_rating ;;
    Ok ("- " ++ py_str R title ++ year_suffix R year ++ " - Rating: " ++ shown
        ++ " (" ++ py_str R num_ratings ++ " ratings)" ++ nl)
  else
    genres <- py_get movie "genres" (JArr []) ;;
    genre_str <- genres_suffix genres ;;
    Ok ("- " ++ py_str R title ++ year_suffix R year ++ genre_str ++ nl).

Definition handle_genre_query (R : Runtime) (genre : string) (is_top_rated : bool)
  : M string :=
  try_except
    (let* genre_results := db_execute R (GenreMovies genre is_top_rated) in
     match genre_results with
     | [] =>
         ret ("I couldn't find any " ++ genre
              ++ " movies in the database. Would you like to try a different genre?")
     | _ =>
         lift (lines <- each_line (genre_line R is_top_rated) genre_results ;;
               Ok ((if is_top_rated then "Top rated" else "Popular") ++ " "
                   ++ title genre ++ " movies:" ++ nl ++ nl ++ lines))
     end)
    (fun _ =>
       ret ("I had trouble finding information about " ++ genre
            ++ " movies. The database might not have information about this genre.")).

(** *** handle_year_query *)

Definition year_line (R : Runtime) (movie : json) : result string :=
  title <- py_get movie "title" (JStr "Unnamed movie") ;;
  year <- py_get movie "year" (JStr "") ;;
  avg_rating <- py_get movie "average_rating" (JNum 0) ;;
  rating_str <- (if truthy avg_rating
                 then shown <- py_fixed R 1 avg_rating ;; Ok (" - Rating: " ++ shown)
                 else Ok "") ;;
  Ok ("- " ++ py_str R title ++ " (" ++ py_str R year ++ ")" ++ rating_str ++ nl).

Definition relaxed_year_line (R : Runtime) (movie : json) : result string :=
  title <- py_get movie "title" (JStr "Unnamed movie") ;;
  year <- py_get movie "year" (JStr "") ;;
  Ok ("- " ++ py_str R title ++ " (" ++ py_str R year ++ ")" ++ nl).

Definition handle_year_query (R : Runtime) (year_str : string) : M string :=
  try_except
    (match year_bounds year_str with
     | None => raise (PyError "ValueError" "invalid literal for int() with base 10")
     | Some (start_year, end_year) =>
         let period : string := period_name year_str start_year in
         let* year_results := db_execute R (YearMovies start_year end_year) in
         match year_results with
         | _ :: _ =>
             lift (lines <- each_line (year_line R) year_results ;;
                   Ok ("Popular movies from the " ++ period ++ ":" ++ nl ++ nl
                       ++ lines))
         | [] =>
             let* relaxed_results :=
               db_execute R (YearMoviesRelaxed start_year end_year) in
             match relaxed_results with
             | _ :: _ =>
                 lift (lines <- each_line (relaxed_year_line R) relaxed_results ;;
                       Ok ("Some movies from the " ++ period ++ ":" ++ nl ++ nl
                           ++ lines))
             | [] =>
                 ret ("I couldn't find any movies from the " ++ period
                      ++ " in the database.")
             end
         end
     end)
    (fun _ =>
       ret ("I had trouble finding movies from " ++ year_str
            ++ ". The database might not have comprehensive information for this time period.")).

(** *** handle_empty_results *)

Definition movie_terms : list string := ["movie"; "film"; "watch"; "cinema"].
Definition genre_terms : list string :=
  ["genre"; "category"; "type"; "comedy"; "action"; "drama"; "horror"].
Definition rating_terms : list string :=
  ["rate"; "rating"; "score"; "popular"; "best"; "top"; "highest"].

Definition simple_query (has_movie_terms has_genre_terms has_rating_terms : bool)
  : aql :=
  if has_movie_terms && has_rating_terms then PopularMovies
  else if has_movie_terms && has_genre_terms then PopularMoviesWithGenres
  else PopularMovies.

Definition simple_line (R : Runtime) (has_genre_terms : bool) (movie : json)
  : result string :=
  title <- py_get movie "title" (JStr "Unnamed movie") ;;
  year <- py_get movie "year" (JStr "") ;;
  with_genres <- (if has_genre_terms then py_has_key movie "genres" else Ok false) ;;
  if with_genres then
    genres <- py_get movie "genres" (JArr []) ;;
    genre_str <- genres_suffix genres ;;
    Ok ("- " ++ py_str R title ++ year_suffix R year ++ genre_str ++ nl)
  else
    Ok ("- " ++ py_str R title ++ year_suffix R year ++ nl).

Definition handle_empty_results (R : Runtime) (query : string) : M string :=
  let q := lower query in
  let has_movie_terms := any_in movie_terms q in
  let has_genre_terms := any_in genre_terms q in
  let has_rating_terms := any_in rating_terms q in
  try_except
    (let* result_data :=
       db_execute R (simple_query has_movie_terms has_genre_terms has_rating_terms) in
     match result_data with
     | _ :: _ =>
         lift (lines <- each_line (simple_line R has_genre_terms) result_data ;;
               Ok ((if has_rating_terms
                    then "Here are some popular movies you might be interested in:"
                    else if has_genre_terms
                    then "Here are some movies with their genres:"
                    else "Here are some popular movies from the database:")
                   ++ nl ++ nl ++ lines ++ nl
                   ++ "I couldn't find exact matches for your query, so I've shown some popular movies instead."))
     | [] =>
         ret "I couldn't find any movies matching your query in the database. Could you try a different search?"
     end)
    (fun _ =>
       ret "I'm having trouble retrieving movie information from the database right now. Could you try a simpler query or check back later?").

(** *** standard_query_processing *)

(** The query text taken out of the model's reply: the reply stripped,
    and the inside of its first code fence when it has one. *)
Definition fenced_query (content : string) : string :=
  let aql_query := strip content in
  if str_in "```aql" aql_query then
    strip (hd "" (split "```" (nth 1 (split "```aql" aql_query) "")))
  else if str_in "```" aql_query then
    strip (hd "" (split "```" (nth 1 (split "```" aql_query) "")))
  else aql_query.

Definition standard_query_processing (R : Runtime) (query : string) : M string :=
  let* content := llm_invoke R (AqlPrompt query) in
  let aql_query := fenced_query content in
  try_except
    (let* result_data := db_execute R (Generated aql_query) in
     match result_data with
     | [] => handle_empty_results R query
     | _ => llm_invoke R (FormatPrompt query result_data)
     end)
    (fun e =>
       if str_in "syntax error" (lower (exn_str e))
       then handle_empty_results R query
       else ret ("I couldn't find the information you requested about " ++ query
                 ++ ". Could you try rephrasing your question?")).

(** *** The agent *)

Definition text_to_aql_to_text (R : Runtime) (query : string) : M string :=
  match select_handler query with
  | SimilarMoviesQuery primary_movie => handle_similar_movies_query R primary_movie
  | GenreQuery genre is_top_rated => handle_genre_query R genre is_top_rated
  | YearQuery year_str => handle_year_query R year_str
  | StandardQuery query => standard_query_processing R query
  end.

(** Every handler returns text, so the [isinstance(response, dict)]
    branch is never taken and the reply always goes through the
    model's phrasing. *)
Definition query_movie_graph (R : Runtime) (query : string) : M string :=
  try_except
    (let* response := text_to_aql_to_text R query in
     llm_invoke R (ConversationalPrompt query response))
    (fun e =>
       ret ("I encountered an error while processing your request: " ++ exn_str e
            ++ ". Could you try rephrasing your question?")).

(** *** Stages of the fallback chain *)

(** A query without its interpolated values: which attempt it is. *)
Inductive stage : Type :=
| TitleLookup | FirstWordLookup | DirectSimilarity | SourceGenres | GenreOverlapStage
| GenreListing | YearRated | YearRelaxed | GeneratedQuery | TemplateQuery.

Definition stage_of (q : aql) : stage :=
  match q with
  | FindMovieByTitle _ => TitleLookup
  | FindMovieByFirstWord _ => FirstWordLookup
  | SimilarMovies _ => DirectSimilarity
  | MovieGenres _ => SourceGenres
  | GenreOverlap _ _ => GenreOverlapStage
  | GenreMovies _ _ => GenreListing
  | YearMovies _ _ => YearRated
  | YearMoviesRelaxed _ _ => YearRelaxed
  | Generated _ => GeneratedQuery
  | PopularMovies => TemplateQuery
  | PopularMoviesWithGenres => TemplateQuery
  end.

Definition stages (t : trace) : list stage := map stage_of (db_log t).

(** From [t] to [t'] the store was asked a run of queries whose
    stages form one of the [allowed] sequences. *)
Definition grows (t t' : trace) (allowed : list (list stage)) : Prop :=
  exists new, db_log t' = (db_log t ++ new)%list /\ In (map stage_of new) allowed.

Definition year_stages : list (list stage) :=
  [ []; [YearRated]; [YearRated; YearRelaxed] ].

Definition genre_stages : list (list stage) := [ [GenreListing] ].

Definition overlap_stages : list (list stage) :=
  [ []; [SourceGenres]; [SourceGenres; GenreOverlapStage] ].

Definition similar_stages : list (list stage) :=
  flat_map (fun lookup =>
              lookup
              :: map (fun rest => (lookup ++ DirectSimilarity :: rest)%list)
                     overlap_stages)
           [ [TitleLookup]; [TitleLookup; FirstWordLookup] ].

Definition standard_stages : list (list stage) :=
  [ []; [GeneratedQuery]; [GeneratedQuery; TemplateQuery] ].

Definition request_stages : list (list stage) :=
  (similar_stages ++ genre_stages ++ year_stages ++ standard_stages)%list.

End ChatAgent.

(* ================================================================= *)
(** ** graph_analytics.py: path, PageRank, communities, centrality

    The shortest path is found by the store and the three graph
    measures by the graph library; both are collaborators.  What is
    modelled is the graph the code hands to the library and the shaping
    of what comes back. *)

Module GraphAlgorithms.

(** *** Python lists *)

(** [l[:limit]]: a negative [limit] counts from the end. *)
Definition slice_to {A : Type} (limit : Z) (l : list A) : list A :=
  if (0 <=? limit)%Z then firstn (Z.to_nat limit) l
  else firstn (List.length l - Z.to_nat (- limit)) l.

(** [l.sort(key=..., reverse=True)] and [sorted(..., reverse=True)]:
    descending by the key, entries of equal key in their former
    order. *)
Definition sort_desc {A : Type} (key : A -> Q) (l : list A) : list A :=
  RecommendationEngine.aql_sort
    (fun x y => negb (Qle_bool (key x) (key y))) l.

(** *** find_shortest_path *)

(** One row of [path_query]. *)
Record path_data : Type := mkPathData {
  vertices : list Node;
  edges : list Edge
}.

Record PathEdge : Type := mkPathEdge {
  pe_type : string;     (* type *)
  pe_weight : Q         (* weight *)
}.

Record PathItem : Type := mkPathItem {
  id : string;
  label : string;
  type : string;
  edge : option PathEdge   (* [None]: the item has no such key *)
}.

Record PathResult : Type := mkPathResult {
  source : string;
  target : string;
  path_exists : bool;
  path_length : option Z;  (* [None]: the result has no such key *)
  path : list PathItem
}.

Definition path_edge (e : Edge) : PathEdge :=
  {| pe_type := get_or (e_type e) "unknown";
     pe_weight := if opt_str_eqb (e_type e) "similar_to"
                  then get_or (e_similarity e) 1
                  else 1 |}.

Definition path_item (n : Node) (e : option PathEdge) : PathItem :=
  let node_type := get_or (n_type n) "unknown" in
  {| id := n_id n;
     label := GraphAnalytics.node_label n node_type;
     type := node_type;
     edge := e |}.

(** The loop over [range(len(vertices))]: every vertex but the last
    reads [edges[i]], which raises when the row has too few edges. *)
Fixpoint format_path (vs : list Node) (es : list Edge) : result (list PathItem) :=
  match vs with
  | [] => Ok []
  | n :: rest =>
      match rest with
      | [] => Ok [path_item n None]
      | _ :: _ =>
          match es with
          | [] => Raise (PyError "IndexError" "list index out of range")
          | e :: es' =>
              items <- format_path rest es' ;;
              Ok (path_item n (Some (path_edge e)) :: items)
          end
      end
  end.

(** [path_query] is answered by the store for the two normalised
    ids. *)
Definition find_shortest_path
           (path_query : string -> string -> result (list path_data))
           (source_id target_id : string) : result PathResult :=
  let source_id := normalize_movie_id source_id in
  let target_id := normalize_movie_id target_id in
  path_result <- path_query source_id target_id ;;
  match path_result with
  | [] =>
      Ok {| source := source_id; target := target_id;
            path_exists := false; path_length := None; path := [] |}
  | row :: _ =>
      formatted_path <- format_path (vertices row) (edges row) ;;
      Ok {| source := source_id; target := target_id;
            path_exists := true;
            path_length := Some (Z.of_nat (List.length formatted_path) - 1)%Z;
            path := formatted_path |}
  end.

(** *** The graph handed to the library *)

(** A NetworkX graph as the code builds it: the nodes in insertion
    order, each with its attributes ([None] for a node that only an
    edge brought in, whose attribute dict is empty), and the edges in
    the order of the [add_edge] calls with what was attached. *)
Record nx_graph (W : Type) : Type := mkGraph {
  nx_nodes : list (string * option Node);
  nx_edges : list (string * string * W)
}.
Arguments mkGraph {W} nx_nodes nx_edges.
Arguments nx_nodes {W} n.
Arguments nx_edges {W} n.

Definition or_else {A : Type} (later earlier : option A) : option A :=
  match later with Some v => Some v | None => earlier end.

(** [attrs.update(new)]: a key of [new] wins, any other key stays. *)
Definition update_attrs (old : option Node) (new : Node) : Node :=
  match old with
  | None => new
  | Some o =>
      {| n_id := n_id new;
         n_original_id := or_else (n_original_id new) (n_original_id o);
         n_type := or_else (n_type new) (n_type o);
         n_title := or_else (n_title new) (n_title o);
         n_name := or_else (n_name new) (n_name o);
         n_year := or_else (n_year new) (n_year o);
         n_popularity := or_else (n_popularity new) (n_popularity o) |}
  end.

(** [G.add_node(movie["_id"], **movie)] *)
Fixpoint add_node (movie : Node) (ns : list (string * option Node))
  : list (string * option Node) :=
  match ns with
  | [] => [(n_id movie, Some movie)]
  | (k, attrs) :: rest =>
      if String.eqb k (n_id movie)
      then (k, Some (update_attrs attrs movie)) :: rest
      else (k, attrs) :: add_node movie rest
  end.

(** A node that [add_edge] meets for the first time gets no
    attributes. *)
Fixpoint touch_node (k : string) (ns : list (string * option Node))
  : list (string * option Node) :=
  match ns with
  | [] => [(k, None)]
  | (k', attrs) :: rest =>
      if String.eqb k' k then ns else (k', attrs) :: touch_node k rest
  end.

(** [G.add_edge(edge["_from"], edge["_to"], ...)] *)
Definition add_edge {W : Type} (attach : Edge -> W) (G : nx_graph W) (e : Edge)
  : nx_graph W :=
  {| nx_nodes := touch_node (e_to e) (touch_node (e_from e) (nx_nodes G));
     nx_edges := nx_edges G ++ [(e_from e, e_to e, attach e)] |}.

Definition build_graph {W : Type} (attach : Edge -> W)
           (movies : list Node) (es : list Edge) : nx_graph W :=
  fold_left (add_edge attach) es
            {| nx_nodes := fold_left (fun ns m => add_node m ns) movies [];
               nx_edges := [] |}.

(** [G_nx.nodes.get(movie_id)] *)
Fixpoint node_data (ns : list (string * option Node)) (k : string)
  : option (option Node) :=
  match ns with
  | [] => None
  | (k', attrs) :: rest => if String.eqb k' k then Some attrs else node_data rest k
  end.

(** [node_data and node_data.get("type") == "movie"]: the attributes
    when the test passes. *)
Definition movie_attrs {W : Type} (G : nx_graph W) (movie_id : string) : option Node :=
  match node_data (nx_nodes G) movie_id with
  | Some (Some attrs) =>
      if opt_str_eqb (n_type attrs) "movie" then Some attrs else None
  | _ => None
  end.

(** [FOR movie IN MovieLens_node FILTER movie.type == 'movie'] *)
Definition all_movies (s : Store) : list Node :=
  filter (fun movie => opt_str_eqb (n_type movie) "movie") (MovieLens_node s).

(** [FILTER e.type IN ['similar_to', 'belongs_to', 'has_tag']] *)
Definition relevant_edges (s : Store) : list Edge :=
  filter (fun e => existsb (opt_str_eqb (e_type e))
                           ["similar_to"; "belongs_to"; "has_tag"])
         (MovieLens_node_to_MovieLens_node s).

(** [FILTER e.type == 'similar_to'] *)
Definition similarity_edges (s : Store) : list Edge :=
  filter (fun e => opt_str_eqb (e_type e) "similar_to")
         (MovieLens_node_to_MovieLens_node s).

(** [dict.get(key, default)] on a dict of scores. *)
Fixpoint score_of (scores : list (string * Q)) (k : string) (default : Q) : Q :=
  match scores with
  | [] => default
  | (k', v) :: rest => if String.eqb k' k then v else score_of rest k default
  end.

(** The library: each function takes the graph built for it and
    returns its dict (the items in order) or its communities, or
    raises. *)
Record Library : Type := mkLibrary {
  pagerank : nx_graph Edge -> result (list (string * Q));
  best_partition : nx_graph Q -> result (list (string * nat));
  label_propagation_communities : nx_graph Q -> result (list (list string));
  girvan_newman : nx_graph Q -> result (list (list string));
  degree_centrality : nx_graph Q -> result (list (string * Q));
  betweenness_centrality : nx_graph Q -> result (list (string * Q));
  closeness_centrality : nx_graph Q -> result (list (string * Q))
}.

(** *** calculate_pagerank *)

Record Ranked : Type := mkRanked {
  r_id : string;          (* id *)
  r_title : string;       (* title *)
  r_year : option Z;      (* year *)
  r_score : Q             (* pagerank, or centrality *)
}.

Definition ranked {W : Type} (G : nx_graph W) (movie_id : string) (score : Q)
  : list Ranked :=
  match movie_attrs G movie_id with
  | Some attrs =>
      [ {| r_id := movie_id;
           r_title := get_or (n_title attrs) movie_id;
           r_year := n_year attrs;
           r_score := score |} ]
  | None => []
  end.

Definition calculate_pagerank (L : Library) (s : Store) (limit : Z)
  : result (list Ranked) :=
  let G_nx := build_graph (fun e => e) (all_movies s) (relevant_edges s) in
  scores <- pagerank L G_nx ;;
  let movie_pageranks :=
    flat_map (fun item => ranked G_nx (fst item) (snd item)) scores in
  Ok (slice_to limit (sort_desc r_score movie_pageranks)).

(** *** calculate_centrality *)

Record Centrality : Type := mkCentrality {
  degree : list Ranked;
  betweenness : list Ranked;
  closeness : list Ranked
}.

Definition centrality_weight (e : Edge) : Q :=
  if opt_str_eqb (e_type e) "similar_to" then get_or (e_similarity e) (1 # 2) else 1.

(** One measure: a row per movie node, in node order, then the sort
    and the cut. *)
Definition measure (G : nx_graph Q) (scores : list (string * Q)) (limit : Z)
  : list Ranked :=
  slice_to limit
    (sort_desc r_score
       (flat_map (fun node => ranked G (fst node) (score_of scores (fst node) 0))
                 (nx_nodes G))).

Definition calculate_centrality (L : Library) (s : Store) (limit : Z)
  : result Centrality :=
  let G_nx := build_graph centrality_weight (all_movies s) (relevant_edges s) in
  degree_scores <- degree_centrality L G_nx ;;
  betweenness_scores <- betweenness_centrality L G_nx ;;
  closeness_scores <- closeness_centrality L G_nx ;;
  Ok {| degree := measure G_nx degree_scores limit;
        betweenness := measure G_nx betweenness_scores limit;
        closeness := measure G_nx closeness_scores limit |}.

(** *** detect_communities *)

Record Member : Type := mkMember {
  m_id : string;          (* id *)
  m_title : string;       (* title *)
  m_year : option Z       (* year *)
}.

(** [partition[node] = i]: an existing key keeps its place. *)
Fixpoint set_item (k : string) (v : nat) (d : list (string * nat))
  : list (string * nat) :=
  match d with
  | [] => [(k, v)]
  | (k', v') :: rest =>
      if String.eqb k' k then (k, v) :: rest else (k', v') :: set_item k v rest
  end.

(** [{node: i for i, comm in enumerate(comms) for node in comm}] *)
Fixpoint partition_from (i : nat) (comms : list (list string))
         (d : list (string * nat)) : list (string * nat) :=
  match comms with
  | [] => d
  | comm :: rest =>
      partition_from (S i) rest (fold_left (fun d node => set_item node i d) comm d)
  end.

Definition partition_of (comms : list (list string)) : list (string * nat) :=
  partition_from 0 comms [].

(** One step of the grouping loop: the community is entered if it is
    new, and the node is appended to it if it is a movie. *)
Fixpoint group_into (community_id : nat) (members : list Member)
         (communities : list (nat * list Member)) : list (nat * list Member) :=
  match communities with
  | [] => [(community_id, members)]
  | (c, ms) :: rest =>
      if Nat.eqb c community_id then (c, ms ++ members) :: rest
      else (c, ms) :: group_into community_id members rest
  end.

Definition member {W : Type} (G : nx_graph W) (movie_id : string) : list Member :=
  match movie_attrs G movie_id with
  | Some attrs =>
      [ {| m_id := movie_id;
           m_title := get_or (n_title attrs) movie_id;
           m_year := n_year attrs |} ]
  | None => []
  end.

Definition group_communities {W : Type} (G : nx_graph W)
           (partition : list (string * nat)) : list (nat * list Member) :=
  fold_left (fun communities item =>
               group_into (snd item) (member G (fst item)) communities)
            partition [].

(** [f"community_{i}"] for the communities by descending size. *)
Fixpoint label_from (i : nat) (sorted : list (nat * list Member))
  : list (string * list Member) :=
  match sorted with
  | [] => []
  | (_, members) :: rest =>
      (("community_" ++ Py.string_of_nat i)%string, members)
      :: label_from (S i) rest
  end.

Definition community_size (c : nat * list Member) : Q :=
  inject_Z (Z.of_nat (List.length (snd c))).

Definition similarity_weight (e : Edge) : Q := get_or (e_similarity e) (1 # 2).

Definition detect_communities (L : Library) (s : Store) (algorithm : string)
  : result (list (string * list Member)) :=
  let G_nx := build_graph similarity_weight (all_movies s) (similarity_edges s) in
  partition <-
    (if String.eqb (Py.lower algorithm) "louvain" then best_partition L G_nx
     else if String.eqb (Py.lower algorithm) "label_propagation"
     then comms <- label_propagation_communities L G_nx ;; Ok (partition_of comms)
     else comms <- girvan_newman L G_nx ;; Ok (partition_of comms)) ;;
  let communities := group_communities G_nx partition in
  Ok (label_from 0 (sort_desc community_size communities)).

(** Attributes in the graph belong to movies that were added. *)
Definition attributed (movies : list Node) (ns : list (string * option Node)) : Prop :=
  forall k attrs, In (k, Some attrs) ns -> exists movie, In movie movies /\ n_id movie = k.

End GraphAlgorithms.

(* ================================================================= *)
(** ** app.py: the recommendation and chat endpoints *)

Module Endpoints.
Import App.

(** [GET /recommendations] with [movieId = Query(...)],
    [limit = Query(10, ge=1, le=50)] and
    [threshold = Query(0.3, ge=0.1, le=1.0)]; [None] is a request
    without the parameter. *)
Definition get_recommendations (s : Store) (movieId : option string)
           (limit : option Z) (threshold : option Q)
  : response (list RecommendationEngine.Recommendation) :=
  let limit := get_or limit 10%Z in
  let threshold := get_or threshold (3 # 10) in
  match movieId with
  | None => validation_error
  | Some movieId =>
      if ((1 <=? limit) && (limit <=? 50))%Z
         && Qle_bool (1 # 10) threshold && Qle_bool threshold 1
      then
        match RecommendationEngine.find_similar_movies
                s movieId threshold (Z.to_nat limit) with
        | Ok similar_movies => Http200 similar_movies
        | Raise e =>
            HttpError 500 ("Error fetching recommendations: " ++ exn_str e)%string
        end
      else validation_error
  end.

(** [POST /chat]: the agent's reply is text, never a dict, so the
    body is [{"text": response}]; each request starts without calls
    made. *)
Definition chat (R : ChatAgent.Runtime) (message : string) : response string :=
  match fst (ChatAgent.query_movie_graph R message ChatAgent.no_calls) with
  | Ok response => Http200 response
  | Raise e =>
      HttpError 500 ("Error processing chat message: " ++ exn_str e)%string
  end.

End Endpoints.

(* ================================================================= *)
(** ** The lookup as the text that is sent

    [get_graph_data] and [find_similar_movies] build the lookup with an
    f-string: the id goes between two double quotes as it is, nothing
    is escaped and no value is bound.  An id without a double quote
    and without a backslash is read back by the engine as the string
    literal it was; [movie_query] is what the lookup means then.  Any
    other id changes the text around it. *)

Module QueryText.
Import GraphAnalytics.

Definition double_quote : ascii := "034"%char.
Definition backslash : ascii := "092"%char.

(** [value] holds no double quote and no backslash: between two
    double quotes it is one string literal, whose value is [value]. *)
Fixpoint plain (value : string) : bool :=
  match value with
  | EmptyString => true
  | String c rest =>
      negb (Ascii.eqb c double_quote) && negb (Ascii.eqb c backslash) && plain rest
  end.

(** ["{value}"] inside the f-string. *)
Definition quoted (value : string) : string :=
  String double_quote (value ++ String double_quote EmptyString).

(** The f-string [movie_query], line for line. *)
Definition movie_query_text (movie_id : string) : string :=
  (Py.nl
   ++ "    FOR movie IN MovieLens_node" ++ Py.nl
   ++ "    FILTER movie._id == " ++ quoted movie_id
   ++ " OR movie.original_id == " ++ quoted (Py.remove_all "movie_" movie_id) ++ Py.nl
   ++ "    LIMIT 1" ++ Py.nl
   ++ "    RETURN movie" ++ Py.nl
   ++ "    ")%string.

(** Where a reader of the text stands: in the query proper, having
    just closed a string literal or not; inside a literal; or inside
    one, right after a backslash. *)
Inductive scan : Type :=
| Code (after_literal : bool)
| Literal
| Escape.

Definition is_blank (c : ascii) : bool :=
  Ascii.eqb c " " || Ascii.eqb c "009" || Ascii.eqb c "010" || Ascii.eqb c "013".

(** The characters of the lookup outside its literals: names,
    keywords, the dot and [==]. *)
Definition is_code (c : ascii) : bool :=
  Py.is_alpha c || Py.is_digit c || Ascii.eqb c "_" || Ascii.eqb c "."
  || Ascii.eqb c "=".

(** Two errors that the engine's parser reports, found by reading the
    text once: a string literal that follows a string literal with
    nothing but blanks between them, and a string literal that is
    still open where the text ends.  The reader gives no verdict
    ([false]) from the first character outside a literal that the
    lookup does not write itself (a comment, a single quote, a bind
    parameter): it never calls a text malformed that the engine
    accepts. *)
Fixpoint malformed (st : scan) (text : string) : bool :=
  match text with
  | EmptyString => match st with Code _ => false | _ => true end
  | String c rest =>
      match st with
      | Code after_literal =>
          if Ascii.eqb c double_quote
          then after_literal || malformed Literal rest
          else if is_blank c then malformed (Code after_literal) rest
          else if is_code c then malformed (Code false) rest
          else false
      | Literal =>
          if Ascii.eqb c double_quote then malformed (Code true) rest
          else if Ascii.eqb c backslash then malformed Escape rest
          else malformed Literal rest
      | Escape => malformed Literal rest
      end
  end.

(** [list(G_adb.query(movie_query))].  For a plain id the rows are
    those of [movie_query].  For another id the text is no longer the
    lookup: when it is malformed the driver raises
    [AQLQueryExecuteError] (of the server's message only the kind of
    error is kept); otherwise the engine runs whatever the id has
    made of the text, and [injected] is its answer. *)
Definition query (s : Store) (injected : string -> result (list Node))
           (movie_id : string) : result (list Node) :=
  let text := movie_query_text movie_id in
  if plain movie_id then Ok (movie_query s movie_id)
  else if malformed (Code false) text
       then Raise (PyError "AQLQueryExecuteError" "syntax error")
       else injected text.

(** [get_graph_data], its lookup sent as text. *)
Definition get_graph_data (G : G_adb) (injected : string -> result (list Node))
           (movie_id : string) (depth : Z) : result GraphView :=
  let movie_id := normalize_movie_id movie_id in
  match query (store G) injected movie_id with
  | Raise e => Raise e
  | Ok [] => Ok empty_view
  | Ok (central_movie :: _) =>
      let central_id := n_id central_movie in
      match subgraph_query G central_id depth with
      | Raise e => Raise e
      | Ok [] => Ok empty_view
      | Ok (graph_data :: _) => Ok (shape graph_data)
      end
  end.

(** [find_similar_movies], its lookup sent as text. *)
Definition find_similar_movies (s : Store) (injected : string -> result (list Node))
           (movie_id : string) (threshold : Q) (limit : nat)
  : result (list RecommendationEngine.Recommendation) :=
  let movie_id := normalize_movie_id movie_id in
  match query s injected movie_id with
  | Raise e => Raise e
  | Ok [] => Ok []
  | Ok (source_movie :: _) =>
      let source_id := n_id source_movie in
      let similar_result :=
        map (fun movie =>
               (movie, RecommendationEngine.similar_movies_of s movie threshold limit))
            (filter (fun movie => String.eqb (n_id movie) source_id)
                    (MovieLens_node s)) in
      match similar_result with
      | (_, (_ :: _) as similar_movies) :: _ =>
          RecommendationEngine.format_similar similar_movies
      | _ => Ok (RecommendationEngine.get_recommendations_by_genre s source_id limit)
      end
  end.

(** [GET /graph/{movie_id}] over it. *)
Definition get_movie_graph (G : G_adb) (injected : string -> result (list Node))
           (movie_id : string) (depth : option Z) : App.response GraphView :=
  let depth := get_or depth 2%Z in
  if ((1 <=? depth) && (depth <=? 3))%Z then
    match get_graph_data G injected movie_id depth with
    | Ok graph_data => App.Http200 graph_data
    | Raise e => App.HttpError 500 ("Error fetching graph data: " ++ exn_str e)
    end
  else App.validation_error.

End QueryText.

(* ================================================================= *)
(** ** Fixtures *)

Module Fixtures.
Import GraphAnalytics.

Definition movie (doc_id legacy title : string) (released : Z) (pop : Q) : Node :=
  mkNode doc_id (Some legacy) (Some "movie") (Some title) None (Some released) (Some pop).

Definition genre (doc_id name : string) : Node :=
  mkNode doc_id None (Some "genre") None (Some name) None None.

Definition tag (doc_id name : string) : Node :=
  mkNode doc_id None (Some "tag") None (Some name) None None.

Definition belongs_to (src dst : string) : Edge :=
  mkEdge src dst (Some "belongs_to") None None.

Definition similar_to (src dst : string) (sim : Q) : Edge :=
  mkEdge src dst (Some "similar_to") (Some sim) None.

Definition toy_story : Node := movie "movie_1" "1" "Toy Story" 1995 9.
Definition jumanji : Node := movie "movie_2" "2" "Jumanji" 1995 4.
Definition heat : Node := movie "movie_6" "6" "Heat" 1995 7.
Definition animation : Node := genre "genre_animation" "Animation".
Definition comedy : Node := genre "genre_comedy" "Comedy".
Definition pixar : Node := tag "tag_pixar" "pixar".

(** A path of five edges that starts at Toy Story. *)
Definition chain_nodes : list traversed :=
  [ mkTraversed animation 1; mkTraversed jumanji 2; mkTraversed comedy 3;
    mkTraversed heat 4; mkTraversed pixar 5 ].

Definition chain_links : list Edge :=
  [ belongs_to "movie_1" "genre_animation";
    belongs_to "movie_2" "genre_animation";
    belongs_to "movie_2" "genre_comedy";
    belongs_to "movie_6" "genre_comedy";
    mkEdge "movie_6" "tag_pixar" (Some "has_tag") None None ].

Definition chain_store : Store :=
  {| MovieLens_node := [toy_story; jumanji; heat; animation; comedy; pixar];
     MovieLens_node_to_MovieLens_node := chain_links |}.

(** The engine on the path: a traversal of depth [d] from Toy Story
    reaches the first [d] vertices over the first [d] edges. *)
Definition chain_G : G_adb :=
  {| store := chain_store;
     subgraph_query := fun central_id depth =>
       if String.eqb central_id "movie_1"
       then Ok [ {| central := toy_story;
                    nodes := firstn (Z.to_nat depth) chain_nodes;
                    links := firstn (Z.to_nat depth) chain_links |} ]
       else Ok [] |}.

(** Two movies of the one genre Animation. *)
Definition twin_store : Store :=
  {| MovieLens_node := [toy_story; jumanji; animation];
     MovieLens_node_to_MovieLens_node :=
       [ belongs_to "movie_1" "genre_animation";
         belongs_to "movie_2" "genre_animation" ] |}.

(** Toy Story with two equally similar movies, the less popular one
    on the first edge. *)
Definition tie_edges : list Edge :=
  [ similar_to "movie_1" "movie_2" 0.8;
    similar_to "movie_1" "movie_6" 0.8 ].

Definition tie_genres : list Edge :=
  [ belongs_to "movie_1" "genre_animation";
    belongs_to "movie_2" "genre_animation";
    belongs_to "movie_6" "genre_animation" ].

Definition tie_store : Store :=
  {| MovieLens_node := [toy_story; jumanji; heat; animation];
     MovieLens_node_to_MovieLens_node := tie_genres ++ tie_edges |}.

Definition tie_store_reversed : Store :=
  {| MovieLens_node := [toy_story; jumanji; heat; animation];
     MovieLens_node_to_MovieLens_node := tie_genres ++ rev tie_edges |}.

(** A store without a single row, and a model that writes a fenced
    query and phrases a reply by repeating it. *)
Definition silent : ChatAgent.Runtime :=
  {| ChatAgent.execute := fun _ _ => Ok [];
     ChatAgent.invoke := fun _ p =>
       match p with
       | ChatAgent.AqlPrompt _ =>
           Ok ("```aql" ++ Py.nl ++ "FOR m IN MovieLens_node FILTER false RETURN m"
               ++ Py.nl ++ "```")%string
       | ChatAgent.FormatPrompt _ _ => Ok "Nothing to report."
       | ChatAgent.ConversationalPrompt _ response => Ok response
       end;
     ChatAgent.render := fun _ => "";
     ChatAgent.fixed := fun _ _ => "" |}.

End Fixtures.

(* ================================================================= *)
(** ** Samples for the analytics and the endpoints *)

Module Samples.
Import GraphAlgorithms.

(** The store's answer for the pair Toy Story, Jumanji: one path over
    the similarity edge; no path for any other pair. *)
Definition one_route : string -> string -> result (list path_data) :=
  fun source_id target_id =>
    if String.eqb source_id "movie_1" && String.eqb target_id "movie_2"
    then Ok [ {| vertices := [Fixtures.toy_story; Fixtures.jumanji];
                 edges := [Fixtures.similar_to "movie_1" "movie_2" 0.8] |} ]
    else Ok [].

(** A library with fixed answers over the movies of the fixtures. *)
Definition fixed_scores : list (string * Q) :=
  [ ("movie_1", 0.2); ("genre_animation", 0.5); ("movie_2", 0.3); ("movie_6", 0.3) ].

Definition fixed_library : Library :=
  {| pagerank := fun _ => Ok fixed_scores;
     best_partition := fun _ =>
       Ok [ ("movie_1", 0%nat); ("movie_2", 1%nat); ("movie_6", 1%nat) ];
     label_propagation_communities := fun _ =>
       Ok [ ["movie_1"]; ["movie_2"; "movie_6"] ];
     girvan_newman := fun _ => Ok [ ["movie_1"; "movie_2"; "movie_6"] ];
     degree_centrality := fun _ => Ok fixed_scores;
     betweenness_centrality := fun _ => Ok [ ("movie_2", 1) ];
     closeness_centrality := fun _ => Ok [] |}.

(** A store that answers and a model that cannot be reached. *)
Definition model_down : ChatAgent.Runtime :=
  {| ChatAgent.execute := fun _ _ => Ok [];
     ChatAgent.invoke := fun _ _ => Raise (PyError "APIConnectionError" "Connection error.");
     ChatAgent.render := fun _ => "";
     ChatAgent.fixed := fun _ _ => "" |}.

(** The analytics functions with the chat agent behind the general
    branch. *)
Definition backed_by (R : ChatAgent.Runtime) : App.Analytics :=
  {| App.calculate_pagerank := fun _ => Ok (JArr []);
     App.detect_communities := fun _ => Ok (JObj []);
     App.find_shortest_path := fun _ _ => Ok (JObj []);
     App.calculate_centrality := fun _ => Ok (JObj []);
     App.query_movie_graph := fun q =>
       match fst (ChatAgent.query_movie_graph R q ChatAgent.no_calls) with
       | Ok text => Ok (JStr text)
       | Raise e => Raise e
       end |}.

(** The id that is one double quote, as [GET /graph/%22] gives it. *)
Definition lone_quote : string := String QueryText.double_quote EmptyString.

(** An engine that finds no row for a text an id has rewritten. *)
Definition no_injection : string -> result (list Node) := fun _ => Ok [].

(** Around Toy Story, an edge for every payload a link may have or
    lack: a similarity and none, a rating and none, another type and
    no type at all. *)
Definition payload_links : list Edge :=
  [ Fixtures.similar_to "movie_1" "movie_2" 0.8;
    mkEdge "movie_1" "movie_6" (Some "similar_to") None None;
    mkEdge "user_7" "movie_1" (Some "rated") None (Some 4);
    mkEdge "user_8" "movie_1" (Some "rated") None None;
    Fixtures.belongs_to "movie_1" "genre_animation";
    mkEdge "movie_1" "tag_pixar" None None None ].

Definition payload_G : GraphAnalytics.G_adb :=
  GraphAnalytics.mkG Fixtures.chain_store
    (fun _ _ => Ok [ GraphAnalytics.mkSubgraph Fixtures.toy_story [] payload_links ]).

(** The view that [get_graph_data] makes of it. *)
Definition payload_view : GraphAnalytics.GraphView :=
  GraphAnalytics.mkView
    [ GraphAnalytics.central_view Fixtures.toy_story ]
    [ GraphAnalytics.mkViewLink "movie_1" "movie_2" "similar_to" 0.8;
      GraphAnalytics.mkViewLink "movie_1" "movie_6" "similar_to" (1 # 2);
      GraphAnalytics.mkViewLink "user_7" "movie_1" "rated" (4 / 5);
      GraphAnalytics.mkViewLink "user_8" "movie_1" "rated" (3 / 5);
      GraphAnalytics.mkViewLink "movie_1" "genre_animation" "belongs_to" 1;
      GraphAnalytics.mkViewLink "movie_1" "tag_pixar" "unknown" 1 ].

End Samples.

(* ================================================================= *)
(** * Properties *)

(* ----------------------------------------------------------------- *)
(** ** The intent router *)

Section Router.
Import Py ChatRouter ChatAgent.

Lemma any_in_exists (words : list string) (text : string) :
  any_in words text = true <->
  exists w, In w words /\ str_in w text = true.
Proof. unfold any_in. apply existsb_exists. Qed.

Lemma extract_movie_titles_nonempty (query : string) :
  (exists entry alias,
      In entry common_titles /\ In alias (snd entry)
      /\ str_in alias (lower query) = true) ->
  extract_movie_titles query <> [].
Proof.
  intros (entry & alias & Hentry & Halias & Hin) Hnil.
  assert (Hmem : In (fst entry) (extract_movie_titles query)).
  { unfold extract_movie_titles. apply in_map, filter_In. split; [exact Hentry|].
    apply any_in_exists. now exists alias. }
  rewrite Hnil in Hmem. exact Hmem.
Qed.

Lemma select_similar (query : string) (primary_movie : string) (rest : list string) :
  any_in similarity_words (lower query) = true ->
  extract_movie_titles query = primary_movie :: rest ->
  select_handler query = SimilarMoviesQuery primary_movie.
Proof.
  intros Hkw Htitles. unfold select_handler. now rewrite Hkw, Htitles.
Qed.

End Router.

Import Py ChatRouter ChatAgent.

(** C1.  A query that holds a similarity word ("similar", "like",
    "related") and in which an alias of the title table occurs is
    dispatched to the similarity handler, with the first title found,
    whatever genre or year words it holds besides; and the query
    "movies similar to Titanic from the 1990s", which also holds a
    period word and a year token, goes to the similarity handler for
    "titanic". *)
Theorem similarity_has_priority :
  (forall query : string,
      (exists w, In w similarity_words /\ str_in w (lower query) = true) ->
      (exists entry alias,
          In entry common_titles /\ In alias (snd entry)
          /\ str_in alias (lower query) = true) ->
      exists primary_movie,
        hd_error (extract_movie_titles query) = Some primary_movie
        /\ select_handler query = SimilarMoviesQuery primary_movie
        /\ forall R, text_to_aql_to_text R query
                     = handle_similar_movies_query R primary_movie)
  /\ (let query := "movies similar to Titanic from the 1990s" in
      any_in period_words (lower query) = true
      /\ findall_years query = ["1990s"]
      /\ select_handler query = SimilarMoviesQuery "titanic").
Proof.
  split.
  - intros query Hkw Halias.
    apply any_in_exists in Hkw.
    apply extract_movie_titles_nonempty in Halias.
    destruct (extract_movie_titles query) as [|primary_movie rest] eqn:Htitles;
      [contradiction|].
    exists primary_movie.
    pose proof (select_similar query primary_movie rest Hkw Htitles) as Hsel.
    repeat split; [exact Hsel|].
    intros R. unfold text_to_aql_to_text. now rewrite Hsel.
  - repeat split; reflexivity.
Qed.

Lemma similarity_has_priority_witness :
  let query := "I would like something related to the Matrix, a comedy from 1999" in
  exists primary_movie,
    hd_error (extract_movie_titles query) = Some primary_movie
    /\ select_handler query = SimilarMoviesQuery primary_movie
    /\ forall R, text_to_aql_to_text R query
                 = handle_similar_movies_query R primary_movie.
Proof.
  apply (proj1 similarity_has_priority).
  - exists "like". split; [simpl; tauto | reflexivity].
  - exists ("the matrix", ["matrix"; "the matrix"]), "matrix".
    split; [simpl; tauto | split; [simpl; tauto | reflexivity]].
Defined.

(* ----------------------------------------------------------------- *)
(** ** Year tokens *)

Section YearTokens.

Lemma digit_range (c : ascii) : (0 <= digit c)%Z.
Proof. unfold digit. lia. Qed.

Lemma match_decade_shape (c1 c2 : ascii) (s tok : string) :
  match_decade c1 c2 s = Some tok ->
  exists d, tok = String c1 (String c2 (String d "0s")) /\ is_digit d = true.
Proof.
  unfold match_decade.
  destruct s as [|a [|b [|d [|z [|e rest]]]]]; try discriminate.
  destruct (Ascii.eqb a c1) eqn:Ha; [|discriminate].
  destruct (Ascii.eqb b c2) eqn:Hb; [|discriminate].
  destruct (is_digit d) eqn:Hd; [|discriminate].
  destruct (Ascii.eqb z "0") eqn:Hz; [|discriminate].
  destruct (Ascii.eqb e "s") eqn:He; [|discriminate].
  cbn [andb]. destruct (word_boundary (Some e) rest); [|discriminate].
  apply Ascii.eqb_eq in Ha, Hb, Hz, He. subst.
  intros [= <-]. exists d. split; [reflexivity | exact Hd].
Qed.

Lemma match_four_digits_shape (s tok : string) :
  match_four_digits s = Some tok -> four_digit_shape tok.
Proof.
  unfold match_four_digits.
  destruct s as [|a [|b [|c [|d rest]]]]; try discriminate.
  destruct (is_digit a) eqn:Ha; [|discriminate].
  destruct (is_digit b) eqn:Hb; [|discriminate].
  destruct (is_digit c) eqn:Hc; [|discriminate].
  destruct (is_digit d) eqn:Hd; [|discriminate].
  cbn [andb]. destruct (word_boundary (Some d) rest); [|discriminate].
  intros [= <-]. exists a, b, c, d. repeat split; assumption.
Qed.

Lemma match_year_here_shape (prev : option ascii) (s tok : string) :
  match_year_here prev s = Some tok -> decade_shape tok \/ four_digit_shape tok.
Proof.
  unfold match_year_here.
  destruct (word_boundary prev s); [|discriminate].
  destruct (match_decade "1" "9" s) as [t1|] eqn:H1.
  - intros [= <-]. left. apply match_decade_shape in H1 as (d & -> & Hd).
    exists "1"%char, "9"%char, d. auto.
  - destruct (match_decade "2" "0" s) as [t2|] eqn:H2.
    + intros [= <-]. left. apply match_decade_shape in H2 as (d & -> & Hd).
      exists "2"%char, "0"%char, d. auto.
    + intros H. right. now apply match_four_digits_shape with s.
Qed.

Lemma findall_years_from_shape (s : string) :
  forall prev skip tok,
    In tok (findall_years_from prev skip s) ->
    decade_shape tok \/ four_digit_shape tok.
Proof.
  induction s as [|c s IH]; intros prev skip tok; cbn [findall_years_from].
  - intros [].
  - destruct skip as [|k].
    + destruct (match_year_here prev (String c s)) as [t|] eqn:Hm.
      * intros [<- | Hin]; [now apply match_year_here_shape in Hm | eauto].
      * eauto.
    + eauto.
Qed.

(** Only a match of the pattern reaches the year handler. *)
Lemma year_query_shape (query year_str : string) :
  select_handler query = YearQuery year_str ->
  decade_shape year_str \/ four_digit_shape year_str.
Proof.
  unfold select_handler.
  destruct (any_in similarity_words (lower query));
    destruct (extract_movie_titles query); try discriminate;
    (destruct (any_in routed_genres (lower query));
     [ destruct (filter _ known_genres); discriminate | ]);
    (destruct (any_in period_words (lower query)); [|discriminate]);
    (destruct (findall_years query) as [|y ys] eqn:Hy; [discriminate|]);
    intros [= <-];
    apply findall_years_from_shape with (s := query) (prev := None) (skip := 0%nat);
    fold (findall_years query); rewrite Hy; now left.
Qed.

Lemma is_digit_not_space (c : ascii) : is_digit c = true -> is_space c = false.
Proof.
  unfold is_digit, is_space. intros H.
  apply andb_true_iff in H as [H1 H2]. apply Nat.leb_le in H1, H2.
  apply orb_false_iff. split; apply andb_false_iff.
  - right. apply Nat.leb_gt. lia.
  - right. apply Nat.leb_gt. lia.
Qed.

Lemma is_digit_not_sign (c : ascii) :
  is_digit c = true -> Ascii.eqb c "-" = false /\ Ascii.eqb c "+" = false.
Proof.
  intros H. split; apply Ascii.eqb_neq; intros ->; discriminate H.
Qed.

Lemma rstrip_cons (c : ascii) (s : string) :
  is_space c = false -> rstrip (String c s) = String c (rstrip s).
Proof.
  intros H. cbn [rstrip]. destruct (rstrip s); [now rewrite H | reflexivity].
Qed.

Lemma int_four_digits (a b c d : ascii) :
  is_digit a = true -> is_digit b = true -> is_digit c = true -> is_digit d = true ->
  int (String a (String b (String c (String d ""))))
  = Some (1000 * digit a + 100 * digit b + 10 * digit c + digit d)%Z.
Proof.
  intros Ha Hb Hc Hd. unfold int, strip. cbn [lstrip].
  rewrite (is_digit_not_space a Ha).
  rewrite !rstrip_cons by now apply is_digit_not_space.
  cbn [rstrip].
  destruct (is_digit_not_sign a Ha) as [-> ->].
  cbn [digits_value]. rewrite Ha, Hb, Hc, Hd. f_equal. unfold digit. lia.
Qed.

End YearTokens.

(** C8.  Whatever token the router hands to the year handler, the
    handler's bounds are defined: a token of four characters is read
    as one year and gives the range of that single year; any other
    token is a decade token, and gives the ten years that start at the
    year read from its first four characters, a multiple of ten.
    "1990s" gives 1990 to 1999 and "2021" gives 2021 to 2021. *)
Theorem year_bounds_of_tokens :
  (forall query year_str : string,
      select_handler query = YearQuery year_str ->
      exists start_year end_year : Z,
        year_bounds year_str = Some (start_year, end_year)
        /\ ((String.length year_str = 4%nat
             /\ int year_str = Some start_year
             /\ end_year = start_year)
            \/ (String.length year_str = 5%nat
                /\ int (take 4 year_str) = Some start_year
                /\ (start_year mod 10 = 0)%Z
                /\ (end_year - start_year + 1 = 10)%Z)))
  /\ year_bounds "1990s" = Some (1990, 1999)%Z
  /\ year_bounds "2021" = Some (2021, 2021)%Z.
Proof.
  split; [|split; reflexivity].
  intros query year_str Hsel.
  destruct (year_query_shape query year_str Hsel)
    as [(c1 & c2 & d & -> & Hc & Hd) | (a & b & c & d & -> & Ha & Hb & Hc & Hd)].
  - assert (H0 : is_digit "0" = true) by reflexivity.
    assert (H12 : is_digit c1 = true /\ is_digit c2 = true
                  /\ (10 * digit c1 + digit c2 = 19 \/ 10 * digit c1 + digit c2 = 20)%Z).
    { destruct Hc as [[-> ->] | [-> ->]]; repeat split; auto. }
    destruct H12 as (H1 & H2 & Hcent).
    pose proof (int_four_digits c1 c2 d "0" H1 H2 Hd H0) as Hint.
    exists (1000 * digit c1 + 100 * digit c2 + 10 * digit d + digit "0")%Z.
    eexists. split.
    + unfold year_bounds. cbn [String.length Nat.eqb take]. rewrite Hint. reflexivity.
    + right. cbn [String.length take]. split; [reflexivity|]. split; [exact Hint|].
      change (digit "0") with 0%Z. split; [|lia].
      replace (1000 * digit c1 + 100 * digit c2 + 10 * digit d + 0)%Z
        with ((100 * digit c1 + 10 * digit c2 + digit d) * 10)%Z by lia.
      apply Z.mod_mul. lia.
  - pose proof (int_four_digits a b c d Ha Hb Hc Hd) as Hint.
    eexists. eexists. split.
    + unfold year_bounds. cbn [String.length Nat.eqb]. rewrite Hint. reflexivity.
    + left. repeat split. exact Hint.
Qed.

Lemma year_bounds_of_tokens_witness :
  select_handler "films from the 1990s" = YearQuery "1990s"
  /\ select_handler "what came out in 2021 rather than in the 90s" = YearQuery "2021"
  /\ (exists start_year end_year : Z,
        year_bounds "1990s" = Some (start_year, end_year)
        /\ ((String.length "1990s" = 4%nat
             /\ int "1990s" = Some start_year
             /\ end_year = start_year)
            \/ (String.length "1990s" = 5%nat
                /\ int (take 4 "1990s") = Some start_year
                /\ (start_year mod 10 = 0)%Z
                /\ (end_year - start_year + 1 = 10)%Z))).
Proof.
  split; [reflexivity|]. split; [reflexivity|].
  apply (proj1 year_bounds_of_tokens "films from the 1990s" "1990s").
  reflexivity.
Defined.

(* ----------------------------------------------------------------- *)
(** ** The visualisation shaper *)

Section GraphView.
Import GraphAnalytics.

Lemma get_graph_data_resolved (G : G_adb) (movie_id : string) (depth : Z)
      (central_movie : Node) (others : list Node)
      (graph_data : subgraph) (more : list subgraph) :
  movie_query (store G) (normalize_movie_id movie_id) = central_movie :: others ->
  subgraph_query G (n_id central_movie) depth = Ok (graph_data :: more) ->
  get_graph_data G movie_id depth = Ok (shape graph_data).
Proof.
  intros Hq Hs. unfold get_graph_data. now rewrite Hq, Hs.
Qed.

Lemma node_view_group (r : traversed) :
  group (node_view r) = get_or (n_type (node r)) "unknown"
  /\ type (node_view r) = get_or (n_type (node r)) "unknown"
  /\ distance (node_view r) = Some (t_distance r)
  /\ id (node_view r) = n_id (node r).
Proof. repeat split. Qed.

Lemma traversed_not_central (rows : list traversed) :
  Forall (fun r => n_type (node r) <> Some "central") rows ->
  filter (fun v => String.eqb (group v) "central") (map node_view rows) = [].
Proof.
  induction 1 as [|r rows Hr _ IH]; [reflexivity|].
  cbn [map filter]. rewrite IH.
  destruct (String.eqb (group (node_view r)) "central") eqn:E; [|reflexivity].
  apply String.eqb_eq in E. cbn in E.
  destruct (n_type (node r)) as [ty|]; cbn in E; [subst; contradiction | discriminate].
Qed.

Lemma movie_query_unresolved (s : Store) (movie_id : string) :
  (forall n, In n (MovieLens_node s) ->
             n_id n <> movie_id
             /\ n_original_id n <> Some (Py.remove_all "movie_" movie_id)) ->
  movie_query s movie_id = [].
Proof.
  intros Hno. unfold movie_query.
  replace (filter _ (MovieLens_node s)) with (@nil Node); [reflexivity|].
  symmetry. induction (MovieLens_node s) as [|n l IH]; [reflexivity|].
  cbn [filter]. destruct (Hno n (or_introl eq_refl)) as [Hid Hlegacy].
  assert (E1 : String.eqb (n_id n) movie_id = false) by now apply String.eqb_neq.
  assert (E2 : opt_str_eqb (n_original_id n) (Py.remove_all "movie_" movie_id) = false).
  { destruct (n_original_id n) as [o|] eqn:Ho; [|reflexivity].
    cbn. apply String.eqb_neq. intros ->. now apply Hlegacy. }
  rewrite E1, E2. cbn [orb]. apply IH. intros m Hm. apply Hno. now right.
Qed.

End GraphView.

Import GraphAnalytics.

(** C5.  When the centre resolves and the traversal answers with a
    record whose vertices are typed within the schema (none is typed
    "central"), the node list starts with the centre, the centre is
    the only entry of group "central" and has no distance key, and the
    entries after it are the traversed records in order, each with the
    number of edges walked to it as its distance and with its type as
    its group. *)
Theorem central_node_first_and_unique
        (G : G_adb) (movie_id : string) (depth : Z)
        (central_movie : Node) (others : list Node)
        (graph_data : subgraph) (more : list subgraph) :
  movie_query (store G) (normalize_movie_id movie_id) = central_movie :: others ->
  subgraph_query G (n_id central_movie) depth = Ok (graph_data :: more) ->
  Forall (fun r => n_type (node r) <> Some "central") (nodes graph_data) ->
  exists (view : GraphView) (c : ViewNode) (rest : list ViewNode),
    get_graph_data G movie_id depth = Ok view
    /\ view_nodes view = c :: rest
    /\ id c = n_id (central graph_data)
    /\ group c = "central"
    /\ distance c = None
    /\ List.length (filter (fun v => String.eqb (group v) "central") (view_nodes view))
       = 1%nat
    /\ Forall2 (fun r v =>
                  id v = n_id (node r)
                  /\ distance v = Some (t_distance r)
                  /\ group v = type v
                  /\ type v = get_or (n_type (node r)) "unknown")
               (nodes graph_data) rest.
Proof.
  intros Hq Hs Hschema.
  exists (shape graph_data), (central_view (central graph_data)),
         (map node_view (nodes graph_data)).
  split; [now apply get_graph_data_resolved with central_movie others more|].
  repeat split.
  - cbn [shape view_nodes filter central_view group].
    change (String.eqb "central" "central") with true.
    cbn [List.length]. now rewrite traversed_not_central.
  - clear. induction (nodes graph_data) as [|r rows IH]; constructor;
      [repeat split | exact IH].
Qed.

Lemma central_node_first_and_unique_witness :
  exists (view : GraphView) (c : ViewNode) (rest : list ViewNode),
    get_graph_data Fixtures.chain_G "1" 2 = Ok view
    /\ view_nodes view = c :: rest
    /\ id c = "movie_1"
    /\ group c = "central"
    /\ distance c = None
    /\ List.length (filter (fun v => String.eqb (group v) "central") (view_nodes view))
       = 1%nat
    /\ Forall2 (fun r v =>
                  id v = n_id (node r)
                  /\ distance v = Some (t_distance r)
                  /\ group v = type v
                  /\ type v = get_or (n_type (node r)) "unknown")
               [mkTraversed Fixtures.animation 1; mkTraversed Fixtures.jumanji 2] rest.
Proof.
  apply (central_node_first_and_unique Fixtures.chain_G "1" 2 Fixtures.toy_story []
           (mkSubgraph Fixtures.toy_story
              [mkTraversed Fixtures.animation 1; mkTraversed Fixtures.jumanji 2]
              (firstn 2 Fixtures.chain_links)) []).
  - reflexivity.
  - reflexivity.
  - repeat constructor; discriminate.
Defined.

(* ----------------------------------------------------------------- *)
(** ** The lookup as text *)

Section QueryTexts.
Import QueryText.

Lemma plain_app (a b : string) : plain (a ++ b) = plain a && plain b.
Proof.
  induction a as [|c a IH]; [reflexivity|].
  cbn [append plain]. rewrite IH. now rewrite andb_assoc.
Qed.

(** The prefix that [get_graph_data] puts before a bare id is plain. *)
Lemma plain_normalize (movie_id : string) :
  plain (normalize_movie_id movie_id) = plain movie_id.
Proof.
  unfold normalize_movie_id. destruct (Py.startswith movie_id "movie_"); [reflexivity|].
  now rewrite plain_app.
Qed.

Lemma plain_remove_all_from (skip : nat) (old value : string) :
  plain value = true -> plain (Py.remove_all_from skip old value) = true.
Proof.
  revert skip. induction value as [|c value IH]; intros skip Hp; [reflexivity|].
  cbn [plain] in Hp. apply andb_prop in Hp as [Hc Hp].
  cbn [Py.remove_all_from]. destruct skip as [|k]; [|now apply IH].
  destruct (Py.startswith (String c value) old); [now apply IH|].
  cbn [plain]. now rewrite Hc, IH.
Qed.

(** A plain value between its quotes is read as one literal. *)
Lemma malformed_plain_literal (value rest : string) :
  plain value = true ->
  malformed Literal (value ++ String double_quote rest) = malformed (Code true) rest.
Proof.
  induction value as [|c value IH]; intros Hp; [reflexivity|].
  cbn [plain] in Hp. apply andb_prop in Hp as [Hc Hp]. apply andb_prop in Hc as [Hq Hb].
  apply negb_true_iff in Hq, Hb.
  cbn [append malformed]. rewrite Hq, Hb. now apply IH.
Qed.

Lemma quoted_app (value rest : string) :
  (quoted value ++ rest)%string = String double_quote (value ++ String double_quote rest).
Proof.
  unfold quoted. cbn [append]. f_equal.
  induction value as [|c value IH]; [reflexivity|]. cbn [append]. now rewrite IH.
Qed.

(** The two branches of [query] do not compete: the text made from a
    plain id is never malformed. *)
Lemma plain_text_is_well_formed (movie_id : string) :
  plain movie_id = true ->
  malformed (Code false) (movie_query_text movie_id) = false.
Proof.
  intros Hp. unfold movie_query_text.
  cbn -[quoted Py.remove_all malformed plain].
  rewrite !quoted_app.
  cbn -[Py.remove_all plain].
  rewrite (malformed_plain_literal _ _ Hp).
  cbn -[Py.remove_all plain].
  rewrite malformed_plain_literal; [reflexivity|].
  now apply plain_remove_all_from.
Qed.

Lemma query_plain (s : Store) (injected : string -> result (list Node))
      (movie_id : string) :
  plain movie_id = true ->
  query s injected (normalize_movie_id movie_id)
  = Ok (movie_query s (normalize_movie_id movie_id)).
Proof.
  intros Hp. unfold query. now rewrite plain_normalize, Hp.
Qed.

(** For a plain id the functions over the text are the functions over
    the lookup's meaning. *)
Lemma get_graph_data_plain (G : G_adb) (injected : string -> result (list Node))
      (movie_id : string) (depth : Z) :
  plain movie_id = true ->
  get_graph_data G injected movie_id depth
  = GraphAnalytics.get_graph_data G movie_id depth.
Proof.
  intros Hp. unfold get_graph_data, GraphAnalytics.get_graph_data.
  now rewrite (query_plain _ _ _ Hp).
Qed.

Lemma find_similar_movies_plain (s : Store) (injected : string -> result (list Node))
      (movie_id : string) (threshold : Q) (limit : nat) :
  plain movie_id = true ->
  find_similar_movies s injected movie_id threshold limit
  = RecommendationEngine.find_similar_movies s movie_id threshold limit.
Proof.
  intros Hp. unfold find_similar_movies, RecommendationEngine.find_similar_movies.
  now rewrite (query_plain _ _ _ Hp).
Qed.

(** The lookup for the id that is one double quote compares [_id]
    with ["movie_"] and goes on with a second literal: whatever the
    store holds, it is refused. *)
Lemma lone_quote_breaks_lookup (s : Store) (injected : string -> result (list Node)) :
  malformed (Code false) (movie_query_text (normalize_movie_id Samples.lone_quote))
  = true
  /\ exists e, query s injected (normalize_movie_id Samples.lone_quote) = Raise e.
Proof. split; [reflexivity|]. eexists. reflexivity. Qed.

End QueryTexts.

(** C6, as stated, fails: for the id that is one double quote no
    document has the canonical id as its [_id] nor the bare id as its
    [original_id], and yet the graph view is not the empty structure,
    an error is raised: the lookup with this id spliced in is
    malformed. *)
Lemma unresolved_quote_is_raised :
  (forall n, In n (MovieLens_node (store Fixtures.chain_G)) ->
             n_id n <> normalize_movie_id Samples.lone_quote
             /\ n_original_id n
                <> Some (Py.remove_all "movie_" (normalize_movie_id Samples.lone_quote)))
  /\ QueryText.malformed (QueryText.Code false)
       (QueryText.movie_query_text (normalize_movie_id Samples.lone_quote)) = true
  /\ (exists e,
         QueryText.get_graph_data Fixtures.chain_G Samples.no_injection
                                  Samples.lone_quote 2 = Raise e)
  /\ QueryText.get_graph_data Fixtures.chain_G Samples.no_injection
                              Samples.lone_quote 2
     <> Ok {| view_nodes := []; view_links := [] |}.
Proof.
  split; [|split; [reflexivity | split; [eexists; reflexivity | discriminate]]].
  intros n Hn. cbn in Hn.
  repeat (destruct Hn as [<- | Hn]; [split; discriminate|]).
  contradiction.
Qed.

(** C6, amended.  For an id without a double quote and without a
    backslash: when no document has the canonical id as its [_id] nor
    the id without its prefix as its [original_id], the graph view is
    the empty structure, returned and not raised, at every depth. *)
Theorem unresolved_center_gives_empty_view
        (G : G_adb) (injected : string -> result (list Node))
        (movie_id : string) (depth : Z) :
  QueryText.plain movie_id = true ->
  (forall n, In n (MovieLens_node (store G)) ->
             n_id n <> normalize_movie_id movie_id
             /\ n_original_id n
                <> Some (Py.remove_all "movie_" (normalize_movie_id movie_id))) ->
  QueryText.get_graph_data G injected movie_id depth
  = Ok {| view_nodes := []; view_links := [] |}.
Proof.
  intros Hplain Hno. unfold QueryText.get_graph_data.
  rewrite (query_plain _ _ _ Hplain).
  now rewrite (movie_query_unresolved _ _ Hno).
Qed.

Lemma unresolved_center_gives_empty_view_witness :
  QueryText.get_graph_data Fixtures.chain_G Samples.no_injection "999" 2
  = Ok {| view_nodes := []; view_links := [] |}.
Proof.
  apply unresolved_center_gives_empty_view.
  - reflexivity.
  - intros n Hn. cbn in Hn.
    repeat (destruct Hn as [<- | Hn]; [split; discriminate|]).
    contradiction.
Defined.

(** C10.  The links of a graph view are the edges of the traversal's
    record, one link per edge and in its order, and a view made
    without a record has no link.  Each link has a weight whatever
    payload its edge lacks: a [similar_to] edge weighs its
    similarity, or 0.5 without one; a [rated] edge weighs its rating
    over 5, or 3 over 5, that is 0.6, without one; an edge of any
    other type, or without a type, weighs 1. *)
Theorem link_weight_defaults
        (G : G_adb) (movie_id : string) (depth : Z) (view : GraphView) :
  get_graph_data G movie_id depth = Ok view ->
  (view_links view = []
   /\ (movie_query (store G) (normalize_movie_id movie_id) = []
       \/ exists central_movie others,
            movie_query (store G) (normalize_movie_id movie_id)
            = central_movie :: others
            /\ subgraph_query G (n_id central_movie) depth = Ok []))
  \/ exists central_movie others graph_data more,
       movie_query (store G) (normalize_movie_id movie_id) = central_movie :: others
       /\ subgraph_query G (n_id central_movie) depth = Ok (graph_data :: more)
       /\ Forall2
            (fun (link : Edge) (l : ViewLink) =>
               source l = e_from link /\ target l = e_to link
               /\ link_type l = get_or (e_type link) "unknown"
               /\ (e_type link = Some "similar_to" ->
                   (forall sim, e_similarity link = Some sim -> weight l = sim)
                   /\ (e_similarity link = None -> weight l = 1 # 2))
               /\ (e_type link = Some "rated" ->
                   (forall r, e_rating link = Some r -> weight l = r / 5)
                   /\ (e_rating link = None -> weight l = 3 / 5 /\ weight l == 0.6))
               /\ (e_type link <> Some "similar_to" -> e_type link <> Some "rated" ->
                   weight l = 1))
            (links graph_data) (view_links view).
Proof.
  unfold get_graph_data.
  destruct (movie_query _ _) as [|central_movie others] eqn:Hq.
  { intros [= <-]. left. split; [reflexivity | now left]. }
  destruct (subgraph_query _ _ _) as [[|graph_data more]|e] eqn:Hs.
  { intros [= <-]. left. split; [reflexivity|]. right.
    now exists central_movie, others. }
  2: discriminate.
  intros [= <-]. right. exists central_movie, others, graph_data, more.
  split; [reflexivity|]. split; [exact Hs|].
  cbn [shape view_links]. clear.
  induction (links graph_data) as [|link rest IH]; cbn [map]; constructor; [|exact IH].
  cbn [link_view source target link_type weight].
  split; [reflexivity|]. split; [reflexivity|]. split; [reflexivity|].
  unfold link_weight. split; [|split].
  - intros Hty. rewrite Hty. cbn [get_or].
    change (String.eqb "similar_to" "similar_to") with true. cbv iota.
    split; [intros sim Hsim | intros Hsim]; now rewrite Hsim.
  - intros Hty. rewrite Hty. cbn [get_or].
    change (String.eqb "rated" "similar_to") with false.
    change (String.eqb "rated" "rated") with true. cbv iota.
    split; [intros r Hr | intros Hr]; rewrite Hr; cbn [get_or];
      [reflexivity | split; reflexivity].
  - intros Hsim Hrated.
    destruct (e_type link) as [ty|]; [|reflexivity]. cbn [get_or].
    destruct (String.eqb ty "similar_to") eqn:E1.
    { apply String.eqb_eq in E1. subst. contradiction. }
    destruct (String.eqb ty "rated") eqn:E2.
    { apply String.eqb_eq in E2. subst. contradiction. }
    reflexivity.
Qed.

Lemma link_weight_defaults_witness :
  (view_links Samples.payload_view = []
   /\ (movie_query (store Samples.payload_G) (normalize_movie_id "1") = []
       \/ exists central_movie others,
            movie_query (store Samples.payload_G) (normalize_movie_id "1")
            = central_movie :: others
            /\ subgraph_query Samples.payload_G (n_id central_movie) 1 = Ok []))
  \/ exists central_movie others graph_data more,
       movie_query (store Samples.payload_G) (normalize_movie_id "1")
       = central_movie :: others
       /\ subgraph_query Samples.payload_G (n_id central_movie) 1
          = Ok (graph_data :: more)
       /\ Forall2
            (fun (link : Edge) (l : ViewLink) =>
               source l = e_from link /\ target l = e_to link
               /\ link_type l = get_or (e_type link) "unknown"
               /\ (e_type link = Some "similar_to" ->
                   (forall sim, e_similarity link = Some sim -> weight l = sim)
                   /\ (e_similarity link = None -> weight l = 1 # 2))
               /\ (e_type link = Some "rated" ->
                   (forall r, e_rating link = Some r -> weight l = r / 5)
                   /\ (e_rating link = None -> weight l = 3 / 5 /\ weight l == 0.6))
               /\ (e_type link <> Some "similar_to" -> e_type link <> Some "rated" ->
                   weight l = 1))
            (links graph_data) (view_links Samples.payload_view).
Proof.
  apply (link_weight_defaults Samples.payload_G "1" 1 Samples.payload_view).
  reflexivity.
Defined.

(* ----------------------------------------------------------------- *)
(** ** The endpoints *)

Import App.

(** C9, as stated, fails: a depth of 5 is not turned into 3.  The
    endpoint refuses the request, and the function itself, called with
    5, walks five edges where a walk of depth 3 stops after three. *)
Lemma depth_five_is_not_clamped :
  get_movie_graph Fixtures.chain_G "1" (Some 5%Z) = validation_error
  /\ get_movie_graph Fixtures.chain_G "1" (Some 5%Z)
     <> get_movie_graph Fixtures.chain_G "1" (Some (clamp_depth 5))
  /\ get_graph_data Fixtures.chain_G "1" 5
     <> get_graph_data Fixtures.chain_G "1" (clamp_depth 5).
Proof.
  split; [reflexivity|]. split; intros H; vm_compute in H; discriminate H.
Qed.

(** C9, amended.  The endpoint takes the depth as given when it lies
    between 1 and 3, and 2 when the request has none: the answer is
    then the view shaped from the traversal at exactly that depth (or
    a 500 when the store raises).  Any other depth is refused with a
    422 before the store is asked; nothing is coerced. *)
Theorem depth_is_validated_and_used_as_given
        (G : G_adb) (movie_id : string) (depth : Z) :
  ((1 <= depth <= 3)%Z ->
   get_movie_graph G movie_id (Some depth)
   = match get_graph_data G movie_id depth with
     | Ok graph_data => Http200 graph_data
     | Raise e => HttpError 500 ("Error fetching graph data: " ++ exn_str e)
     end)
  /\ ((1 <= depth <= 3)%Z ->
      forall central_movie others graph_data more,
        movie_query (store G) (normalize_movie_id movie_id) = central_movie :: others ->
        subgraph_query G (n_id central_movie) depth = Ok (graph_data :: more) ->
        get_movie_graph G movie_id (Some depth) = Http200 (shape graph_data))
  /\ (~ (1 <= depth <= 3)%Z ->
      get_movie_graph G movie_id (Some depth) = validation_error)
  /\ get_movie_graph G movie_id None = get_movie_graph G movie_id (Some 2%Z).
Proof.
  unfold get_movie_graph. cbn [get_or].
  repeat split.
  - intros [H1 H3].
    apply Z.leb_le in H1, H3. now rewrite H1, H3.
  - intros [H1 H3] central_movie others graph_data more Hq Hs.
    apply Z.leb_le in H1, H3. rewrite H1, H3. cbn [andb].
    now rewrite (get_graph_data_resolved G movie_id depth _ _ _ _ Hq Hs).
  - intros Hout.
    destruct (1 <=? depth)%Z eqn:H1; [|reflexivity].
    destruct (depth <=? 3)%Z eqn:H3; [|reflexivity].
    apply Z.leb_le in H1, H3. lia.
Qed.

Lemma depth_is_validated_and_used_as_given_witness :
  get_movie_graph Fixtures.chain_G "1" (Some 3%Z)
  = Http200 (shape (mkSubgraph Fixtures.toy_story (firstn 3 Fixtures.chain_nodes)
                               (firstn 3 Fixtures.chain_links)))
  /\ get_movie_graph Fixtures.chain_G "1" (Some 0%Z) = validation_error.
Proof.
  split.
  - apply (proj1 (proj2 (depth_is_validated_and_used_as_given
                           Fixtures.chain_G "1" 3))
             ltac:(lia) Fixtures.toy_story [] _ []); reflexivity.
  - apply (proj1 (proj2 (proj2 (depth_is_validated_and_used_as_given
                                  Fixtures.chain_G "1" 0)))).
    lia.
Defined.

(** C4.  With a path or route query and a context that lacks the
    source or the target, the endpoint raises its 400 inside the [try]
    block and the [except Exception] clause around it answers 500: the
    request [{query: "shortest path", context: {}}] gets a 500, and no
    request at all can get a status other than 200 or 500. *)
Theorem missing_endpoints_answer_500 :
  (forall A : Analytics,
      exists detail,
        run_analytics A {| query := "shortest path"; context := Some [] |}
        = HttpError 500 detail)
  /\ (forall (A : Analytics) (request : AnalyticsRequest),
         match run_analytics A request with
         | Http200 _ => True
         | HttpError status_code _ => status_code = 500%Z
         end).
Proof.
  split.
  - intros A. eexists. reflexivity.
  - intros A request. unfold run_analytics.
    now destruct (run_analytics_try A request).
Qed.

(* ----------------------------------------------------------------- *)
(** ** The recommendation lists *)

Section Recommendations.
Import RecommendationEngine.

(** The score of the genre path, in closed form. *)
Lemma genre_similarity_formula (movie_genres source_genres : list string) :
  genre_similarity movie_genres source_genres
  == inject_Z (Z.of_nat (count_common movie_genres source_genres))
     / inject_Z (Z.of_nat (List.length movie_genres + List.length source_genres)).
Proof.
  unfold genre_similarity, aql_union. rewrite Qred_correct, length_app. reflexivity.
Qed.

Lemma count_common_le (movie_genres source_genres : list string) :
  (count_common movie_genres source_genres <= List.length movie_genres)%nat.
Proof. unfold count_common. apply filter_length_le. Qed.

(** The score lies between 0 and 1. *)
Lemma genre_similarity_bounds (movie_genres source_genres : list string) :
  0 <= genre_similarity movie_genres source_genres <= 1.
Proof.
  rewrite genre_similarity_formula.
  pose proof (count_common_le movie_genres source_genres) as Hle.
  set (c := count_common movie_genres source_genres) in *.
  set (n := (List.length movie_genres + List.length source_genres)%nat).
  assert (Hcn : (c <= n)%nat) by (unfold n; lia).
  destruct n as [|n'].
  - assert (H : c = 0%nat) by lia. rewrite H. split; vm_compute; discriminate.
  - assert (Hpos : 0 < inject_Z (Z.of_nat (S n'))).
    { unfold Qlt. cbn. lia. }
    split.
    + apply Qle_shift_div_l; [exact Hpos|]. rewrite Qmult_0_l.
      unfold Qle. cbn. lia.
    + apply Qle_shift_div_r; [exact Hpos|]. rewrite Qmult_1_l.
      rewrite <- Zle_Qle. lia.
Qed.

Lemma aql_sort_perm {A : Type} (before : A -> A -> bool) (l : list A) :
  Permutation (aql_sort before l) l.
Proof.
  induction l as [|x l IH]; [constructor|].
  cbn [aql_sort fold_right]. fold (aql_sort before l).
  transitivity (x :: aql_sort before l); [|now constructor].
  clear IH. induction (aql_sort before l) as [|y s IHs]; cbn; [reflexivity|].
  destruct (before y x); [|reflexivity].
  rewrite IHs. apply perm_swap.
Qed.

Lemma firstn_incl {A : Type} (n : nat) (l : list A) (x : A) :
  In x (firstn n l) -> In x l.
Proof.
  intros H. rewrite <- (firstn_skipn n l). apply in_or_app. now left.
Qed.

(** No row of the genre path scores below the floor. *)
Lemma genre_rows_above_floor (s : Store) (movie_id : string)
      (source_genres : list string) (limit : nat) (row : genre_row) :
  In row (genre_similar_query s movie_id source_genres limit) ->
  3 # 10 <= g_similarity row
  /\ g_similarity row = genre_similarity (genres_of s (g_movie row)) source_genres.
Proof.
  unfold genre_similar_query. intros Hin.
  apply firstn_incl in Hin.
  apply (Permutation_in _ (aql_sort_perm _ _)) in Hin.
  apply in_flat_map in Hin as (movie & _ & Hrow).
  destruct (0 <? count_common _ _)%nat; [|contradiction].
  destruct (Qle_bool _ _) eqn:Hfloor; [|contradiction].
  destruct Hrow as [<- | []]. cbn [g_similarity g_movie].
  split; [now apply Qle_bool_iff | reflexivity].
Qed.

Lemma aql_lt_asym (a b : option Q) : aql_lt a b = true -> aql_lt b a = false.
Proof.
  destruct a as [x|], b as [y|]; cbn; try discriminate; try reflexivity.
  intros H. apply negb_true_iff in H. apply negb_false_iff.
  apply Qle_bool_iff. destruct (Qlt_le_dec x y) as [Hlt|Hle].
  - now apply Qlt_le_weak.
  - apply Qle_bool_iff in Hle. congruence.
Qed.

Lemma aql_lt_eq (a b : option Q) : aql_lt a b = true -> aql_eq b a = false.
Proof.
  destruct a as [x|], b as [y|]; cbn; try discriminate; try reflexivity.
  intros H. apply negb_true_iff in H.
  destruct (Qeq_bool y x) eqn:E; [|reflexivity].
  apply Qeq_bool_iff in E.
  assert (Hle : Qle_bool y x = true) by (apply Qle_bool_iff; rewrite E; apply Qle_refl).
  congruence.
Qed.

Lemma aql_eq_sym (a b : option Q) : aql_eq a b = aql_eq b a.
Proof.
  destruct a as [x|], b as [y|]; cbn; try reflexivity.
  destruct (Qeq_bool x y) eqn:E1, (Qeq_bool y x) eqn:E2; try reflexivity.
  - apply Qeq_bool_iff in E1. symmetry in E1. apply Qeq_bool_iff in E1. congruence.
  - apply Qeq_bool_iff in E2. symmetry in E2. apply Qeq_bool_iff in E2. congruence.
Qed.

Lemma genre_row_before_asym (x y : genre_row) :
  genre_row_before x y = true -> genre_row_before y x = false.
Proof.
  unfold genre_row_before. intros H.
  apply orb_true_iff in H as [H | H].
  - rewrite (aql_lt_asym _ _ H), aql_eq_sym, (aql_lt_eq _ _ H). reflexivity.
  - apply andb_true_iff in H as [He Hp].
    rewrite (aql_lt_asym _ _ Hp), andb_false_r, orb_false_r.
    destruct (aql_lt (Some (g_similarity x)) (Some (g_similarity y))) eqn:Hlt;
      [|reflexivity].
    apply aql_lt_eq in Hlt. rewrite aql_eq_sym in Hlt. congruence.
Qed.

Lemma sort_insert_sorted {A : Type} (before : A -> A -> bool) :
  (forall x y, before x y = true -> before y x = false) ->
  forall x l, Sorted (in_order before) l ->
              Sorted (in_order before) (sort_insert before x l).
Proof.
  intros Hasym x l Hs. induction Hs as [|y l Hs IH Hhd]; cbn [sort_insert].
  - repeat constructor.
  - destruct (before y x) eqn:Hyx.
    + constructor; [exact IH|].
      destruct l as [|z l']; cbn [sort_insert].
      * constructor. unfold in_order. now apply Hasym.
      * destruct (before z x); constructor.
        -- now inversion Hhd.
        -- unfold in_order. now apply Hasym.
    + constructor; [now constructor|]. constructor. exact Hyx.
Qed.

Lemma aql_sort_sorted {A : Type} (before : A -> A -> bool) (l : list A) :
  (forall x y, before x y = true -> before y x = false) ->
  Sorted (in_order before) (aql_sort before l).
Proof.
  intros Hasym. induction l as [|x l IH]; [constructor|].
  cbn [aql_sort fold_right]. now apply sort_insert_sorted.
Qed.

Lemma firstn_sorted {A : Type} (R : A -> A -> Prop) (n : nat) (l : list A) :
  Sorted R l -> Sorted R (firstn n l).
Proof.
  intros Hs. revert n. induction Hs as [|x l Hs IH Hhd]; intros [|n]; cbn;
    try constructor.
  - apply IH.
  - destruct Hhd; destruct n; cbn; constructor; assumption.
Qed.

(** The genre path is in order: each row may stand before the next. *)
Lemma genre_path_sorted (s : Store) (movie_id : string)
      (source_genres : list string) (limit : nat) :
  Sorted (in_order genre_row_before)
         (genre_similar_query s movie_id source_genres limit).
Proof.
  unfold genre_similar_query. apply firstn_sorted, aql_sort_sorted.
  exact genre_row_before_asym.
Qed.

(** What that order says of two neighbours: the score does not rise,
    and on equal scores the popularity does not rise. *)
Lemma genre_order_meaning (x y : genre_row) :
  in_order genre_row_before x y ->
  g_similarity y <= g_similarity x
  /\ (g_similarity x == g_similarity y ->
      aql_lt (n_popularity (g_movie x)) (n_popularity (g_movie y)) = false).
Proof.
  unfold in_order, genre_row_before. intros H.
  apply orb_false_iff in H as [Hlt Hand]. cbn [aql_lt] in Hlt.
  apply negb_false_iff, Qle_bool_iff in Hlt. split; [exact Hlt|].
  intros Heq. cbn [aql_eq] in Hand.
  assert (E : Qeq_bool (g_similarity y) (g_similarity x) = true)
    by (apply Qeq_bool_iff; now symmetry).
  rewrite E in Hand. exact Hand.
Qed.

End Recommendations.

Import RecommendationEngine.

(** C2.  The genre path divides the number of shared genres by the
    length of [UNION(movie_genres, source_genres)], and that function
    keeps duplicates: the divisor is the sum of the two sizes, not the
    size of the union.  Two movies of the one genre Animation score
    1/2 where the ratio of the specification is 1; a candidate with one
    of three source genres scores 1/4 and is dropped by the floor
    where that ratio is 1/3. *)
Theorem genre_score_is_not_jaccard :
  (forall movie_genres source_genres : list string,
      genre_similarity movie_genres source_genres
      == inject_Z (Z.of_nat (count_common movie_genres source_genres))
         / inject_Z (Z.of_nat (List.length movie_genres + List.length source_genres)))
  /\ get_recommendations_by_genre Fixtures.twin_store "movie_1" 10
     = [ {| id := "movie_2"; original_id := Some "2"; title := "Jumanji";
            year := Some 1995%Z; similarity := 1 # 2;
            common_genre_count := Some 1%nat; reason := "Shares 1 genres" |} ]
  /\ jaccard ["genre_animation"] ["genre_animation"] = 1
  /\ genre_similarity ["genre_a"] ["genre_a"; "genre_b"; "genre_c"] = 1 # 4
  /\ jaccard ["genre_a"] ["genre_a"; "genre_b"; "genre_c"] = 1 # 3.
Proof.
  split; [exact genre_similarity_formula|].
  repeat split; reflexivity.
Qed.

(** C7.  The direct path sorts on the similarity alone.  Toy Story has
    two neighbours of similarity 0.8, Jumanji of popularity 4 and Heat
    of popularity 7: the sort key of the direct path does not tell the
    two rows apart, and the list comes out in the order of the edges,
    Jumanji first, and with the edges the other way round Heat first.
    The key of the genre path does tell them apart, and on the same
    movies that path puts Heat first. *)
Theorem direct_path_ignores_popularity :
  n_popularity Fixtures.jumanji = Some 4
  /\ n_popularity Fixtures.heat = Some 7
  /\ similar_row_before (Some Fixtures.jumanji, 0.8) (Some Fixtures.heat, 0.8) = false
  /\ similar_row_before (Some Fixtures.heat, 0.8) (Some Fixtures.jumanji, 0.8) = false
  /\ match find_similar_movies Fixtures.tie_store "1" 0.3 10 with
     | Ok recs => map (fun r => (id r, similarity r)) recs
                  = [("movie_2", 0.8); ("movie_6", 0.8)]
     | Raise _ => False
     end
  /\ match find_similar_movies Fixtures.tie_store_reversed "1" 0.3 10 with
     | Ok recs => map (fun r => (id r, similarity r)) recs
                  = [("movie_6", 0.8); ("movie_2", 0.8)]
     | Raise _ => False
     end
  /\ genre_row_before (mkGenreRow Fixtures.heat (1 # 2) 1)
                      (mkGenreRow Fixtures.jumanji (1 # 2) 1) = true
  /\ map (fun r => (id r, similarity r))
         (get_recommendations_by_genre Fixtures.tie_store "movie_1" 10)
     = [("movie_6", 1 # 2); ("movie_2", 1 # 2)].
Proof.
  repeat split; reflexivity.
Qed.

(* ----------------------------------------------------------------- *)
(** ** The fallback chain *)

Section Fallback.
Import ChatAgent.

Variable R : Runtime.

Lemma stage_simple_query (a b c : bool) :
  stage_of (simple_query a b c) = TemplateQuery.
Proof. now destruct a, b, c. Qed.

Lemma grows_same (t t' : trace) (allowed : list (list stage)) :
  db_log t' = db_log t -> In [] allowed -> grows t t' allowed.
Proof. intros Hlog H. exists []. now rewrite app_nil_r. Qed.

Lemma grows_weaken (t t' : trace) (small large : list (list stage)) :
  incl small large -> grows t t' small -> grows t t' large.
Proof. intros Hincl (new & Hlog & Hin). exists new. auto. Qed.

(** One step of a handler: the monad opened up, the matches on the
    pairs it builds reduced. *)
Ltac run :=
  cbv beta iota delta [try_except bindM db_execute llm_invoke lift ret raise].

Ltac grown :=
  first
    [ apply grows_same; [reflexivity | cbn; tauto]
    | eexists; split;
      [ cbn [db_log]; rewrite <- ?app_assoc; reflexivity
      | cbn [map app]; rewrite ?stage_simple_query; cbn; tauto ] ].

(** The run has ended: name the result and the trace, account for the
    queries. *)
Ltac ended := do 2 eexists; split; [reflexivity | grown].

Ltac by_cases Hin :=
  cbn in Hin |- *;
  repeat (destruct Hin as [Hin | Hin]; [rewrite <- Hin; tauto|]);
  contradiction.

(** The run goes on into a handler whose stages are known by [lemma]. *)
Ltac continue_with lemma :=
  let r := fresh "r" in
  let t' := fresh "t'" in
  let new := fresh "new" in
  let Hlog := fresh "Hlog" in
  let Hin := fresh "Hin" in
  destruct lemma as (r & t' & -> & new & Hlog & Hin);
  cbn [db_log] in Hlog;
  try destruct r;
  do 2 eexists; (split; [reflexivity|]);
  (eexists; split; [rewrite Hlog, <- !app_assoc; reflexivity|]);
  rewrite !map_app; by_cases Hin.

Lemma handle_empty_results_total (query : string) (t : trace) :
  exists text t',
    handle_empty_results R query t = (Ok text, t')
    /\ grows t t' [[TemplateQuery]].
Proof.
  unfold handle_empty_results. run.
  destruct (execute R _ _) as [[|row rows]|e]; run; try ended.
  destruct (bind _ _); ended.
Qed.

Lemma handle_year_query_total (year_str : string) (t : trace) :
  exists text t',
    handle_year_query R year_str t = (Ok text, t') /\ grows t t' year_stages.
Proof.
  unfold handle_year_query. run.
  destruct (ChatRouter.year_bounds year_str) as [[start_year end_year]|]; run.
  2: ended.
  destruct (execute R _ _) as [[|row rows]|e]; run; try ended.
  - destruct (execute R _ _) as [[|row rows]|e]; run; try ended.
    destruct (bind _ _); ended.
  - destruct (bind _ _); ended.
Qed.

Lemma handle_genre_query_total (genre : string) (is_top_rated : bool) (t : trace) :
  exists text t',
    handle_genre_query R genre is_top_rated t = (Ok text, t')
    /\ grows t t' genre_stages.
Proof.
  unfold handle_genre_query. run.
  destruct (execute R _ _) as [[|row rows]|e]; run; try ended.
  destruct (bind _ _); ended.
Qed.

(** The genre fallback of the similarity handler may raise (its
    [except] clause reads the title again), but asks the store at most
    its two queries. *)
Lemma handle_similar_movies_by_genre_stages (source_movie : json) (t : trace) :
  exists r t',
    handle_similar_movies_by_genre R source_movie t = (r, t')
    /\ grows t t' overlap_stages.
Proof.
  unfold handle_similar_movies_by_genre. run.
  destruct (py_item source_movie "_id") as [movie_id|e]; run.
  2:{ destruct (py_get source_movie "title" _); run; ended. }
  destruct (py_get source_movie "title" _) as [movie_title|e]; run; [|ended].
  destruct (execute R _ _) as [genre_result|e]; run; [|ended].
  destruct (first_has genre_result "genres") as [[|]|e]; run; try ended.
  destruct (py_item _ "genres") as [genres|e]; run; [|ended].
  destruct (execute R _ _) as [[|row rows]|e]; run; try ended.
  destruct (bind _ _); run; ended.
Qed.

Ltac into_overlap :=
  match goal with
  | |- context [handle_similar_movies_by_genre R ?m ?t0] =>
      continue_with (handle_similar_movies_by_genre_stages m t0)
  end.

Lemma handle_similar_movies_query_total (movie_title : string) (t : trace) :
  exists text t',
    handle_similar_movies_query R movie_title t = (Ok text, t')
    /\ grows t t' similar_stages.
Proof.
  unfold handle_similar_movies_query. run.
  destruct (execute R _ _) as [[|source_movie rows]|e]; run; try ended.
  - destruct (execute R _ _) as [[|source_movie rows]|e]; run; try ended.
    destruct (py_item source_movie "_id") as [movie_id|e]; run; [|ended].
    destruct (execute R _ _) as [similar_result|e]; run; [|ended].
    destruct (first_has similar_result _) as [[|]|e]; run; try ended.
    + destruct (format_similar_movies _ _); ended.
    + into_overlap.
  - destruct (py_item source_movie "_id") as [movie_id|e]; run; [|ended].
    destruct (execute R _ _) as [similar_result|e]; run; [|ended].
    destruct (first_has similar_result _) as [[|]|e]; run; try ended.
    + destruct (format_similar_movies _ _); ended.
    + into_overlap.
Qed.

Ltac into_template :=
  match goal with
  | |- context [handle_empty_results R ?q ?t0] =>
      continue_with (handle_empty_results_total q t0)
  end.

(** The generic handler may raise (its first call to the model is
    outside the [try]); the template query is sent at most once,
    because [handle_empty_results] itself never raises into the
    [except] clause that would send it again. *)
Lemma standard_query_processing_stages (query : string) (t : trace) :
  exists r t',
    standard_query_processing R query t = (r, t')
    /\ grows t t' standard_stages.
Proof.
  unfold standard_query_processing. run.
  destruct (invoke R _ _) as [content|e]; run; [|ended].
  destruct (execute R _ _) as [[|row rows]|e]; run.
  - into_template.
  - destruct (invoke R _ _) as [final|e]; run; [ended|].
    destruct (Py.str_in _ _); [into_template | ended].
  - destruct (Py.str_in _ _); [into_template | ended].
Qed.

Lemma text_to_aql_to_text_stages (query : string) (t : trace) :
  exists r t',
    text_to_aql_to_text R query t = (r, t') /\ grows t t' request_stages.
Proof.
  unfold text_to_aql_to_text.
  destruct (ChatRouter.select_handler query)
    as [primary_movie|genre is_top_rated|year_str|q].
  - destruct (handle_similar_movies_query_total primary_movie t) as (r & t' & -> & H).
    do 2 eexists; split; [reflexivity|]. revert H. apply grows_weaken.
    unfold request_stages. auto using incl_appl, incl_refl.
  - destruct (handle_genre_query_total genre is_top_rated t) as (r & t' & -> & H).
    do 2 eexists; split; [reflexivity|]. revert H. apply grows_weaken.
    unfold request_stages. auto using incl_appl, incl_appr, incl_refl.
  - destruct (handle_year_query_total year_str t) as (r & t' & -> & H).
    do 2 eexists; split; [reflexivity|]. revert H. apply grows_weaken.
    unfold request_stages. auto 6 using incl_appl, incl_appr, incl_refl.
  - destruct (standard_query_processing_stages q t) as (r & t' & -> & H).
    do 2 eexists; split; [reflexivity|]. revert H. apply grows_weaken.
    unfold request_stages. auto 6 using incl_appl, incl_appr, incl_refl.
Qed.

Lemma request_stages_nodup (l : list stage) :
  In l request_stages -> NoDup l /\ (List.length l <= 5)%nat.
Proof.
  cbn. intros H.
  repeat (destruct H as [<- | H];
          [split; [repeat constructor; cbn; intuition discriminate | cbn; lia]|]).
  contradiction.
Qed.

End Fallback.

Import ChatAgent.

(** C3.  Whatever the store and the model answer or raise on each
    call, [query_movie_graph] returns a text and raises nothing; the
    store is asked at most five queries, and no stage of the chain
    (title lookup, first-word lookup, direct similarity, source
    genres, genre overlap, genre listing, year listing, relaxed year
    listing, generated query, template query) is tried twice. *)
Theorem query_movie_graph_total (R : Runtime) (query : string) :
  exists (text : string) (t' : trace),
    query_movie_graph R query no_calls = (Ok text, t')
    /\ NoDup (stages t')
    /\ (List.length (db_log t') <= 5)%nat.
Proof.
  unfold query_movie_graph.
  cbv beta iota delta [try_except bindM llm_invoke ret].
  destruct (text_to_aql_to_text_stages R query no_calls)
    as (r & t1 & -> & new & Hlog & Hin).
  cbn [no_calls db_log app] in Hlog.
  apply request_stages_nodup in Hin as [Hnodup Hlen].
  rewrite length_map in Hlen.
  destruct r as [response|e]; cbv beta iota.
  - destruct (invoke R _ _) as [final|e]; do 2 eexists;
      (split; [reflexivity|]); unfold stages; cbn [db_log]; rewrite Hlog; auto.
  - do 2 eexists. split; [reflexivity|]. unfold stages. rewrite Hlog. auto.
Qed.

(** A store without a single row: the generic handler sends the
    generated query, then the template query, and what goes to the
    model for phrasing is the "no results" message. *)
Lemma no_rows_anywhere :
  query_movie_graph Fixtures.silent "anything new" no_calls
  = (Ok "I couldn't find any movies matching your query in the database. Could you try a different search?",
     {| db_log := [ Generated "FOR m IN MovieLens_node FILTER false RETURN m";
                    PopularMovies ];
        llm_log :=
          [ AqlPrompt "anything new";
            ConversationalPrompt "anything new"
              "I couldn't find any movies matching your query in the database. Could you try a different search?" ] |}).
Proof. reflexivity. Qed.

(* ----------------------------------------------------------------- *)
(** ** Identifiers and the lookup *)

Section Identifiers.

Lemma startswith_app (p x : string) : Py.startswith (p ++ x)%string p = true.
Proof.
  induction p as [|c p IH]; [now destruct x|].
  cbn. now rewrite Ascii.eqb_refl.
Qed.

Lemma normalize_prefixed (x : string) :
  normalize_movie_id ("movie_" ++ x) = ("movie_" ++ x)%string.
Proof. unfold normalize_movie_id. now rewrite startswith_app. Qed.

Lemma normalize_unprefixed (x : string) :
  Py.startswith x "movie_" = false ->
  normalize_movie_id x = ("movie_" ++ x)%string.
Proof. unfold normalize_movie_id. now intros ->. Qed.








End Identifiers.

Import GraphAnalytics.

(** X1.  An id written without the prefix and the same id written
    with it are one id to the graph view, to the recommendations and,
    on either side, to the shortest path. *)
Theorem canonical_and_bare_ids_agree
        (x : string) (G : G_adb) (depth : Z) (s : Store) (threshold : Q) (limit : nat)
        (path_query : string -> string -> result (list GraphAlgorithms.path_data))
        (other : string) :
  Py.startswith x "movie_" = false ->
  normalize_movie_id ("movie_" ++ x) = normalize_movie_id x
  /\ get_graph_data G ("movie_" ++ x) depth = get_graph_data G x depth
  /\ RecommendationEngine.find_similar_movies s ("movie_" ++ x) threshold limit
     = RecommendationEngine.find_similar_movies s x threshold limit
  /\ GraphAlgorithms.find_shortest_path path_query ("movie_" ++ x) other
     = GraphAlgorithms.find_shortest_path path_query x other
  /\ GraphAlgorithms.find_shortest_path path_query other ("movie_" ++ x)
     = GraphAlgorithms.find_shortest_path path_query other x.
Proof.
  intros H.
  assert (E : normalize_movie_id ("movie_" ++ x) = normalize_movie_id x).
  { now rewrite normalize_prefixed, normalize_unprefixed. }
  split; [exact E|].
  unfold get_graph_data, RecommendationEngine.find_similar_movies,
    GraphAlgorithms.find_shortest_path.
  rewrite E. repeat split.
Qed.

Lemma canonical_and_bare_ids_agree_witness :
  get_graph_data Fixtures.chain_G "movie_1" 2 = get_graph_data Fixtures.chain_G "1" 2.
Proof.
  apply (canonical_and_bare_ids_agree "1" Fixtures.chain_G 2 Fixtures.chain_store 0 0
           (fun _ _ => Ok []) "2").
  reflexivity.
Defined.



(* ----------------------------------------------------------------- *)
(** ** More on the recommendation lists *)

Section MoreRecommendations.
Import RecommendationEngine.

Lemma format_similar_rows (rows : list similar_row) (recs : list Recommendation) :
  format_similar rows = Ok recs ->
  Forall2 (fun row r =>
             similarity r = snd row
             /\ common_genre_count r = None
             /\ reason r = "Direct similarity"
             /\ exists movie, fst row = Some movie /\ id r = n_id movie)
          rows recs.
Proof.
  revert recs. induction rows as [|[[movie|] sim] rows IH]; intros recs; cbn [format_similar].
  - intros [= <-]. constructor.
  - destruct (format_similar rows) as [recs'|e]; [|discriminate].
    intros [= <-]. constructor; [|now apply IH].
    cbn. repeat split. now exists movie.
  - discriminate.
Qed.

Lemma similar_rows_kept (s : Store) (movie : Node) (threshold : Q) (limit : nat)
      (row : similar_row) :
  In row (similar_movies_of s movie threshold limit) ->
  threshold <= snd row
  /\ exists e, In e (MovieLens_node_to_MovieLens_node s)
               /\ e_from e = n_id movie
               /\ e_type e = Some "similar_to"
               /\ e_similarity e = Some (snd row)
               /\ fst row = document s (e_to e).
Proof.
  unfold similar_movies_of. intros Hin.
  apply firstn_incl in Hin.
  apply (Permutation_in _ (aql_sort_perm _ _)) in Hin.
  apply in_flat_map in Hin as ([v e] & Hout & Hrow).
  cbn [fst snd] in Hrow.
  destruct (e_similarity e) as [sim|] eqn:Hsim; [|contradiction].
  destruct (opt_str_eqb (e_type e) "similar_to") eqn:Hty; [|contradiction].
  destruct (Qle_bool threshold sim) eqn:Hle; [|contradiction].
  destruct Hrow as [<- | []]. cbn [fst snd].
  split; [now apply Qle_bool_iff|].
  unfold outbound in Hout. apply in_map_iff in Hout as (e' & [= <- <-] & He).
  apply filter_In in He as [He Hfrom]. apply String.eqb_eq in Hfrom.
  exists e'. repeat split; auto.
  unfold opt_str_eqb in Hty. destruct (e_type e') as [ty|]; [|discriminate].
  apply String.eqb_eq in Hty. now subst.
Qed.

Lemma similar_rows_sorted (s : Store) (movie : Node) (threshold : Q) (limit : nat) :
  Sorted (fun x y : similar_row => snd y <= snd x)
         (similar_movies_of s movie threshold limit).
Proof.
  unfold similar_movies_of.
  apply firstn_sorted.
  eapply Sorted_ind with (P := fun l => Sorted (fun x y : similar_row => snd y <= snd x) l);
    [constructor | | apply (aql_sort_sorted similar_row_before)].
  - intros a l _ IH Hhd. constructor; [exact IH|].
    destruct Hhd as [|b l Hb]; constructor.
    unfold in_order, similar_row_before in Hb. cbn [aql_lt] in Hb.
    now apply negb_false_iff, Qle_bool_iff in Hb.
  - intros x y. unfold similar_row_before. apply aql_lt_asym.
Qed.

Lemma similar_rows_length (s : Store) (movie : Node) (threshold : Q) (limit : nat) :
  (List.length (similar_movies_of s movie threshold limit) <= limit)%nat.
Proof. unfold similar_movies_of. apply firstn_le_length. Qed.

Lemma genre_rows_length (s : Store) (movie_id : string) (source_genres : list string)
      (limit : nat) :
  (List.length (genre_similar_query s movie_id source_genres limit) <= limit)%nat.
Proof. unfold genre_similar_query. apply firstn_le_length. Qed.

(** The rows behind the genre path's list. *)
Lemma genre_path_rows (s : Store) (movie_id : string) (limit : nat) :
  get_recommendations_by_genre s movie_id limit = []
  \/ exists source_genres,
       source_genres <> []
       /\ get_recommendations_by_genre s movie_id limit
          = map (fun item =>
                   let movie := g_movie item in
                   {| id := n_id movie;
                      original_id := n_original_id movie;
                      title := get_or (n_title movie) "Unknown";
                      year := n_year movie;
                      similarity := g_similarity item;
                      common_genre_count := Some (g_common_genre_count item);
                      reason := ("Shares "
                                 ++ Py.string_of_nat (g_common_genre_count item)
                                 ++ " genres")%string |})
                (genre_similar_query s movie_id source_genres limit).
Proof.
  unfold get_recommendations_by_genre.
  destruct (map _ (filter _ (MovieLens_node s))) as [|[m [|g gs]] rest];
    [now left | now left |].
  right. exists (g :: gs). split; [discriminate | reflexivity].
Qed.

Lemma Sorted_map {A B : Type} (RA : A -> A -> Prop) (RB : B -> B -> Prop)
      (f : A -> B) (l : list A) :
  (forall x y, RA x y -> RB (f x) (f y)) ->
  Sorted RA l -> Sorted RB (map f l).
Proof.
  intros Hf Hs. induction Hs as [|x l Hs IH Hhd]; cbn; constructor; [exact IH|].
  destruct Hhd; cbn; constructor. now apply Hf.
Qed.

Lemma Sorted_Forall2 {A B : Type} (RA : A -> A -> Prop) (RB : B -> B -> Prop)
      (P : A -> B -> Prop) (la : list A) (lb : list B) :
  (forall x y x' y', P x x' -> P y y' -> RA x y -> RB x' y') ->
  Forall2 P la lb -> Sorted RA la -> Sorted RB lb.
Proof.
  intros HP H2. induction H2 as [|a b la lb Hab H2 IH]; intros Hs; [constructor|].
  inversion Hs as [|? ? Hs' Hhd]; subst. constructor; [now apply IH|].
  destruct H2 as [|a' b' la lb Hab' H2]; constructor.
  inversion Hhd; subst. eapply HP; eauto.
Qed.

Lemma Forall2_in_right {A B : Type} (P : A -> B -> Prop)
      (la : list A) (lb : list B) (b : B) :
  Forall2 P la lb -> In b lb -> exists a, In a la /\ P a b.
Proof.
  induction 1 as [|a' b' la lb Hab H2 IH]; [intros []|].
  intros [<- | Hin]; [exists a'; split; [now left | exact Hab]|].
  destruct (IH Hin) as (a & Ha & Hp). exists a. split; [now right | exact Hp].
Qed.

Lemma genre_rows_facts (s : Store) (movie_id : string) (source_genres : list string)
      (limit : nat) (row : genre_row) :
  In row (genre_similar_query s movie_id source_genres limit) ->
  In (g_movie row) (MovieLens_node s)
  /\ n_type (g_movie row) = Some "movie"
  /\ n_id (g_movie row) <> movie_id
  /\ (1 <= g_common_genre_count row)%nat.
Proof.
  unfold genre_similar_query. intros Hin.
  apply firstn_incl in Hin.
  apply (Permutation_in _ (aql_sort_perm _ _)) in Hin.
  apply in_flat_map in Hin as (movie & Hmovie & Hrow).
  apply filter_In in Hmovie as [Hmovie Hf].
  apply andb_true_iff in Hf as [Hty Hid].
  destruct (0 <? count_common _ _)%nat eqn:Hc; [|contradiction].
  destruct (Qle_bool _ _); [|contradiction].
  destruct Hrow as [<- | []]. cbn [g_movie g_common_genre_count].
  split; [exact Hmovie|]. split.
  - unfold opt_str_eqb in Hty. destruct (n_type movie) as [ty|]; [|discriminate].
    apply String.eqb_eq in Hty. now subst.
  - split.
    + apply negb_true_iff, String.eqb_neq in Hid. exact Hid.
    + apply Nat.ltb_lt in Hc. lia.
Qed.

(** The three ways [find_similar_movies] ends. *)
Lemma find_similar_movies_cases (s : Store) (movie_id : string) (threshold : Q)
      (limit : nat) :
  (movie_query s (normalize_movie_id movie_id) = []
   /\ find_similar_movies s movie_id threshold limit = Ok [])
  \/ (exists source others m,
         movie_query s (normalize_movie_id movie_id) = source :: others
         /\ In m (MovieLens_node s) /\ n_id m = n_id source
         /\ similar_movies_of s m threshold limit <> []
         /\ find_similar_movies s movie_id threshold limit
            = format_similar (similar_movies_of s m threshold limit))
  \/ (exists source others,
         movie_query s (normalize_movie_id movie_id) = source :: others
         /\ find_similar_movies s movie_id threshold limit
            = Ok (get_recommendations_by_genre s (n_id source) limit)).
Proof.
  unfold find_similar_movies.
  destruct (movie_query s _) as [|source others]; [now left|]. right.
  destruct (filter (fun movie => String.eqb (n_id movie) (n_id source))
                   (MovieLens_node s)) as [|m ms] eqn:Hf; cbn [map].
  - right. now exists source, others.
  - assert (Hm : In m (filter (fun movie => String.eqb (n_id movie) (n_id source))
                              (MovieLens_node s))) by (rewrite Hf; now left).
    apply filter_In in Hm as [Hm Hid]. apply String.eqb_eq in Hid.
    destruct (similar_movies_of s m threshold limit) as [|row rows] eqn:Hrows.
    + right. now exists source, others.
    + left. exists source, others, m. rewrite Hrows. repeat split; auto. discriminate.
Qed.

End MoreRecommendations.

Import RecommendationEngine.

(** X3.  For an id without a double quote and without a backslash:
    when no document has the canonical id as its [_id] nor the bare
    id as its [original_id], the recommendations are the empty list,
    returned and not raised. *)
Theorem unknown_movie_has_no_recommendations
        (s : Store) (injected : string -> result (list Node))
        (movie_id : string) (threshold : Q) (limit : nat) :
  QueryText.plain movie_id = true ->
  (forall n, In n (MovieLens_node s) ->
             n_id n <> normalize_movie_id movie_id
             /\ n_original_id n
                <> Some (Py.remove_all "movie_" (normalize_movie_id movie_id))) ->
  QueryText.find_similar_movies s injected movie_id threshold limit = Ok [].
Proof.
  intros Hplain Hno. unfold QueryText.find_similar_movies.
  rewrite (query_plain _ _ _ Hplain).
  now rewrite (movie_query_unresolved _ _ Hno).
Qed.

Lemma unknown_movie_has_no_recommendations_witness :
  QueryText.find_similar_movies Fixtures.tie_store Samples.no_injection "42" 0.3 10
  = Ok [].
Proof.
  apply unknown_movie_has_no_recommendations.
  - reflexivity.
  - intros n Hn. cbn in Hn.
    repeat (destruct Hn as [<- | Hn]; [split; discriminate|]).
    contradiction.
Defined.

(** X4.  Whichever path produced it, the list of recommendations has
    at most [limit] entries. *)
Theorem recommendations_respect_limit
        (s : Store) (movie_id : string) (threshold : Q) (limit : nat)
        (recs : list Recommendation) :
  find_similar_movies s movie_id threshold limit = Ok recs ->
  (List.length recs <= limit)%nat.
Proof.
  intros H.
  destruct (find_similar_movies_cases s movie_id threshold limit)
    as [[_ E] | [(source & others & m & _ & _ & _ & _ & E) | (source & others & _ & E)]];
    rewrite E in H.
  - injection H as <-. cbn. lia.
  - apply format_similar_rows, Forall2_length in H. rewrite <- H.
    apply similar_rows_length.
  - injection H as <-.
    destruct (genre_path_rows s (n_id source) limit) as [-> | (g & _ & ->)];
      [cbn; lia | rewrite length_map; apply genre_rows_length].
Qed.

Lemma recommendations_respect_limit_witness :
  (List.length
     [ mkRec "movie_2" (Some "2") "Jumanji" (Some 1995%Z) 0.8 None "Direct similarity" ]
   <= 1)%nat.
Proof.
  apply (recommendations_respect_limit Fixtures.tie_store "1" 0.3 1).
  reflexivity.
Defined.

(** X5.  Whichever path produced it, the list of recommendations is
    in order of score: from one entry to the next the similarity does
    not rise. *)
Theorem recommendations_descend_by_score
        (s : Store) (movie_id : string) (threshold : Q) (limit : nat)
        (recs : list Recommendation) :
  find_similar_movies s movie_id threshold limit = Ok recs ->
  Sorted (fun a b => similarity b <= similarity a) recs.
Proof.
  intros H.
  destruct (find_similar_movies_cases s movie_id threshold limit)
    as [[_ E] | [(source & others & m & _ & _ & _ & _ & E) | (source & others & _ & E)]];
    rewrite E in H.
  - injection H as <-. constructor.
  - apply format_similar_rows in H.
    eapply Sorted_Forall2; [| exact H | apply similar_rows_sorted].
    intros x y x' y' (Hx & _) (Hy & _) Hxy. now rewrite Hx, Hy.
  - injection H as <-.
    destruct (genre_path_rows s (n_id source) limit) as [-> | (g & _ & ->)];
      [constructor|].
    eapply Sorted_map; [| apply genre_path_sorted].
    intros x y Hxy. cbn [similarity]. now apply genre_order_meaning.
Qed.

Lemma recommendations_descend_by_score_witness :
  Sorted (fun a b => similarity b <= similarity a)
         [ mkRec "movie_2" (Some "2") "Jumanji" (Some 1995%Z) 0.8 None "Direct similarity";
           mkRec "movie_6" (Some "6") "Heat" (Some 1995%Z) 0.8 None "Direct similarity" ].
Proof.
  apply (recommendations_descend_by_score Fixtures.tie_store "1" 0.3 10).
  reflexivity.
Defined.

(** X6.  Every recommendation is either a direct one (no genre
    count, reason "Direct similarity") whose similarity is at least
    the threshold asked for, or a genre one that shares at least one
    genre and whose score lies between 0.3 and 1. *)
Theorem recommendations_meet_their_floor
        (s : Store) (movie_id : string) (threshold : Q) (limit : nat)
        (recs : list Recommendation) (r : Recommendation) :
  find_similar_movies s movie_id threshold limit = Ok recs ->
  In r recs ->
  (common_genre_count r = None
   /\ reason r = "Direct similarity"
   /\ threshold <= similarity r)
  \/ (exists shared : nat,
         common_genre_count r = Some shared
         /\ (1 <= shared)%nat
         /\ 3 # 10 <= similarity r /\ similarity r <= 1).
Proof.
  intros H Hr.
  destruct (find_similar_movies_cases s movie_id threshold limit)
    as [[_ E] | [(source & others & m & _ & _ & _ & _ & E) | (source & others & _ & E)]];
    rewrite E in H.
  - injection H as <-. contradiction.
  - left. apply format_similar_rows in H.
    destruct (Forall2_in_right _ _ _ _ H Hr) as (row & Hrow & Hsim & Hc & Hreason & _).
    apply similar_rows_kept in Hrow as [Hle _].
    rewrite Hsim. auto.
  - right. injection H as <-.
    destruct (genre_path_rows s (n_id source) limit) as [E' | (g & _ & E')];
      rewrite E' in Hr; [contradiction|].
    apply in_map_iff in Hr as (row & <- & Hrow). cbn.
    exists (g_common_genre_count row).
    pose proof (genre_rows_facts _ _ _ _ _ Hrow) as (_ & _ & _ & Hshared).
    pose proof (genre_rows_above_floor _ _ _ _ _ Hrow) as [Hfloor Hscore].
    repeat split; auto.
    rewrite Hscore. apply genre_similarity_bounds.
Qed.

Lemma recommendations_meet_their_floor_witness :
  let r := mkRec "movie_2" (Some "2") "Jumanji" (Some 1995%Z) (1 # 2) (Some 1%nat)
                 "Shares 1 genres" in
  (common_genre_count r = None
   /\ reason r = "Direct similarity"
   /\ 0.3 <= similarity r)
  \/ (exists shared : nat,
         common_genre_count r = Some shared
         /\ (1 <= shared)%nat
         /\ 3 # 10 <= similarity r /\ similarity r <= 1).
Proof.
  apply (recommendations_meet_their_floor Fixtures.twin_store "1" 0.3 10
           [ mkRec "movie_2" (Some "2") "Jumanji" (Some 1995%Z) (1 # 2) (Some 1%nat)
                   "Shares 1 genres" ]).
  - reflexivity.
  - now left.
Defined.

(** X7.  The genre path never recommends the movie it was asked
    about, and whatever it recommends is a document of type movie. *)
Theorem genre_path_excludes_source
        (s : Store) (movie_id : string) (limit : nat) (r : Recommendation) :
  In r (get_recommendations_by_genre s movie_id limit) ->
  id r <> movie_id
  /\ exists movie,
       In movie (MovieLens_node s)
       /\ n_id movie = id r
       /\ n_type movie = Some "movie".
Proof.
  intros Hr.
  destruct (genre_path_rows s movie_id limit) as [E | (g & _ & E)];
    rewrite E in Hr; [contradiction|].
  apply in_map_iff in Hr as (row & <- & Hrow). cbn [id].
  pose proof (genre_rows_facts _ _ _ _ _ Hrow) as (Hin & Hty & Hid & _).
  split; [exact Hid|]. now exists (g_movie row).
Qed.

Lemma genre_path_excludes_source_witness :
  "movie_2" <> "movie_1"
  /\ exists movie,
       In movie (MovieLens_node Fixtures.twin_store)
       /\ n_id movie = "movie_2"
       /\ n_type movie = Some "movie".
Proof.
  apply (genre_path_excludes_source Fixtures.twin_store "movie_1" 10
           (mkRec "movie_2" (Some "2") "Jumanji" (Some 1995%Z) (1 # 2) (Some 1%nat)
                  "Shares 1 genres")).
  now left.
Defined.

(** X8.  When the candidate's genres are listed once each, its genre
    score is at most one half: the divisor counts the shared genres
    twice. *)
Theorem genre_score_at_most_half (movie_genres source_genres : list string) :
  NoDup movie_genres ->
  genre_similarity movie_genres source_genres <= 1 # 2.
Proof.
  intros Hnodup. rewrite genre_similarity_formula.
  set (c := count_common movie_genres source_genres).
  assert (H1 : (c <= List.length movie_genres)%nat) by apply count_common_le.
  assert (H2 : (c <= List.length source_genres)%nat).
  { unfold c, count_common. apply NoDup_incl_length.
    - now apply NoDup_filter.
    - intros x Hx. apply filter_In in Hx as [_ Hx].
      apply existsb_exists in Hx as (y & Hy & Hxy).
      apply String.eqb_eq in Hxy. now subst. }
  set (n := (List.length movie_genres + List.length source_genres)%nat).
  assert (Hn : (2 * c <= n)%nat) by (unfold n; lia).
  destruct n as [|n'].
  - assert (E : c = 0%nat) by lia. rewrite E. vm_compute. discriminate.
  - apply Qle_shift_div_r.
    + unfold Qlt. cbn. lia.
    + unfold Qle. cbn [Qnum Qden Qmult inject_Z]. lia.
Qed.

Lemma genre_score_at_most_half_witness :
  genre_similarity ["genre_a"; "genre_b"] ["genre_a"; "genre_b"] <= 1 # 2.
Proof.
  apply genre_score_at_most_half.
  repeat constructor; cbn; intuition discriminate.
Defined.

(** X9.  When the source movie has no [similar_to] edge whose
    similarity reaches the threshold, the result is exactly the genre
    path's list for the resolved document. *)
Theorem no_direct_edge_means_genre_path
        (s : Store) (movie_id : string) (threshold : Q) (limit : nat)
        (source : Node) (others : list Node) :
  movie_query s (normalize_movie_id movie_id) = source :: others ->
  (forall e sim,
      In e (MovieLens_node_to_MovieLens_node s) ->
      e_from e = n_id source ->
      e_type e = Some "similar_to" ->
      e_similarity e = Some sim ->
      sim < threshold) ->
  find_similar_movies s movie_id threshold limit
  = Ok (get_recommendations_by_genre s (n_id source) limit).
Proof.
  intros Hq Hnone.
  destruct (find_similar_movies_cases s movie_id threshold limit)
    as [[E _] | [(src & oth & m & E & Hm & Hid & Hrows & _) | (src & oth & E & ->)]];
    rewrite Hq in E; [discriminate | | now injection E as <- <-].
  injection E as <- <-. exfalso.
  destruct (similar_movies_of s m threshold limit) as [|row rows] eqn:Hr;
    [now apply Hrows|].
  assert (Hin : In row (similar_movies_of s m threshold limit))
    by (rewrite Hr; now left).
  apply similar_rows_kept in Hin as (Hle & e & He & Hfrom & Hty & Hsim & _).
  rewrite Hid in Hfrom.
  pose proof (Hnone e (snd row) He Hfrom Hty Hsim) as Hlt.
  apply Qlt_not_le in Hlt. contradiction.
Qed.

Lemma no_direct_edge_means_genre_path_witness :
  find_similar_movies Fixtures.tie_store "1" 0.9 10
  = Ok (get_recommendations_by_genre Fixtures.tie_store "movie_1" 10).
Proof.
  apply (no_direct_edge_means_genre_path Fixtures.tie_store "1" 0.9 10
           Fixtures.toy_story []).
  - reflexivity.
  - intros e sim He Hfrom Hty Hsim. cbn in He.
    repeat (destruct He as [<- | He]; [try discriminate Hty; injection Hsim as <-; reflexivity|]).
    contradiction.
Defined.

(* ----------------------------------------------------------------- *)
(** ** The recommendation and graph endpoints *)

Section MoreEndpoints.
Import RecommendationEngine.

Lemma format_similar_total (rows : list similar_row) :
  Forall (fun row => fst row <> None) rows ->
  exists recs, format_similar rows = Ok recs.
Proof.
  induction 1 as [|[[movie|] sim] rows Hrow _ [recs IH]]; cbn [format_similar].
  - now exists [].
  - rewrite IH. eexists. reflexivity.
  - now contradiction Hrow.
Qed.

Lemma document_found (s : Store) (doc_id : string) (n : Node) :
  In n (MovieLens_node s) -> n_id n = doc_id -> document s doc_id <> None.
Proof.
  intros Hin Hid. unfold document.
  destruct (find _ (MovieLens_node s)) eqn:Hf; [discriminate|].
  apply (find_none _ _ Hf) in Hin. rewrite Hid, String.eqb_refl in Hin. discriminate.
Qed.

End MoreEndpoints.

Import RecommendationEngine App Endpoints GraphAnalytics.

(** X10.  On a store in which every [similar_to] edge points to a
    document that exists, [find_similar_movies] asked with an id
    without a double quote and without a backslash returns a list and
    never raises. *)
Theorem similar_movies_never_raise_on_closed_store
        (s : Store) (injected : string -> result (list Node))
        (movie_id : string) (threshold : Q) (limit : nat) :
  QueryText.plain movie_id = true ->
  (forall e, In e (MovieLens_node_to_MovieLens_node s) ->
             e_type e = Some "similar_to" ->
             exists n, In n (MovieLens_node s) /\ n_id n = e_to e) ->
  exists recs,
    QueryText.find_similar_movies s injected movie_id threshold limit = Ok recs.
Proof.
  intros Hplain Hclosed. rewrite (find_similar_movies_plain _ _ _ _ _ Hplain).
  destruct (find_similar_movies_cases s movie_id threshold limit)
    as [[_ E] | [(source & others & m & _ & _ & _ & _ & E) | (source & others & _ & E)]];
    rewrite E; try (eexists; reflexivity).
  apply format_similar_total, Forall_forall. intros row Hrow.
  apply similar_rows_kept in Hrow as (_ & e & He & _ & Hty & _ & ->).
  destruct (Hclosed e He Hty) as (n & Hn & Hid).
  now apply document_found with n.
Qed.

Lemma similar_movies_never_raise_on_closed_store_witness :
  exists recs,
    QueryText.find_similar_movies Fixtures.tie_store Samples.no_injection "1" 0.3 10
    = Ok recs.
Proof.
  apply similar_movies_never_raise_on_closed_store.
  - reflexivity.
  - intros e He Hty. cbn in He.
    repeat (destruct He as [<- | He]; [try discriminate Hty|]); try contradiction.
    + exists Fixtures.jumanji. cbn. tauto.
    + exists Fixtures.heat. cbn. tauto.
Defined.

(** X11.  A 200 from the recommendations endpoint means that the
    movie id was given, that the limit (10 by default) lies between 1
    and 50 and the threshold (0.3 by default) between 0.1 and 1, and
    that the body is the list of [find_similar_movies] for them, so it
    has at most [limit], hence at most 50, entries. *)
Theorem recommendations_endpoint_bounds
        (s : Store) (movieId : option string) (limit : option Z) (threshold : option Q)
        (recs : list Recommendation) :
  get_recommendations s movieId limit threshold = Http200 recs ->
  (1 <= get_or limit 10%Z <= 50)%Z
  /\ 1 # 10 <= get_or threshold (3 # 10) <= 1
  /\ (Z.of_nat (List.length recs) <= get_or limit 10%Z)%Z
  /\ (List.length recs <= 50)%nat
  /\ exists movie_id,
       movieId = Some movie_id
       /\ find_similar_movies s movie_id (get_or threshold (3 # 10))
                              (Z.to_nat (get_or limit 10%Z)) = Ok recs.
Proof.
  unfold get_recommendations.
  destruct movieId as [movie_id|]; [|discriminate].
  destruct ((1 <=? get_or limit 10%Z)%Z) eqn:H1; [|discriminate].
  destruct ((get_or limit 10%Z <=? 50)%Z) eqn:H50; [|discriminate].
  destruct (Qle_bool (1 # 10) (get_or threshold (3 # 10))) eqn:Hlo; [|discriminate].
  destruct (Qle_bool (get_or threshold (3 # 10)) 1) eqn:Hhi; [|discriminate].
  cbn [andb].
  destruct (find_similar_movies s movie_id _ _) as [similar_movies|e] eqn:Hfind;
    [|discriminate].
  intros [= <-].
  apply Z.leb_le in H1, H50. apply Qle_bool_iff in Hlo, Hhi.
  apply recommendations_respect_limit in Hfind as Hlen.
  repeat split; auto; try lia.
  now exists movie_id.
Qed.

Lemma recommendations_endpoint_bounds_witness :
  (1 <= get_or (Some 1%Z) 10%Z <= 50)%Z
  /\ 1 # 10 <= get_or None (3 # 10) <= 1
  /\ (Z.of_nat (List.length
        [ mkRec "movie_2" (Some "2") "Jumanji" (Some 1995%Z) 0.8 None "Direct similarity" ])
      <= get_or (Some 1%Z) 10%Z)%Z
  /\ (List.length
        [ mkRec "movie_2" (Some "2") "Jumanji" (Some 1995%Z) 0.8 None "Direct similarity" ]
      <= 50)%nat
  /\ exists movie_id,
       Some "1" = Some movie_id
       /\ find_similar_movies Fixtures.tie_store movie_id (get_or None (3 # 10))
                              (Z.to_nat (get_or (Some 1%Z) 10%Z))
          = Ok [ mkRec "movie_2" (Some "2") "Jumanji" (Some 1995%Z) 0.8 None
                       "Direct similarity" ].
Proof.
  apply (recommendations_endpoint_bounds Fixtures.tie_store (Some "1") (Some 1%Z) None).
  reflexivity.
Defined.

(** X12.  When the similarities of the traversed edges lie between 0
    and 1 and their ratings between 0 and 5, every link weight of the
    graph view lies between 0 and 1. *)
Theorem link_weights_are_normalised
        (G : G_adb) (movie_id : string) (depth : Z)
        (central_movie : Node) (others : list Node)
        (graph_data : subgraph) (more : list subgraph)
        (view : GraphView) (l : ViewLink) :
  movie_query (store G) (normalize_movie_id movie_id) = central_movie :: others ->
  subgraph_query G (n_id central_movie) depth = Ok (graph_data :: more) ->
  (forall e, In e (links graph_data) ->
             (forall sim, e_similarity e = Some sim -> 0 <= sim <= 1)
             /\ (forall r, e_rating e = Some r -> 0 <= r <= 5)) ->
  get_graph_data G movie_id depth = Ok view ->
  In l (view_links view) ->
  0 <= weight l <= 1.
Proof.
  intros Hq Hs Hrange Hview Hl.
  rewrite (get_graph_data_resolved G movie_id depth _ _ _ _ Hq Hs) in Hview.
  injection Hview as <-. cbn [shape view_links] in Hl.
  apply in_map_iff in Hl as (e & <- & He).
  destruct (Hrange e He) as [Hsim Hrating].
  cbn [link_view weight]. unfold link_weight.
  destruct (String.eqb (get_or (e_type e) "unknown") "similar_to").
  - destruct (e_similarity e) as [sim|]; cbn [get_or]; [now apply Hsim|].
    split; vm_compute; discriminate.
  - destruct (String.eqb (get_or (e_type e) "unknown") "rated").
    + destruct (e_rating e) as [r|]; cbn [get_or].
      * destruct (Hrating r eq_refl) as [H0 H5]. split.
        -- apply Qle_shift_div_l; [reflexivity|]. now rewrite Qmult_0_l.
        -- apply Qle_shift_div_r; [reflexivity|]. now rewrite Qmult_1_l.
      * split; vm_compute; discriminate.
    + split; vm_compute; discriminate.
Qed.

Lemma link_weights_are_normalised_witness :
  0 <= weight (mkViewLink "movie_1" "genre_animation" "belongs_to" 1) <= 1.
Proof.
  apply (link_weights_are_normalised Fixtures.chain_G "1" 1 Fixtures.toy_story []
           (mkSubgraph Fixtures.toy_story (firstn 1 Fixtures.chain_nodes)
                       (firstn 1 Fixtures.chain_links)) []
           (shape (mkSubgraph Fixtures.toy_story (firstn 1 Fixtures.chain_nodes)
                              (firstn 1 Fixtures.chain_links)))).
  - reflexivity.
  - reflexivity.
  - intros e He. cbn in He. destruct He as [<- | []]. split; discriminate.
  - reflexivity.
  - cbn. now left.
Defined.

(** X13.  For a depth the endpoint accepts: a lookup that answers
    without a document, as it does for an id without a double quote
    and without a backslash that no document carries, is answered
    with 200 and the empty graph, and so is a traversal without a
    row; a lookup that raises, and a traversal that raises, are
    answered with 500 and the text of the exception. *)
Theorem graph_endpoint_unknown_movie_and_failure
        (G : G_adb) (injected : string -> result (list Node))
        (movie_id : string) (depth : Z) :
  (1 <= depth <= 3)%Z ->
  (QueryText.query (store G) injected (normalize_movie_id movie_id) = Ok [] ->
   QueryText.get_movie_graph G injected movie_id (Some depth)
   = Http200 {| view_nodes := []; view_links := [] |})
  /\ (QueryText.plain movie_id = true ->
      movie_query (store G) (normalize_movie_id movie_id) = [] ->
      QueryText.get_movie_graph G injected movie_id (Some depth)
      = Http200 {| view_nodes := []; view_links := [] |})
  /\ (forall e,
         QueryText.query (store G) injected (normalize_movie_id movie_id) = Raise e ->
         QueryText.get_movie_graph G injected movie_id (Some depth)
         = HttpError 500 ("Error fetching graph data: " ++ exn_str e))
  /\ (forall central_movie others,
         QueryText.query (store G) injected (normalize_movie_id movie_id)
         = Ok (central_movie :: others) ->
         (subgraph_query G (n_id central_movie) depth = Ok [] ->
          QueryText.get_movie_graph G injected movie_id (Some depth)
          = Http200 {| view_nodes := []; view_links := [] |})
         /\ (forall e,
                subgraph_query G (n_id central_movie) depth = Raise e ->
                QueryText.get_movie_graph G injected movie_id (Some depth)
                = HttpError 500 ("Error fetching graph data: " ++ exn_str e))).
Proof.
  intros [H1 H3]. apply Z.leb_le in H1, H3.
  unfold QueryText.get_movie_graph, QueryText.get_graph_data.
  cbn [get_or]. rewrite H1, H3. cbn [andb].
  split; [|split; [|split]].
  - now intros ->.
  - intros Hplain Hq. now rewrite (query_plain _ _ _ Hplain), Hq.
  - now intros e ->.
  - intros central_movie others ->. split.
    + now intros ->.
    + now intros e ->.
Qed.

Lemma graph_endpoint_unknown_movie_and_failure_witness :
  QueryText.get_movie_graph Fixtures.chain_G Samples.no_injection "999" (Some 2%Z)
  = Http200 {| view_nodes := []; view_links := [] |}
  /\ exists e,
       QueryText.query (store Fixtures.chain_G) Samples.no_injection
                       (normalize_movie_id Samples.lone_quote) = Raise e
       /\ QueryText.get_movie_graph Fixtures.chain_G Samples.no_injection
                                    Samples.lone_quote (Some 2%Z)
          = HttpError 500 ("Error fetching graph data: " ++ exn_str e).
Proof.
  split.
  - apply (proj1 (proj2 (graph_endpoint_unknown_movie_and_failure
                           Fixtures.chain_G Samples.no_injection "999" 2
                           ltac:(lia))));
      reflexivity.
  - exists (PyError "AQLQueryExecuteError" "syntax error").
    split; [reflexivity|].
    apply (proj1 (proj2 (proj2 (graph_endpoint_unknown_movie_and_failure
                                  Fixtures.chain_G Samples.no_injection
                                  Samples.lone_quote 2 ltac:(lia))))).
    reflexivity.
Defined.

(* ----------------------------------------------------------------- *)
(** ** More on the router *)

Section MoreRouter.
Import Py ChatRouter.

Lemma startswith_take (n : nat) (s : string) : startswith s (take n s) = true.
Proof.
  revert s. induction n as [|n IH]; intros [|c s]; cbn; try reflexivity.
  now rewrite Ascii.eqb_refl, IH.
Qed.

Lemma match_decade_take (c1 c2 : ascii) (s tok : string) :
  match_decade c1 c2 s = Some tok -> tok = take 5 s.
Proof.
  unfold match_decade.
  destruct s as [|a [|b [|d [|z [|e rest]]]]]; try discriminate.
  destruct (_ && _); [|discriminate]. now intros [= <-].
Qed.

Lemma match_four_digits_take (s tok : string) :
  match_four_digits s = Some tok -> tok = take 4 s.
Proof.
  unfold match_four_digits.
  destruct s as [|a [|b [|c [|d rest]]]]; try discriminate.
  destruct (_ && _); [|discriminate]. now intros [= <-].
Qed.

Lemma match_year_here_prefix (prev : option ascii) (s tok : string) :
  match_year_here prev s = Some tok -> startswith s tok = true.
Proof.
  unfold match_year_here.
  destruct (word_boundary prev s); [|discriminate].
  destruct (match_decade "1" "9" s) as [t1|] eqn:H1.
  { intros [= <-]. apply match_decade_take in H1 as ->. apply startswith_take. }
  destruct (match_decade "2" "0" s) as [t2|] eqn:H2.
  { intros [= <-]. apply match_decade_take in H2 as ->. apply startswith_take. }
  intros H. apply match_four_digits_take in H as ->. apply startswith_take.
Qed.

Lemma findall_years_occur (s : string) :
  forall prev skip tok,
    In tok (findall_years_from prev skip s) -> str_in tok s = true.
Proof.
  induction s as [|c s IH]; intros prev skip tok; cbn [findall_years_from].
  - intros [].
  - intros H. cbn [str_in]. apply orb_true_iff.
    destruct skip as [|k].
    + destruct (match_year_here prev (String c s)) as [t|] eqn:Hm.
      * destruct H as [<- | H]; [left; now apply match_year_here_prefix in Hm|].
        right. eauto.
      * right. eauto.
    + right. eauto.
Qed.

Lemma routed_are_known (w : string) : In w routed_genres -> In w known_genres.
Proof. cbn. tauto. Qed.

End MoreRouter.

Import Py ChatRouter ChatAgent.

(** X14.  A query that holds one of the five routed genre words, and
    not both a similarity word and a known title, always reaches the
    genre handler: with the first of the eight known genres that
    occurs in it, top-rated exactly when "top" or "best" occurs.  The
    fall-through after the genre scan is never taken. *)
Theorem genre_words_reach_the_genre_handler (query : string) :
  any_in similarity_words (lower query) = false \/ extract_movie_titles query = [] ->
  any_in routed_genres (lower query) = true ->
  exists genre,
    select_handler query
    = GenreQuery genre (str_in "top" (lower query) || str_in "best" (lower query))
    /\ hd_error (filter (fun g => str_in g (lower query)) known_genres) = Some genre
    /\ In genre known_genres
    /\ str_in genre (lower query) = true.
Proof.
  intros Hnot Hgenre.
  assert (Hne : filter (fun g => str_in g (lower query)) known_genres <> []).
  { apply any_in_exists in Hgenre as (w & Hw & Hin). intros Hnil.
    assert (H : In w (filter (fun g => str_in g (lower query)) known_genres)).
    { apply filter_In. split; [now apply routed_are_known | exact Hin]. }
    now rewrite Hnil in H. }
  destruct (filter (fun g => str_in g (lower query)) known_genres)
    as [|genre rest] eqn:Hf; [contradiction|].
  exists genre.
  assert (Hg : In genre (filter (fun g => str_in g (lower query)) known_genres))
    by (rewrite Hf; now left).
  apply filter_In in Hg as [Hknown Hocc].
  split; [|repeat split; assumption].
  unfold select_handler. rewrite Hgenre, Hf.
  destruct Hnot as [-> | ->]; [reflexivity|].
  now destruct (any_in similarity_words (lower query)).
Qed.

Lemma genre_words_reach_the_genre_handler_witness :
  exists genre,
    select_handler "Best romance or SCI-FI from the 1990s"
    = GenreQuery genre
        (str_in "top" (lower "Best romance or SCI-FI from the 1990s")
         || str_in "best" (lower "Best romance or SCI-FI from the 1990s"))
    /\ hd_error (filter (fun g => str_in g (lower "Best romance or SCI-FI from the 1990s"))
                        known_genres) = Some genre
    /\ In genre known_genres
    /\ str_in genre (lower "Best romance or SCI-FI from the 1990s") = true.
Proof.
  apply genre_words_reach_the_genre_handler.
  - left. reflexivity.
  - reflexivity.
Defined.

(** X15.  A query reaches the year handler only if it holds one of
    the period words "90s", "80s", "2000s", "1990" and none of the
    routed genre words; the token handed over is the first match of
    the year pattern and occurs in the query as written. *)
Theorem year_handler_needs_a_period_word (query year_str : string) :
  select_handler query = YearQuery year_str ->
  any_in period_words (lower query) = true
  /\ any_in routed_genres (lower query) = false
  /\ hd_error (findall_years query) = Some year_str
  /\ str_in year_str query = true.
Proof.
  unfold select_handler.
  destruct (any_in similarity_words (lower query));
    destruct (extract_movie_titles query); try discriminate;
    (destruct (any_in routed_genres (lower query));
     [ destruct (filter _ known_genres); discriminate | ]);
    (destruct (any_in period_words (lower query)); [|discriminate]);
    (destruct (findall_years query) as [|y ys] eqn:Hy; [discriminate|]);
    intros [= <-]; repeat split;
    apply findall_years_occur with (prev := None) (skip := 0%nat);
    fold (findall_years query); rewrite Hy; now left.
Qed.

Lemma year_handler_needs_a_period_word_witness :
  any_in period_words (lower "What came out in 2021, not in the 90s?") = true
  /\ any_in routed_genres (lower "What came out in 2021, not in the 90s?") = false
  /\ hd_error (findall_years "What came out in 2021, not in the 90s?") = Some "2021"
  /\ str_in "2021" "What came out in 2021, not in the 90s?" = true.
Proof.
  apply year_handler_needs_a_period_word. reflexivity.
Defined.

(* ----------------------------------------------------------------- *)
(** ** The handlers one by one *)

Import Py ChatRouter ChatAgent.

(** The monad opened up, the matches on the pairs it builds reduced. *)
Ltac open_monad :=
  cbv beta iota delta [try_except bindM db_execute llm_invoke lift ret raise];
  cbn [db_log llm_log].

(** X16.  A token that [int] cannot read ends the year handler in its
    [except] clause: the apology names the token and the store is not
    asked. *)
Theorem unreadable_year_never_reaches_the_store
        (R : Runtime) (year_str : string) (t : trace) :
  year_bounds year_str = None ->
  handle_year_query R year_str t
  = (Ok ("I had trouble finding movies from " ++ year_str
         ++ ". The database might not have comprehensive information for this time period.")%string,
     t).
Proof.
  intros H. unfold handle_year_query. rewrite H. reflexivity.
Qed.

Lemma unreadable_year_never_reaches_the_store_witness :
  handle_year_query Fixtures.silent "199x" no_calls
  = (Ok "I had trouble finding movies from 199x. The database might not have comprehensive information for this time period.",
     no_calls).
Proof.
  apply (unreadable_year_never_reaches_the_store Fixtures.silent "199x" no_calls).
  reflexivity.
Defined.

(** X17.  The year handler asks the rated query first.  It asks the
    relaxed query, with the same bounds, exactly when the rated one
    returned no row; if that returns no row either, the reply says
    that no movie of the period was found. *)
Theorem relaxed_year_query_only_after_no_rows
        (R : Runtime) (year_str : string) (t : trace) (start_year end_year : Z) :
  year_bounds year_str = Some (start_year, end_year) ->
  let first := YearMovies start_year end_year in
  let relaxed := YearMoviesRelaxed start_year end_year in
  let asked := db_log (snd (handle_year_query R year_str t)) in
  match execute R (List.length (db_log t)) first with
  | Ok (_ :: _) | Raise _ => asked = db_log t ++ [first]
  | Ok [] =>
      asked = db_log t ++ [first; relaxed]
      /\ (execute R (S (List.length (db_log t))) relaxed = Ok [] ->
          fst (handle_year_query R year_str t)
          = Ok ("I couldn't find any movies from the "
                ++ period_name year_str start_year ++ " in the database.")%string)
  end.
Proof.
  intros Hb. cbv zeta. unfold handle_year_query. rewrite Hb. open_monad.
  destruct (execute R (List.length (db_log t)) _) as [[|row rows]|e]; open_monad.
  - rewrite length_app, Nat.add_1_r.
    destruct (execute R (S (List.length (db_log t))) _) as [[|row rows]|e];
      open_monad; cbn [snd fst db_log]; rewrite <- ?app_assoc.
    + split; [reflexivity|]. reflexivity.
    + destruct (bind _ _); cbn [snd fst db_log]; rewrite <- ?app_assoc;
        (split; [reflexivity | discriminate]).
    + split; [reflexivity | discriminate].
  - destruct (bind _ _); reflexivity.
  - reflexivity.
Qed.

Lemma relaxed_year_query_only_after_no_rows_witness :
  db_log (snd (handle_year_query Fixtures.silent "1990s" no_calls))
  = [YearMovies 1990 1999; YearMoviesRelaxed 1990 1999]
  /\ (execute Fixtures.silent 1 (YearMoviesRelaxed 1990 1999) = Ok [] ->
      fst (handle_year_query Fixtures.silent "1990s" no_calls)
      = Ok "I couldn't find any movies from the 1990s in the database.").
Proof.
  apply (relaxed_year_query_only_after_no_rows Fixtures.silent "1990s" no_calls 1990 1999).
  reflexivity.
Defined.

(** X18.  When neither the title lookup nor the first-word lookup
    finds a row, the similarity handler stops after these two queries
    and asks the user to check the title. *)
Theorem unknown_title_stops_after_two_lookups
        (R : Runtime) (movie_title : string) (t : trace) :
  execute R (List.length (db_log t)) (FindMovieByTitle movie_title) = Ok [] ->
  execute R (S (List.length (db_log t))) (FindMovieByFirstWord movie_title) = Ok [] ->
  handle_similar_movies_query R movie_title t
  = (Ok ("I couldn't find information about '" ++ movie_title
         ++ "'. Could you check the spelling or try another movie title?")%string,
     {| db_log := db_log t ++ [FindMovieByTitle movie_title;
                               FindMovieByFirstWord movie_title];
        llm_log := llm_log t |}).
Proof.
  intros H1 H2. unfold handle_similar_movies_query. open_monad.
  rewrite H1. open_monad. rewrite length_app, Nat.add_1_r, H2. open_monad.
  now rewrite <- app_assoc.
Qed.

Lemma unknown_title_stops_after_two_lookups_witness :
  handle_similar_movies_query Fixtures.silent "titanic" no_calls
  = (Ok "I couldn't find information about 'titanic'. Could you check the spelling or try another movie title?",
     {| db_log := [FindMovieByTitle "titanic"; FindMovieByFirstWord "titanic"];
        llm_log := [] |}).
Proof.
  apply (unknown_title_stops_after_two_lookups Fixtures.silent "titanic" no_calls);
    reflexivity.
Defined.

(** X19.  In the generic handler a generated query that raises with
    "syntax error" in its message (in any letter case) is continued
    exactly like one that returns no row, by [handle_empty_results]
    from the same trace; any other exception ends in the apology that
    quotes the query, without a template query. *)
Theorem syntax_error_is_handled_like_no_rows
        (R : Runtime) (query content : string) (t : trace) :
  invoke R (List.length (llm_log t)) (AqlPrompt query) = Ok content ->
  let generated := Generated (fenced_query content) in
  let t1 := {| db_log := db_log t ++ [generated];
               llm_log := llm_log t ++ [AqlPrompt query] |} in
  match execute R (List.length (db_log t)) generated with
  | Ok [] => standard_query_processing R query t = handle_empty_results R query t1
  | Ok (_ :: _) => True
  | Raise e =>
      if str_in "syntax error" (lower (exn_str e))
      then standard_query_processing R query t = handle_empty_results R query t1
      else standard_query_processing R query t
           = (Ok ("I couldn't find the information you requested about " ++ query
                  ++ ". Could you try rephrasing your question?")%string, t1)
  end.
Proof.
  intros Hc. cbv zeta. unfold standard_query_processing. open_monad. rewrite Hc.
  open_monad. cbn [db_log].
  destruct (execute R (List.length (db_log t)) _) as [[|row rows]|e]; open_monad.
  - match goal with |- context [handle_empty_results R query ?t0] =>
      destruct (handle_empty_results_total R query t0) as (text & t' & E & _) end.
    now rewrite E.
  - exact I.
  - now destruct (str_in _ _).
Qed.

Lemma syntax_error_is_handled_like_no_rows_witness :
  standard_query_processing Fixtures.silent "anything new" no_calls
  = handle_empty_results Fixtures.silent "anything new"
      {| db_log := [Generated "FOR m IN MovieLens_node FILTER false RETURN m"];
         llm_log := [AqlPrompt "anything new"] |}.
Proof.
  apply (syntax_error_is_handled_like_no_rows Fixtures.silent "anything new"
           ("```aql" ++ nl ++ "FOR m IN MovieLens_node FILTER false RETURN m" ++ nl ++ "```")%string
           no_calls).
  reflexivity.
Defined.

(** X20.  When the model fails, the reply quotes the exception: on
    the generic path a failing first call means the store is never
    asked, and on any path a failing call for the final phrasing
    replaces the handler's text by the error message. *)
Theorem model_failure_is_reported
        (R : Runtime) (query : string) (e : exn) :
  (select_handler query = StandardQuery query ->
   invoke R 0 (AqlPrompt query) = Raise e ->
   query_movie_graph R query no_calls
   = (Ok ("I encountered an error while processing your request: " ++ exn_str e
          ++ ". Could you try rephrasing your question?")%string,
      {| db_log := []; llm_log := [AqlPrompt query] |}))
  /\ (forall response t1,
         text_to_aql_to_text R query no_calls = (Ok response, t1) ->
         invoke R (List.length (llm_log t1)) (ConversationalPrompt query response)
         = Raise e ->
         fst (query_movie_graph R query no_calls)
         = Ok ("I encountered an error while processing your request: " ++ exn_str e
               ++ ". Could you try rephrasing your question?")%string).
Proof.
  split.
  - intros Hsel Hfail. unfold query_movie_graph, text_to_aql_to_text.
    rewrite Hsel. unfold standard_query_processing. open_monad.
    cbn [no_calls llm_log db_log List.length app]. now rewrite Hfail.
  - intros response t1 Hrun Hfail. unfold query_movie_graph. open_monad.
    rewrite Hrun. open_monad. now rewrite Hfail.
Qed.

Lemma model_failure_is_reported_witness :
  query_movie_graph Samples.model_down "anything new" no_calls
  = (Ok "I encountered an error while processing your request: Connection error.. Could you try rephrasing your question?",
     {| db_log := []; llm_log := [AqlPrompt "anything new"] |}).
Proof.
  apply (proj1 (model_failure_is_reported Samples.model_down "anything new"
                  (PyError "APIConnectionError" "Connection error.")));
    reflexivity.
Defined.

Import App Endpoints.

Lemma query_movie_graph_returns (R : Runtime) (query : string) (t : trace) :
  exists text t', ChatAgent.query_movie_graph R query t = (Ok text, t').
Proof.
  unfold ChatAgent.query_movie_graph. open_monad.
  destruct (text_to_aql_to_text R query t) as [[response|e] t1]; open_monad.
  - destruct (invoke R (List.length (llm_log t1)) _); do 2 eexists; reflexivity.
  - do 2 eexists; reflexivity.
Qed.

(** X21.  The chat endpoint always answers 200 with a text: the
    agent catches what its collaborators raise, so the endpoint's own
    [except] clause is never entered. *)
Theorem chat_endpoint_always_answers_200 (R : Runtime) (message : string) :
  exists text, chat R message = Http200 text.
Proof.
  unfold chat.
  destruct (query_movie_graph_returns R message no_calls) as (text & t' & ->).
  now exists text.
Qed.

(** X22.  With the chat agent behind it, an analytics request whose
    query holds none of "pagerank", "communit", "path", "route",
    "central" is answered 200 with the tag "general" and the text the
    chat endpoint would give, whether or not a context was sent. *)
Theorem general_analytics_go_to_the_chat_agent
        (A : Analytics) (R : Runtime) (request : AnalyticsRequest) :
  (forall q, App.query_movie_graph A q
             = match fst (ChatAgent.query_movie_graph R q no_calls) with
               | Ok text => Ok (JStr text)
               | Raise e => Raise e
               end) ->
  any_in ["pagerank"; "communit"; "path"; "route"; "central"] (lower (query request))
  = false ->
  exists text,
    chat R (query request) = Http200 text
    /\ run_analytics A request = Http200 ("general", JStr text).
Proof.
  intros Hagent Hnone.
  destruct (query_movie_graph_returns R (query request) no_calls) as (text & t' & Hrun).
  assert (Htext : chat R (query request) = Http200 text)
    by (unfold chat; now rewrite Hrun).
  exists text. split; [exact Htext|].
  unfold any_in in Hnone. cbn [existsb] in Hnone.
  repeat (apply orb_false_iff in Hnone as [? Hnone]).
  unfold run_analytics, run_analytics_try.
  repeat match goal with H : str_in _ _ = false |- _ => rewrite H; clear H end.
  cbn [orb]. rewrite Hagent.
  unfold chat in Htext.
  destruct (fst (ChatAgent.query_movie_graph R (query request) no_calls));
    [now injection Htext as -> | discriminate].
Qed.

Lemma general_analytics_go_to_the_chat_agent_witness :
  exists text,
    chat Fixtures.silent "anything new" = Http200 text
    /\ run_analytics (Samples.backed_by Fixtures.silent)
                     {| query := "anything new"; context := None |}
       = Http200 ("general", JStr text).
Proof.
  apply (general_analytics_go_to_the_chat_agent (Samples.backed_by Fixtures.silent)
           Fixtures.silent {| query := "anything new"; context := None |}).
  - reflexivity.
  - reflexivity.
Defined.

(** X23.  An analytics request without a context whose query holds
    one of the five keywords is answered 500: every keyword branch
    calls [get] on the missing context. *)
Theorem analytics_without_context_answer_500
        (A : Analytics) (request : AnalyticsRequest) :
  context request = None ->
  any_in ["pagerank"; "communit"; "path"; "route"; "central"] (lower (query request))
  = true ->
  run_analytics A request
  = HttpError 500 "Error running analytics: 'NoneType' object has no attribute 'get'".
Proof.
  intros Hctx Hkw. unfold run_analytics, run_analytics_try, context_get.
  rewrite Hctx. unfold any_in in Hkw. cbn [existsb] in Hkw.
  destruct (str_in "pagerank" _); [reflexivity|].
  destruct (str_in "communit" _); [reflexivity|].
  destruct (str_in "path" _); [reflexivity|].
  destruct (str_in "route" _); [reflexivity|].
  destruct (str_in "central" _); [reflexivity|].
  discriminate.
Qed.

Lemma analytics_without_context_answer_500_witness :
  run_analytics (Samples.backed_by Fixtures.silent)
                {| query := "PageRank of the top movies"; context := None |}
  = HttpError 500 "Error running analytics: 'NoneType' object has no attribute 'get'".
Proof.
  apply analytics_without_context_answer_500; reflexivity.
Defined.

(* ----------------------------------------------------------------- *)
(** ** The shortest path *)

Section Paths.
Import GraphAlgorithms.


End Paths.

Import GraphAlgorithms.

(** X24.  A result of [find_shortest_path] names the two normalised
    ids.  Without a row it says [path_exists = False], has an empty
    path and no length; with a row it says [path_exists = True] and
    its length is the number of path items less one. *)
Theorem path_result_is_consistent
        (path_query : string -> string -> result (list path_data))
        (source_id target_id : string) (r : PathResult) :
  find_shortest_path path_query source_id target_id = Ok r ->
  source r = normalize_movie_id source_id
  /\ target r = normalize_movie_id target_id
  /\ (if path_exists r
      then path_length r = Some (Z.of_nat (List.length (path r)) - 1)%Z
           /\ exists row more,
                path_query (normalize_movie_id source_id) (normalize_movie_id target_id)
                = Ok (row :: more)
      else path r = [] /\ path_length r = None
           /\ path_query (normalize_movie_id source_id) (normalize_movie_id target_id)
              = Ok []).
Proof.
  unfold find_shortest_path.
  destruct (path_query _ _) as [[|row more]|e]; cbn [bind]; [| |discriminate].
  - intros [= <-]. cbn. auto.
  - destruct (format_path _ _) as [items|e]; cbn [bind]; [|discriminate].
    intros [= <-]. cbn. repeat split. now exists row, more.
Qed.

Lemma path_result_is_consistent_witness :
  "movie_1" = normalize_movie_id "1"
  /\ "movie_6" = normalize_movie_id "movie_6"
  /\ (@nil PathItem = [] /\ @None Z = None
      /\ Samples.one_route (normalize_movie_id "1") (normalize_movie_id "movie_6") = Ok []).
Proof.
  apply (path_result_is_consistent Samples.one_route "1" "movie_6"
           (mkPathResult "movie_1" "movie_6" false None [])).
  reflexivity.
Defined.



(* ----------------------------------------------------------------- *)
(** ** PageRank and centrality *)

Section Measures.
Import GraphAlgorithms.

Lemma slice_to_incl {A : Type} (limit : Z) (l : list A) (x : A) :
  In x (slice_to limit l) -> In x l.
Proof. unfold slice_to. destruct (0 <=? limit)%Z; apply firstn_incl. Qed.

Lemma slice_to_sorted {A : Type} (R : A -> A -> Prop) (limit : Z) (l : list A) :
  Sorted R l -> Sorted R (slice_to limit l).
Proof. unfold slice_to. destruct (0 <=? limit)%Z; apply firstn_sorted. Qed.

Lemma slice_to_length {A : Type} (limit : Z) (l : list A) :
  (0 <= limit)%Z ->
  List.length (slice_to limit l) = Nat.min (Z.to_nat limit) (List.length l).
Proof.
  intros H. unfold slice_to. apply Z.leb_le in H. rewrite H. apply length_firstn.
Qed.

Lemma slice_to_same_length {A B : Type} (limit : Z) (l : list A) (l' : list B) :
  List.length l = List.length l' ->
  List.length (slice_to limit l) = List.length (slice_to limit l').
Proof.
  intros H. unfold slice_to.
  destruct (0 <=? limit)%Z; rewrite !length_firstn, H; reflexivity.
Qed.

Lemma sort_desc_perm {A : Type} (key : A -> Q) (l : list A) :
  Permutation (sort_desc key l) l.
Proof. apply aql_sort_perm. Qed.

Lemma sort_desc_sorted {A : Type} (key : A -> Q) (l : list A) :
  Sorted (fun a b => key b <= key a) (sort_desc key l).
Proof.
  unfold sort_desc.
  set (before := fun x y : A => negb (Qle_bool (key x) (key y))).
  assert (Hs : Sorted (RecommendationEngine.in_order before)
                      (RecommendationEngine.aql_sort before l)).
  { apply aql_sort_sorted. intros x y H. unfold before in *.
    apply negb_true_iff in H. apply negb_false_iff, Qle_bool_iff.
    destruct (Qlt_le_dec (key x) (key y)) as [Hlt | Hle]; [|exact Hle].
    apply Qlt_le_weak, Qle_bool_iff in Hlt. congruence. }
  induction Hs as [|a s Hs IH Hhd]; constructor; [exact IH|].
  destruct Hhd as [|b s Hb]; constructor.
  unfold RecommendationEngine.in_order, before in Hb.
  now apply negb_false_iff, Qle_bool_iff in Hb.
Qed.

Lemma add_node_attributed (movies : list Node) (m : Node)
      (ns : list (string * option Node)) :
  In m movies -> attributed movies ns -> attributed movies (add_node m ns).
Proof.
  intros Hm. induction ns as [|[k a] ns IH]; intros Hns k' attrs; cbn [add_node].
  - intros [Heq | []]. injection Heq as Hk _. now exists m.
  - destruct (String.eqb k (n_id m)) eqn:E.
    + apply String.eqb_eq in E. intros [Heq | Hin].
      * injection Heq as Hk _. exists m. split; [exact Hm | congruence].
      * apply (Hns k' attrs). now right.
    + intros [Heq | Hin].
      * apply (Hns k' attrs). left. exact Heq.
      * refine (IH _ k' attrs Hin).
        intros k2 a2 H2. apply (Hns k2 a2). now right.
Qed.

Lemma touch_node_attributed (movies : list Node) (k : string)
      (ns : list (string * option Node)) :
  attributed movies ns -> attributed movies (touch_node k ns).
Proof.
  induction ns as [|[k' a] ns IH]; intros Hns k2 attrs; cbn [touch_node].
  - intros [Heq | []]. discriminate Heq.
  - destruct (String.eqb k' k); [apply Hns|].
    intros [Heq | Hin].
    + apply (Hns k2 attrs). left. exact Heq.
    + refine (IH _ k2 attrs Hin).
      intros k3 a3 H3. apply (Hns k3 a3). now right.
Qed.

Lemma build_graph_attributed {W : Type} (attach : Edge -> W)
      (movies : list Node) (es : list Edge) :
  attributed movies (nx_nodes (build_graph attach movies es)).
Proof.
  unfold build_graph.
  set (G0 := {| nx_nodes := fold_left (fun ns m => add_node m ns) movies [];
                nx_edges := [] |}).
  assert (H0 : attributed movies (nx_nodes G0)).
  { cbn [G0 nx_nodes].
    assert (Hgen : forall sub ns, incl sub movies -> attributed movies ns ->
              attributed movies (fold_left (fun ns m => add_node m ns) sub ns)).
    { induction sub as [|m sub IH]; intros ns Hincl Hns; [exact Hns|].
      cbn [fold_left]. apply IH.
      - intros x Hx. apply Hincl. now right.
      - apply add_node_attributed; [apply Hincl; now left | exact Hns]. }
    apply Hgen; [apply incl_refl | intros k a []]. }
  clearbody G0. revert G0 H0.
  induction es as [|e es IH]; intros G0 H0; [exact H0|].
  cbn [fold_left]. apply IH. cbn [add_edge nx_nodes].
  now apply touch_node_attributed, touch_node_attributed.
Qed.

Lemma node_data_in (ns : list (string * option Node)) (k : string) (a : option Node) :
  node_data ns k = Some a -> In (k, a) ns.
Proof.
  induction ns as [|[k' a'] ns IH]; cbn [node_data]; [discriminate|].
  destruct (String.eqb k' k) eqn:E.
  - apply String.eqb_eq in E. intros [= <-]. left. now subst.
  - intros H. right. now apply IH.
Qed.

Lemma movie_attrs_is_movie {W : Type} (attach : Edge -> W) (s : Store)
      (es : list Edge) (k : string) (attrs : Node) :
  movie_attrs (build_graph attach (all_movies s) es) k = Some attrs ->
  exists movie,
    In movie (MovieLens_node s) /\ n_id movie = k /\ n_type movie = Some "movie".
Proof.
  unfold movie_attrs.
  destruct (node_data _ k) as [[a|]|] eqn:Hd; try discriminate.
  intros _. apply node_data_in in Hd.
  destruct (build_graph_attributed attach (all_movies s) es k a Hd) as (movie & Hm & Hid).
  unfold all_movies in Hm. apply filter_In in Hm as [Hm Hty].
  exists movie. repeat split; auto.
  unfold opt_str_eqb in Hty. destruct (n_type movie) as [ty|]; [|discriminate].
  apply String.eqb_eq in Hty. now subst.
Qed.

Lemma ranked_row {W : Type} (G : nx_graph W) (k : string) (score : Q) (r : Ranked) :
  In r (ranked G k score) ->
  r_id r = k /\ r_score r = score /\ exists attrs, movie_attrs G k = Some attrs.
Proof.
  unfold ranked. destruct (movie_attrs G k) as [attrs|]; [|intros []].
  intros [<- | []]. cbn. repeat split. now exists attrs.
Qed.

Lemma ranked_length {W : Type} (G : nx_graph W) (k : string) (a b : Q) :
  List.length (ranked G k a) = List.length (ranked G k b).
Proof. unfold ranked. now destruct (movie_attrs G k). Qed.

Lemma measure_length (G : nx_graph Q) (sc1 sc2 : list (string * Q)) (limit : Z) :
  List.length (measure G sc1 limit) = List.length (measure G sc2 limit).
Proof.
  unfold measure. apply slice_to_same_length.
  rewrite !(Permutation_length (sort_desc_perm _ _)).
  induction (nx_nodes G) as [|node ns IH]; [reflexivity|].
  cbn [flat_map]. rewrite !length_app, IH.
  f_equal. apply ranked_length.
Qed.

End Measures.

Import GraphAlgorithms.

(** X26.  The PageRank list is in descending order of score, has at
    most [limit] entries for a limit that is not negative, and every
    entry is a document of type movie with the score the library
    gave it: nodes that only an edge brought into the graph (genres,
    tags) are never listed. *)
Theorem pagerank_lists_movies_by_score
        (L : Library) (s : Store) (limit : Z) (rows : list Ranked) :
  calculate_pagerank L s limit = Ok rows ->
  Sorted (fun a b => r_score b <= r_score a) rows
  /\ ((0 <= limit)%Z -> (Z.of_nat (List.length rows) <= limit)%Z)
  /\ forall r, In r rows ->
       (exists movie,
           In movie (MovieLens_node s)
           /\ n_id movie = r_id r /\ n_type movie = Some "movie")
       /\ exists scores,
            pagerank L (build_graph (fun e => e) (all_movies s) (relevant_edges s))
            = Ok scores
            /\ In (r_id r, r_score r) scores.
Proof.
  unfold calculate_pagerank.
  destruct (pagerank L _) as [scores|e] eqn:Hp; cbn [bind]; [|discriminate].
  intros [= <-]. split; [apply slice_to_sorted, sort_desc_sorted|]. split.
  - intros Hlimit. rewrite slice_to_length by exact Hlimit. lia.
  - intros r Hr. apply slice_to_incl in Hr.
    apply (Permutation_in _ (sort_desc_perm _ _)) in Hr.
    apply in_flat_map in Hr as ([k score] & Hitem & Hr). cbn [fst snd] in Hr.
    apply ranked_row in Hr as (Hid & Hscore & attrs & Hattrs). split.
    + rewrite Hid. now apply movie_attrs_is_movie in Hattrs.
    + exists scores. split; [reflexivity|]. now rewrite Hid, Hscore.
Qed.

Lemma pagerank_lists_movies_by_score_witness :
  exists rows,
    calculate_pagerank Samples.fixed_library Fixtures.tie_store 2 = Ok rows
    /\ map r_id rows = ["movie_2"; "movie_6"]
    /\ Sorted (fun a b => r_score b <= r_score a) rows
    /\ ((0 <= 2)%Z -> (Z.of_nat (List.length rows) <= 2)%Z).
Proof.
  eexists. split; [reflexivity|]. split; [reflexivity|].
  pose proof (pagerank_lists_movies_by_score Samples.fixed_library Fixtures.tie_store 2
                _ eq_refl) as (Hs & Hl & _).
  split; [exact Hs | exact Hl].
Defined.

(** X27.  The three centrality lists have the same length, at most
    [limit] for a limit that is not negative; each is in descending
    order of its measure and lists movies only. *)
Theorem centrality_lists_agree
        (L : Library) (s : Store) (limit : Z) (c : Centrality) :
  calculate_centrality L s limit = Ok c ->
  List.length (degree c) = List.length (betweenness c)
  /\ List.length (betweenness c) = List.length (closeness c)
  /\ ((0 <= limit)%Z -> (Z.of_nat (List.length (degree c)) <= limit)%Z)
  /\ Sorted (fun a b => r_score b <= r_score a) (degree c)
  /\ Sorted (fun a b => r_score b <= r_score a) (betweenness c)
  /\ Sorted (fun a b => r_score b <= r_score a) (closeness c)
  /\ forall r, In r (degree c) \/ In r (betweenness c) \/ In r (closeness c) ->
       exists movie,
         In movie (MovieLens_node s)
         /\ n_id movie = r_id r /\ n_type movie = Some "movie".
Proof.
  unfold calculate_centrality.
  destruct (degree_centrality L _) as [sd|e]; cbn [bind]; [|discriminate].
  destruct (betweenness_centrality L _) as [sb|e]; cbn [bind]; [|discriminate].
  destruct (closeness_centrality L _) as [sc|e]; cbn [bind]; [|discriminate].
  intros [= <-]. cbn [degree betweenness closeness].
  split; [apply measure_length|]. split; [apply measure_length|]. split.
  { intros Hlimit. unfold measure. rewrite slice_to_length by exact Hlimit. lia. }
  split; [apply slice_to_sorted, sort_desc_sorted|].
  split; [apply slice_to_sorted, sort_desc_sorted|].
  split; [apply slice_to_sorted, sort_desc_sorted|].
  assert (Hrow : forall scores r, In r (measure
             (build_graph centrality_weight (all_movies s) (relevant_edges s))
             scores limit) ->
           exists movie, In movie (MovieLens_node s)
                         /\ n_id movie = r_id r /\ n_type movie = Some "movie").
  { intros scores r Hr. unfold measure in Hr. apply slice_to_incl in Hr.
    apply (Permutation_in _ (sort_desc_perm _ _)) in Hr.
    apply in_flat_map in Hr as ([k a] & _ & Hr). cbn [fst] in Hr.
    apply ranked_row in Hr as (Hid & _ & attrs & Hattrs).
    rewrite Hid. now apply movie_attrs_is_movie in Hattrs. }
  intros r [Hr | [Hr | Hr]]; eapply Hrow; exact Hr.
Qed.

Lemma centrality_lists_agree_witness :
  exists c,
    calculate_centrality Samples.fixed_library Fixtures.tie_store 2 = Ok c
    /\ map r_id (degree c) = ["movie_2"; "movie_6"]
    /\ map r_id (betweenness c) = ["movie_2"; "movie_1"]
    /\ List.length (degree c) = List.length (betweenness c)
    /\ List.length (betweenness c) = List.length (closeness c).
Proof.
  eexists. split; [reflexivity|]. split; [reflexivity|]. split; [reflexivity|].
  pose proof (centrality_lists_agree Samples.fixed_library Fixtures.tie_store 2
                _ eq_refl) as (H1 & H2 & _).
  split; [exact H1 | exact H2].
Defined.

(* ----------------------------------------------------------------- *)
(** ** Communities *)

Section Communities.
Import GraphAlgorithms.

Lemma label_from_members (sorted : list (nat * list Member)) :
  forall i, map snd (label_from i sorted) = map snd sorted.
Proof.
  induction sorted as [|[c ms] rest IH]; intros i; [reflexivity|].
  cbn [label_from map snd]. now rewrite IH.
Qed.

Lemma label_from_labels (sorted : list (nat * list Member)) :
  forall i,
    map fst (label_from i sorted)
    = map (fun k => ("community_" ++ Py.string_of_nat k)%string)
          (seq i (List.length sorted)).
Proof.
  induction sorted as [|[c ms] rest IH]; intros i; [reflexivity|].
  cbn [label_from map fst List.length seq]. now rewrite IH.
Qed.

Lemma label_from_length (sorted : list (nat * list Member)) :
  forall i, List.length (label_from i sorted) = List.length sorted.
Proof.
  intros i. rewrite <- (length_map snd), label_from_members. apply length_map.
Qed.

Lemma group_into_members (Q : Member -> Prop) (c : nat) (ms : list Member)
      (communities : list (nat * list Member)) :
  Forall Q ms ->
  Forall (fun g => Forall Q (snd g)) communities ->
  Forall (fun g => Forall Q (snd g)) (group_into c ms communities).
Proof.
  intros Hms. induction 1 as [|[c' ms'] rest Hg Hrest IH]; cbn [group_into].
  - constructor; [exact Hms | constructor].
  - destruct (Nat.eqb c' c).
    + constructor; [|exact Hrest]. cbn [snd] in *. apply Forall_app. now split.
    + constructor; [exact Hg | exact IH].
Qed.

Lemma group_communities_members {W : Type} (Q : Member -> Prop) (G : nx_graph W)
      (partition : list (string * nat)) :
  (forall k m, In m (member G k) -> Q m) ->
  Forall (fun g => Forall Q (snd g)) (group_communities G partition).
Proof.
  intros HQ. unfold group_communities.
  assert (Hgen : forall acc,
            Forall (fun g => Forall Q (snd g)) acc ->
            Forall (fun g => Forall Q (snd g))
                   (fold_left (fun communities item =>
                                 group_into (snd item) (member G (fst item)) communities)
                              partition acc)).
  { induction partition as [|[k c] rest IH]; intros acc Hacc; [exact Hacc|].
    cbn [fold_left]. apply IH. apply group_into_members; [|exact Hacc].
    apply Forall_forall. intros m Hm. now apply (HQ k). }
  apply Hgen. constructor.
Qed.

Lemma member_is_movie {W : Type} (attach : Edge -> W) (s : Store) (es : list Edge)
      (k : string) (m : Member) :
  In m (member (build_graph attach (all_movies s) es) k) ->
  exists movie,
    In movie (MovieLens_node s) /\ n_id movie = m_id m /\ n_type movie = Some "movie".
Proof.
  unfold member.
  destruct (movie_attrs _ k) as [attrs|] eqn:Ha; [|intros []].
  intros [<- | []]. cbn [m_id]. now apply movie_attrs_is_movie in Ha.
Qed.

End Communities.

Import GraphAlgorithms.

(** X28.  The communities are labelled [community_0],
    [community_1], ... in that order, their sizes do not rise from one
    to the next, and every member is a document of type movie. *)
Theorem communities_are_labelled_by_size
        (L : Library) (s : Store) (algorithm : string)
        (communities : list (string * list Member)) :
  detect_communities L s algorithm = Ok communities ->
  map fst communities
  = map (fun i => ("community_" ++ Py.string_of_nat i)%string)
        (seq 0 (List.length communities))
  /\ Sorted (fun a b : list Member => (List.length b <= List.length a)%nat)
            (map snd communities)
  /\ forall label members m,
       In (label, members) communities -> In m members ->
       exists movie,
         In movie (MovieLens_node s)
         /\ n_id movie = m_id m /\ n_type movie = Some "movie".
Proof.
  unfold detect_communities.
  set (G := build_graph similarity_weight (all_movies s) (similarity_edges s)).
  match goal with
  | |- bind ?m _ = _ -> _ => destruct m as [partition'|e]
  end; cbn [bind]; [|discriminate].
  intros [= <-]. split; [|split].
  - rewrite label_from_length. apply label_from_labels.
  - rewrite label_from_members.
    eapply Sorted_map; [|apply sort_desc_sorted].
    intros x y Hxy. unfold community_size in Hxy.
    rewrite <- Zle_Qle in Hxy. lia.
  - intros label members m Hin Hm.
    assert (Hmem : In members (map snd (label_from 0
               (sort_desc community_size (group_communities G partition'))))).
    { apply in_map_iff. now exists (label, members). }
    rewrite label_from_members in Hmem.
    apply in_map_iff in Hmem as (g & <- & Hg).
    apply (Permutation_in _ (sort_desc_perm _ _)) in Hg.
    pose proof (group_communities_members
                  (fun m => exists movie,
                       In movie (MovieLens_node s)
                       /\ n_id movie = m_id m /\ n_type movie = Some "movie")
                  G partition') as Hall.
    assert (HQ : forall k m0, In m0 (member G k) ->
               exists movie, In movie (MovieLens_node s)
                             /\ n_id movie = m_id m0 /\ n_type movie = Some "movie").
    { intros k m0. apply member_is_movie. }
    specialize (Hall HQ). rewrite Forall_forall in Hall.
    specialize (Hall g Hg). rewrite Forall_forall in Hall. now apply Hall.
Qed.

Lemma communities_are_labelled_by_size_witness :
  exists communities,
    detect_communities Samples.fixed_library Fixtures.tie_store "Louvain"
    = Ok communities
    /\ map fst communities = ["community_0"; "community_1"]
    /\ map (fun c => map m_id (snd c)) communities
       = [["movie_2"; "movie_6"]; ["movie_1"]]
    /\ Sorted (fun a b : list Member => (List.length b <= List.length a)%nat)
              (map snd communities).
Proof.
  eexists. split; [reflexivity|]. split; [reflexivity|]. split; [reflexivity|].
  exact (proj1 (proj2 (communities_are_labelled_by_size Samples.fixed_library
                         Fixtures.tie_store "Louvain" _ eq_refl))).
Defined.
